(** * Virtual list: the positioning engine of [src/List.tsx]

    A shallow embedding of the [List] component (its instance fields, its
    React state and its methods) together with the helpers it imports from
    [utils/itemUtil] and [utils/algorithmUtil].

    Numbers.  Pixel quantities ([scrollTop], [clientHeight], item heights,
    the [height] and [itemHeight] props) are whole pixels in [Z]; indices
    are in [Z]; scroll percentages and relative tops are exact rationals
    in [Q].  [null] and [undefined] are [None].

    The container.  [listRef.current] is the scrollable element when the
    last render took the windowed branch (which passes [ref]) and [null]
    otherwise; a method that dereferences it while it is [null] throws.  A
    call therefore yields an [Outcome]: it returned, or it threw, in
    either case with the instance as the call left it. *)

From Stdlib Require Import ZArith QArith Qround Qminmax Qabs Lia List String.
From stdpp Require Import gmap strings list pretty.
Import ListNotations.

Open Scope Z_scope.

(** ** JavaScript values used by the component *)

Module JS.

(** What [item[itemKey]] and [getIndexKey] can evaluate to. *)
Inductive Key : Type :=
| KUndefined
| KNull
| KString (s : string).

Definition Key_eqb (a b : Key) : bool :=
  match a, b with
  | KUndefined, KUndefined => true
  | KNull, KNull => true
  | KString s, KString t => bool_decide (s = t)
  | _, _ => false
  end.

(** Property name under which a key indexes a plain object. *)
Definition propName (k : Key) : string :=
  match k with
  | KUndefined => "undefined"
  | KNull => "null"
  | KString s => s
  end.

(** [ToNumber] of a [number | null]. *)
Definition toNumber (o : option Z) : Z :=
  match o with
  | Some z => z
  | None => 0
  end.

(** [Math.ceil(a / b)] for a finite quotient ([b <> 0]). *)
Definition ceilDiv (a b : Z) : Z := - ((- a) / b).

(** [list.slice(from, to)] for integer arguments. *)
Definition slice {A} (l : list A) (from to : Z) : list A :=
  let len := Z.of_nat (length l) in
  let k := if from <? 0 then Z.max (len + from) 0 else Z.min from len in
  let final := if to <? 0 then Z.max (len + to) 0 else Z.min to len in
  firstn (Z.to_nat (Z.max (final - k) 0)) (skipn (Z.to_nat k) l).

(** [list[index]]. *)
Definition index {A} (l : list A) (i : Z) : option A :=
  if i <? 0 then None else nth_error l (Z.to_nat i).

End JS.

(** ** Percentage Mapper ([utils/itemUtil]) *)

Definition clamp01 (q : Q) : Q := Qmax 0 (Qmin q 1).

(** Modelled from the spec: [getScrollPercentage] of [utils/itemUtil] is not
    in the source tree.  Section 4.1: the fraction is
    [scrollOffset / max(1, scrollableHeight - viewportHeight)] clamped to
    [0,1], and the function returns 0 when the content fits the viewport
    (sections 4.1 and 7: a zero or negative difference gives 0). *)
Definition getScrollPercentage (scrollTop scrollHeight clientHeight : Z) : Q :=
  let scrollTopHeight := scrollHeight - clientHeight in
  if scrollTopHeight <=? 0 then 0%Q
  else clamp01 (inject_Z scrollTop / inject_Z (Z.max 1 scrollTopHeight)).

(** The formula of section 4.1 alone, without the guard. *)
Definition scrollFractionFormula (scrollOffset scrollableHeight viewportHeight : Z) : Q :=
  clamp01 (inject_Z scrollOffset / inject_Z (Z.max 1 (scrollableHeight - viewportHeight))).

(** ** Range Locator ([utils/itemUtil]) *)

Record RangeIndex : Type := mkRangeIndex {
  ri_itemIndex : Z;
  ri_itemOffsetPtg : Q;
  ri_startIndex : Z;
  ri_endIndex : Z
}.

(** Modelled from the spec: the located item of section 4.2.  The scroll
    fraction indexes [n] equal slices: [floor(fraction * n)] clamped to
    [[0, n]], where [n] is the sentinel past the last item. *)
Definition locatedIndex (scrollPtg : Q) (itemCount : Z) : Z :=
  Z.max 0 (Z.min itemCount (Qfloor (scrollPtg * inject_Z itemCount))).

(** Modelled from the spec: the fractional remainder inside the located
    slice, zero for the sentinel (section 3). *)
Definition locatedOffsetPtg (scrollPtg : Q) (itemCount : Z) : Q :=
  let i := locatedIndex scrollPtg itemCount in
  if i =? itemCount then 0%Q
  else (scrollPtg * inject_Z itemCount - inject_Z i)%Q.

(** Modelled from the spec: the half-capacity buffer of section 4.2. *)
Definition halfCapacity (visibleCount : Z) : Z := JS.ceilDiv visibleCount 2.

(** Modelled from the spec: [getRangeIndex] of [utils/itemUtil] is not in
    the source tree.  Section 4.2: the window extends a half-capacity
    buffer before and after the located index and is clamped to
    [[0, n-1]]. *)
Definition getRangeIndex (scrollPtg : Q) (itemCount visibleCount : Z) : RangeIndex :=
  let i := locatedIndex scrollPtg itemCount in
  {| ri_itemIndex := i;
     ri_itemOffsetPtg := locatedOffsetPtg scrollPtg itemCount;
     ri_startIndex := Z.max 0 (i - halfCapacity visibleCount);
     ri_endIndex := Z.min (itemCount - 1) (i + halfCapacity visibleCount) |}.

(** [Math.ceil(height / itemHeight)] as both [onScroll] and [scrollTo]
    compute it.  The quotient is a finite number when [height] is defined
    and [itemHeight] is not zero; the value chosen outside that case (where
    JavaScript has NaN or an infinity) is 0. *)
Definition visibleCountOf (height : option Z) (itemHeight : Z) : Z :=
  match height with
  | Some h => if itemHeight =? 0 then 0 else JS.ceilDiv h itemHeight
  | None => 0
  end.

(** ** Data model of the component *)

(** An item of [dataSource]: an object whose properties hold strings. *)
Definition Item : Type := gmap string string.

(** [ListProps], with [defaultProps] already merged in. *)
Record Props : Type := mkProps {
  dataSource : list Item;
  height : option Z;
  itemHeight : Z;
  itemKey : string;
  disabled : bool
}.

Inductive Status : Type := NONE | MEASURE_START | MEASURE_DONE.

(** [ListState]. *)
Record ListState : Type := mkState {
  status : Status;
  scrollTop : option Z;
  itemIndex : Z;
  itemOffsetPtg : Q;
  startIndex : Z;
  endIndex : Z;
  startItemTop : Q
}.

Record RelativeScroll : Type := mkRelativeScroll {
  rs_itemIndex : Z;
  rs_relativeTop : Q
}.

Inductive ScrollArg : Type :=
| ArgNumber (n : Z)
| ArgRelative (r : RelativeScroll).

(** The scrollable container element. *)
Record Container : Type := mkContainer {
  el_scrollTop : Z;
  el_scrollHeight : Z;
  el_clientHeight : Z
}.

(** The two closures [scrollTo] hands to [requestAnimationFrame]. *)
Inductive FrameCallback : Type :=
| UnlockAfterNextFrame
| Unlock.

(** The component instance: props, React state and the mutable fields.
    [listRef] is [listRef.current]: [None] is [null]. *)
Record Instance : Type := mkInstance {
  props : Props;
  state : ListState;
  listRef : option Container;
  itemElements : gmap string Z;
  itemElementHeights : gmap string Z;
  cachedProps : option Props;
  lockScroll : bool;
  frameQueue : list FrameCallback
}.

(** How a call of a method ended: it returned, or it threw the
    [TypeError] of reading a property of [null]; either way with the
    instance as the call left it. *)
Inductive Outcome : Type :=
| Returned (inst : Instance)
| Threw (inst : Instance).

Definition after (o : Outcome) : Instance :=
  match o with
  | Returned inst => inst
  | Threw inst => inst
  end.

(** Sequencing inside a method: what follows a throw does not run. *)
Definition andThen (o : Outcome) (k : Instance -> Outcome) : Outcome :=
  match o with
  | Returned inst => k inst
  | Threw inst => Threw inst
  end.

Definition initialState : ListState :=
  {| status := NONE; scrollTop := None; itemIndex := 0; itemOffsetPtg := 0%Q;
     startIndex := 0; endIndex := 0; startItemTop := 0%Q |}.

Definition set_state (s : ListState) (i : Instance) : Instance :=
  {| props := props i; state := s; listRef := listRef i;
     itemElements := itemElements i; itemElementHeights := itemElementHeights i;
     cachedProps := cachedProps i; lockScroll := lockScroll i;
     frameQueue := frameQueue i |}.

Definition set_listRef (c : option Container) (i : Instance) : Instance :=
  {| props := props i; state := state i; listRef := c;
     itemElements := itemElements i; itemElementHeights := itemElementHeights i;
     cachedProps := cachedProps i; lockScroll := lockScroll i;
     frameQueue := frameQueue i |}.

Definition set_itemElementHeights (m : gmap string Z) (i : Instance) : Instance :=
  {| props := props i; state := state i; listRef := listRef i;
     itemElements := itemElements i; itemElementHeights := m;
     cachedProps := cachedProps i; lockScroll := lockScroll i;
     frameQueue := frameQueue i |}.

Definition set_cachedProps (c : option Props) (i : Instance) : Instance :=
  {| props := props i; state := state i; listRef := listRef i;
     itemElements := itemElements i; itemElementHeights := itemElementHeights i;
     cachedProps := c; lockScroll := lockScroll i;
     frameQueue := frameQueue i |}.

Definition set_lockScroll (b : bool) (i : Instance) : Instance :=
  {| props := props i; state := state i; listRef := listRef i;
     itemElements := itemElements i; itemElementHeights := itemElementHeights i;
     cachedProps := cachedProps i; lockScroll := b;
     frameQueue := frameQueue i |}.

Definition set_frameQueue (q : list FrameCallback) (i : Instance) : Instance :=
  {| props := props i; state := state i; listRef := listRef i;
     itemElements := itemElements i; itemElementHeights := itemElementHeights i;
     cachedProps := cachedProps i; lockScroll := lockScroll i;
     frameQueue := q |}.

(** The container after the browser scrolled it to [top]. *)
Definition scrolledTo (top : Z) (c : Container) : Container :=
  {| el_scrollTop := top;
     el_scrollHeight := el_scrollHeight c;
     el_clientHeight := el_clientHeight c |}.

(** The largest scroll offset the container can hold. *)
Definition scrollRange (c : Container) : Z :=
  Z.max 0 (el_scrollHeight c - el_clientHeight c).

(** [element.scrollTop = value]: the element keeps the value clamped to
    its scroll range [[0, scrollRange]]. *)
Definition assignScrollTop (value : Z) (c : Container) : Container :=
  scrolledTo (Z.max 0 (Z.min value (scrollRange c))) c.

(** The attached container, if any, scrolled by the browser to [top]. *)
Definition set_listRef_scrollTop (top : Z) (i : Instance) : Instance :=
  set_listRef (option_map (scrolledTo top) (listRef i)) i.

(** [requestAnimationFrame(cb)]. *)
Definition requestAnimationFrame (cb : FrameCallback) (i : Instance) : Instance :=
  set_frameQueue (frameQueue i ++ [cb]) i.

(** [getElementScrollPercentage(element)]: the mapper on the container's
    own geometry. *)
Definition getElementScrollPercentage (c : Container) : Q :=
  getScrollPercentage (el_scrollTop c) (el_scrollHeight c) (el_clientHeight c).

(** Modelled from the spec: [getNodeHeight] of [utils/itemUtil] is not in
    the source tree.  Section 6: the surface reports the pixel height of a
    mounted visual; section 7: a missing one degrades to zero. *)
Definition getNodeHeight (element : option Z) : Z :=
  match element with
  | Some h => h
  | None => 0
  end.

(** [getItemKey(item, props)]: [item ? item[itemKey] : null].  The second
    argument is the [itemKey] of the merged props ([None] when the cached
    props are still the initial empty object). *)
Definition getItemKey (item : option Item) (key : option string) : JS.Key :=
  match item with
  | Some it =>
      let name := match key with Some k => k | None => "undefined"%string end in
      match it !! name with
      | Some s => JS.KString s
      | None => JS.KUndefined
      end
  | None => JS.KNull
  end.

(** Modelled from the spec: [findListDiffIndex] of [utils/algorithmUtil]
    is not in the source tree.  Section 4.5, step 2: the first index at
    which the old and the new collection diverge, by key comparison,
    scanning from the front; [None] ([null]) when they never do. *)
Definition findListDiffIndex (originList targetList : list Item)
    (getKey : option Item -> JS.Key) : option Z :=
  let maxLen := Nat.max (length originList) (length targetList) in
  option_map Z.of_nat
    (List.find
       (fun i => negb (JS.Key_eqb (getKey (nth_error originList i))
                                  (getKey (nth_error targetList i))))
       (seq 0 maxLen)).

(** [heights[key] || 0]. *)
Definition heightOr0 (heights : gmap string Z) (k : JS.Key) : Z :=
  match heights !! JS.propName k with
  | Some h => h
  | None => 0
  end.

(** Integer indices [from, from+1, ..., to] of an ascending [for] loop. *)
Definition indicesUp (from to : Z) : list Z :=
  map (fun k => from + Z.of_nat k) (seq 0 (Z.to_nat (to - from + 1))).

(** Integer indices [from, from-1, ..., to] of a descending [for] loop. *)
Definition indicesDown (from to : Z) : list Z :=
  map (fun k => from - Z.of_nat k) (seq 0 (Z.to_nat (from - to + 1))).

Definition Qltb (a b : Q) : bool := negb (Qle_bool b a).

(** [render] passes the container [ref] (and [onScroll]) exactly when
    [height] is set and the collection overflows it. *)
Definition windowed (p : Props) : bool :=
  match height p with
  | None => false
  | Some h => negb (Z.of_nat (length (dataSource p)) * itemHeight p <=? h)
  end.
(** ** The component's methods *)

(** The five [best*] variables of [scrollTo]: they start as [null] and are
    only ever assigned together. *)
Record BestMatch : Type := mkBestMatch {
  bestScrollTop : Z;
  bestItemIndex : Z;
  bestItemOffsetPtg : Q;
  bestStartIndex : Z;
  bestEndIndex : Z
}.

(** The mutable locals of the search loop.  [bestSimilarity = None] stands
    for the initial [Number.MAX_VALUE], which every similarity is below. *)
Record SearchAcc : Type := mkSearchAcc {
  bestSimilarity : option Q;
  best : option BestMatch;
  missSimilarity : Z
}.

Definition initialAcc : SearchAcc :=
  {| bestSimilarity := None; best := None; missSimilarity := 0 |}.

(** How the [for] loop of [scrollTo] was left. *)
Inductive SearchExit : Type :=
| IndexExhausted
| MissLimit.

(** The loop's outcome, with the scroll offsets it examined, in order. *)
Record SearchRun : Type := mkSearchRun {
  sr_acc : SearchAcc;
  sr_visited : list Z;
  sr_exit : SearchExit
}.


Module Component.

Section Engine.

(** Imports of [List.tsx] whose modules are not in the source tree.  The
    engine is parametric in them; [SpecHelpers] below gives the instances
    that follow sections 4.4 and 4.6 of the specification. *)
Variable GHOST_ITEM_KEY : JS.Key.

(** [getItemRelativeTop({itemIndex, itemOffsetPtg, itemElementHeights,
    scrollPtg, clientHeight, getItemKey})]. *)
Variable getItemRelativeTop :
  Z -> Q -> gmap string Z -> Q -> Z -> (Z -> JS.Key) -> Q.

(** [getItemAbsoluteTop({itemIndex, itemOffsetPtg, itemElementHeights,
    scrollTop, scrollPtg, clientHeight, getItemKey})]. *)
Variable getItemAbsoluteTop :
  Z -> Q -> gmap string Z -> Z -> Q -> Z -> (Z -> JS.Key) -> Q.

(** [getCompareItemRelativeTop({locatedItemRelativeTop, locatedItemIndex,
    compareItemIndex, startIndex, endIndex, getItemKey,
    itemElementHeights})]. *)
Variable getCompareItemRelativeTop :
  Q -> Z -> Z -> Z -> Z -> (Z -> JS.Key) -> gmap string Z -> Q.

(** [getIndexByStartLoc(min, max, start, index)]; [start] is the state's
    [scrollTop], which may still be [null]. *)
Variable getIndexByStartLoc : Z -> Z -> option Z -> Z -> Z.

(** [getIndexKey(index, props)].  The optional second argument is either
    absent (the current props are used) or [this.cachedProps], which is
    the empty object until the first update pass: [None] below. *)
Definition getIndexKey (index : Z) (mergedProps : option Props) : JS.Key :=
  let ds := match mergedProps with Some p => dataSource p | None => [] end in
  if index =? Z.of_nat (length ds) then GHOST_ITEM_KEY
  else getItemKey (JS.index ds index) (option_map itemKey mergedProps).

(** [collectItemHeights()]. *)
Definition collectItemHeights (inst : Instance) : Instance :=
  let st := state inst in
  set_itemElementHeights
    (fold_left
       (fun heights index =>
          let eleKey := JS.propName (getIndexKey index (Some (props inst))) in
          <[ eleKey := getNodeHeight (itemElements inst !! eleKey) ]> heights)
       (indicesUp (startIndex st) (endIndex st))
       (itemElementHeights inst))
    inst.

(** [scrollHeight - clientHeight] of [scrollTo]; [clientHeight] is the
    local read off the container before the loop. *)
Definition maxScrollTopOf (inst : Instance) (clientHeight : Z) : Z :=
  Z.of_nat (length (dataSource (props inst))) * itemHeight (props inst)
  - clientHeight.

(** One pass of the loop body of [scrollTo] for loop counter [i]: the
    candidate offset, its located range, and the updated locals. *)
Definition candidateScrollTop (inst : Instance) (clientHeight : Z) (i : Z) : Z :=
  getIndexByStartLoc 0 (maxScrollTopOf inst clientHeight)
    (scrollTop (state inst)) i.

Definition candidateScrollPtg (inst : Instance) (clientHeight : Z)
    (candidate : Z) : Q :=
  let p := props inst in
  let scrollHeight := Z.of_nat (length (dataSource p)) * itemHeight p in
  getScrollPercentage candidate scrollHeight clientHeight.

Definition candidateRange (inst : Instance) (clientHeight : Z)
    (candidate : Z) : RangeIndex :=
  let p := props inst in
  getRangeIndex (candidateScrollPtg inst clientHeight candidate)
                (Z.of_nat (length (dataSource p)))
                (visibleCountOf (height p) (itemHeight p)).

(** [startIndex <= compareItemIndex && compareItemIndex <= endIndex]. *)
Definition windowContains (r : RangeIndex) (compareItemIndex : Z) : bool :=
  (ri_startIndex r <=? compareItemIndex) && (compareItemIndex <=? ri_endIndex r).

Definition searchStep (inst : Instance) (clientHeight : Z)
    (target : RelativeScroll) (candidate : Z) (acc : SearchAcc) : SearchAcc :=
  let compareItemIndex := rs_itemIndex target in
  let compareItemRelativeTop := rs_relativeTop target in
  let scrollPtg := candidateScrollPtg inst clientHeight candidate in
  let r := candidateRange inst clientHeight candidate in
  let keyOf := fun index => getIndexKey index (Some (props inst)) in
  if windowContains r compareItemIndex then
    let locatedItemRelativeTop :=
      getItemRelativeTop (ri_itemIndex r) (ri_itemOffsetPtg r)
        (itemElementHeights inst) scrollPtg clientHeight keyOf in
    let compareItemTop :=
      getCompareItemRelativeTop locatedItemRelativeTop (ri_itemIndex r)
        compareItemIndex (ri_startIndex r) (ri_endIndex r) keyOf
        (itemElementHeights inst) in
    let similarity := Qabs (compareItemTop - compareItemRelativeTop) in
    let improves :=
      match bestSimilarity acc with
      | None => true
      | Some b => Qltb similarity b
      end in
    if improves then
      {| bestSimilarity := Some similarity;
         best := Some {| bestScrollTop := candidate;
                         bestItemIndex := ri_itemIndex r;
                         bestItemOffsetPtg := ri_itemOffsetPtg r;
                         bestStartIndex := ri_startIndex r;
                         bestEndIndex := ri_endIndex r |};
         missSimilarity := 0 |}
    else
      {| bestSimilarity := bestSimilarity acc;
         best := best acc;
         missSimilarity := missSimilarity acc + 1 |}
  else acc.

(** [for (let i = 0; i < maxScrollTop; i += 1) { ...; if (missSimilarity
    > 10) break; }], with [remaining] the number of counters still below
    [maxScrollTop]. *)
Fixpoint searchLoop (inst : Instance) (clientHeight : Z)
    (target : RelativeScroll) (remaining : nat) (i : Z) (acc : SearchAcc)
  : SearchRun :=
  match remaining with
  | O => {| sr_acc := acc; sr_visited := []; sr_exit := IndexExhausted |}
  | S remaining' =>
      let candidate := candidateScrollTop inst clientHeight i in
      let acc' := searchStep inst clientHeight target candidate acc in
      if missSimilarity acc' >? 10 then
        {| sr_acc := acc'; sr_visited := [candidate]; sr_exit := MissLimit |}
      else
        let rest := searchLoop inst clientHeight target remaining' (i + 1) acc' in
        {| sr_acc := sr_acc rest;
           sr_visited := candidate :: sr_visited rest;
           sr_exit := sr_exit rest |}
  end.

(** Step 1 of the relative branch of [scrollTo]. *)
Definition scrollSearch (inst : Instance) (clientHeight : Z)
    (target : RelativeScroll) : SearchRun :=
  searchLoop inst clientHeight target
    (Z.to_nat (maxScrollTopOf inst clientHeight)) 0 initialAcc.

(** Step 2 of the relative branch of [scrollTo], on the container [c]. *)
Definition applyBest (b : BestMatch) (c : Container) (inst : Instance) : Instance :=
  let inst1 := set_lockScroll true inst in
  let inst2 := set_listRef (Some (assignScrollTop (bestScrollTop b) c)) inst1 in
  let st := state inst2 in
  let inst3 :=
    set_state {| status := MEASURE_START;
                 scrollTop := Some (bestScrollTop b);
                 itemIndex := bestItemIndex b;
                 itemOffsetPtg := bestItemOffsetPtg b;
                 startIndex := bestStartIndex b;
                 endIndex := bestEndIndex b;
                 startItemTop := startItemTop st |} inst2 in
  requestAnimationFrame UnlockAfterNextFrame inst3.

(** [scrollTo(arg)].  Both branches start by dereferencing
    [listRef.current]. *)
Definition scrollTo (arg : ScrollArg) (inst : Instance) : Outcome :=
  match arg with
  | ArgNumber n =>
      match listRef inst with
      | None => Threw inst
      | Some c => Returned (set_listRef (Some (assignScrollTop n c)) inst)
      end
  | ArgRelative target =>
      match listRef inst with
      | None => Threw inst
      | Some c =>
          match best (sr_acc (scrollSearch inst (el_clientHeight c) target)) with
          | Some b => Returned (applyBest b c inst)
          | None => Returned inst
          end
      end
  end.

(** [onScroll()].  The container's offset is read before the guard. *)
Definition onScroll (inst : Instance) : Outcome :=
  let p := props inst in
  match listRef inst with
  | None => Threw inst
  | Some c =>
      let top := el_scrollTop c in
      if bool_decide (Some top = scrollTop (state inst)) || lockScroll inst
         || disabled p
      then Returned inst
      else
        let scrollPtg := getElementScrollPercentage c in
        let visibleCount := visibleCountOf (height p) (itemHeight p) in
        let r := getRangeIndex scrollPtg (Z.of_nat (length (dataSource p)))
                   visibleCount in
        Returned
          (set_state {| status := MEASURE_START;
                        scrollTop := Some top;
                        itemIndex := ri_itemIndex r;
                        itemOffsetPtg := ri_itemOffsetPtg r;
                        startIndex := ri_startIndex r;
                        endIndex := ri_endIndex r;
                        startItemTop := startItemTop (state inst) |} inst)
  end.

(** The [status === 'MEASURE_START'] branch of [componentDidUpdate], on
    the container [c]. *)
Definition measureDone (inst : Instance) (c : Container) : Instance :=
  let st := state inst in
  let top := el_scrollTop c in
  let inst1 := collectItemHeights inst in
  let keyOf := fun index => getIndexKey index (Some (props inst)) in
  let locatedItemTop :=
    getItemAbsoluteTop (itemIndex st) (itemOffsetPtg st)
      (itemElementHeights inst1) top
      (getElementScrollPercentage c)
      (el_clientHeight c) keyOf in
  let top' :=
    fold_left
      (fun (acc : Q) index =>
         (acc - inject_Z (heightOr0 (itemElementHeights inst1) (keyOf index)))%Q)
      (indicesDown (itemIndex st - 1) (startIndex st))
      locatedItemTop in
  set_state {| status := MEASURE_DONE;
               scrollTop := scrollTop st;
               itemIndex := itemIndex st;
               itemOffsetPtg := itemOffsetPtg st;
               startIndex := startIndex st;
               endIndex := endIndex st;
               startItemTop := top' |} inst1.

(** [if (status === 'MEASURE_START') { ... }]: the branch opens by
    reading the container's offset, before anything is measured. *)
Definition measurePhase (inst : Instance) : Outcome :=
  match status (state inst) with
  | MEASURE_START =>
      match listRef inst with
      | None => Threw inst
      | Some c => Returned (measureDone inst c)
      end
  | _ => Returned inst
  end.

(** [this.cachedProps.dataSource || []]. *)
Definition prevDataSourceOf (inst : Instance) : list Item :=
  match cachedProps inst with
  | Some c => dataSource c
  | None => []
  end.

(** Steps 2 of the length-change branch: [findListDiffIndex(...) - 1],
    raised to 0 when negative ([null - 1] is [-1]). *)
Definition originCompareItemIndexOf (inst : Instance) : Z :=
  let p := props inst in
  let changedItemIndex :=
    findListDiffIndex (prevDataSourceOf inst) (dataSource p)
      (fun item => getItemKey item (Some (itemKey p))) in
  let originCompareItemIndex := JS.toNumber changedItemIndex - 1 in
  if originCompareItemIndex <? 0 then 0 else originCompareItemIndex.

(** The argument the length-change branch passes to [scrollTo], computed
    after the heights were refreshed, on the container [c]. *)
Definition diffAnchorTarget (inst : Instance) (c : Container) : RelativeScroll :=
  let p := props inst in
  let st := state inst in
  let prevDataSource := prevDataSourceOf inst in
  let clientHeight := el_clientHeight c in
  let cachedKeyOf := fun index => getIndexKey index (cachedProps inst) in
  let originLocatedItemRelativeTop :=
    getItemRelativeTop (itemIndex st) (itemOffsetPtg st)
      (itemElementHeights inst)
      (getScrollPercentage (JS.toNumber (scrollTop st))
         (Z.of_nat (length prevDataSource) * itemHeight p) clientHeight)
      clientHeight cachedKeyOf in
  let originCompareItemIndex := originCompareItemIndexOf inst in
  let originCompareItemTop :=
    getCompareItemRelativeTop originLocatedItemRelativeTop (itemIndex st)
      originCompareItemIndex (startIndex st) (endIndex st) cachedKeyOf
      (itemElementHeights inst) in
  {| rs_itemIndex := originCompareItemIndex;
     rs_relativeTop := originCompareItemTop |}.

(** [prevDataSource.length !== dataSource.length && height]. *)
Definition lengthChanged (inst : Instance) : bool :=
  negb (length (prevDataSourceOf inst) =? length (dataSource (props inst)))%nat
  && match height (props inst) with
     | Some h => negb (h =? 0)
     | None => false
     end.

(** [if (prevDataSource.length !== dataSource.length && height) { ... }]:
    the heights are collected first; the container is dereferenced next,
    while the arguments of [getItemRelativeTop] are built. *)
Definition lengthPhase (inst : Instance) : Outcome :=
  if lengthChanged inst then
    let inst' := collectItemHeights inst in
    match listRef inst' with
    | None => Threw inst'
    | Some c => scrollTo (ArgRelative (diffAnchorTarget inst' c)) inst'
    end
  else Returned inst.

(** [componentDidUpdate()].  The two [setState] calls of one pass are
    applied in call order; neither branch reads a field the other's
    patch writes, so reading the patched state equals reading
    [this.state] before React flushes the batch.  [cachedProps] is
    written by the last statement, which a throw does not reach. *)
Definition componentDidUpdate (inst : Instance) : Outcome :=
  if disabled (props inst) then Returned inst
  else
    andThen (measurePhase inst) (fun inst1 =>
    andThen (lengthPhase inst1) (fun inst2 =>
    Returned (set_cachedProps (Some (props inst)) inst2))).

(** [componentDidMount()]. *)
Definition componentDidMount (inst : Instance) : Outcome :=
  match listRef inst with
  | None => Threw inst
  | Some c => onScroll (set_listRef (Some (assignScrollTop 0 c)) inst)
  end.

(** *** Rendering *)

(** What [render] returns, as far as positioning goes: the children
    handed to [Filler] (item, index given to the render function, React
    key), the two [Filler] props, and whether [onScroll] and [ref] are
    wired to the container. *)
Record RenderOutput : Type := mkRenderOutput {
  out_children : list (Item * Z * JS.Key);
  out_fillerHeight : option Z;
  out_fillerOffset : option Q;
  out_onScroll : bool;
  out_ref : bool
}.

(** [renderChildren(list, startIndex, renderFunc)]. *)
Definition renderChildren (inst : Instance) (l : list Item) (start : Z)
  : list (Item * Z * JS.Key) :=
  imap (fun index item =>
          let eleIndex := start + Z.of_nat index in
          (item, eleIndex, getIndexKey eleIndex (Some (props inst))))
       l.

Definition ITEM_SCALE_RATE : Z := 1.

(** [render()]. *)
Definition render (inst : Instance) : RenderOutput :=
  let p := props inst in
  let ds := dataSource p in
  let plain :=
    match height p with
    | None => true
    | Some h => Z.of_nat (length ds) * itemHeight p <=? h
    end in
  if plain then
    {| out_children := renderChildren inst ds 0;
       out_fillerHeight := height p;
       out_fillerOffset := None;
       out_onScroll := false;
       out_ref := false |}
  else
    let st := state inst in
    let contentHeight := Z.of_nat (length ds) * itemHeight p * ITEM_SCALE_RATE in
    {| out_children :=
         renderChildren inst (JS.slice ds (startIndex st) (endIndex st + 1))
                        (startIndex st);
       out_fillerHeight := Some contentHeight;
       out_fillerOffset :=
         Some match status st with
              | MEASURE_DONE => startItemTop st
              | _ => 0%Q
              end;
       out_onScroll := true;
       out_ref := true |}.

(** *** Events *)

(** One animation-frame boundary: the callbacks queued so far run in
    order; what they schedule waits for the next boundary. *)
Definition runFrameCallback (inst : Instance) (cb : FrameCallback) : Instance :=
  match cb with
  | UnlockAfterNextFrame => requestAnimationFrame Unlock inst
  | Unlock => set_lockScroll false inst
  end.

Definition animationFrame (inst : Instance) : Instance :=
  fold_left runFrameCallback (frameQueue inst) (set_frameQueue [] inst).

(** What the host can do to a mounted list. *)
Inductive Event : Type :=
| EvScroll (top : Z)
| EvUpdate (p : Props) (elements : gmap string Z) (scrollHeight clientHeight : Z)
| EvScrollTo (arg : ScrollArg)
| EvAnimationFrame.

(** The container moved to [top] and notified the list through the
    [onScroll] handler [render] wired to it; without a container there is
    nothing that scrolls. *)
Definition scrolled (top : Z) (inst : Instance) : Instance :=
  match listRef inst with
  | None => inst
  | Some _ => after (onScroll (set_listRef_scrollTop top inst))
  end.

(** The element React attaches to [listRef] when it commits a render of
    [p]: none on the plain branch; on the windowed branch the container
    with the extents of the new render, at the offset it already had (a
    newly attached one at 0). *)
Definition attachedContainer (p : Props) (scrollHeight clientHeight : Z)
    (previous : option Container) : option Container :=
  if windowed p then
    Some {| el_scrollTop := match previous with
                            | Some c => el_scrollTop c
                            | None => 0
                            end;
            el_scrollHeight := scrollHeight;
            el_clientHeight := clientHeight |}
  else None.

(** React committed a render with props [p]: the mounted visuals and the
    container are those of the new render. *)
Definition committed (p : Props) (elements : gmap string Z)
    (scrollHeight clientHeight : Z) (inst : Instance) : Instance :=
  {| props := p; state := state inst;
     listRef := attachedContainer p scrollHeight clientHeight (listRef inst);
     itemElements := elements;
     itemElementHeights := itemElementHeights inst;
     cachedProps := cachedProps inst; lockScroll := lockScroll inst;
     frameQueue := frameQueue inst |}.

(** The instance as the constructor and the class field initialisers
    leave it. *)
Definition constructed (p : Props) : Instance :=
  {| props := p; state := initialState; listRef := None;
     itemElements := ∅; itemElementHeights := ∅;
     cachedProps := None; lockScroll := false; frameQueue := [] |}.

(** Mounting: the first render is committed, then [componentDidMount]
    runs. *)
Definition mount (p : Props) (elements : gmap string Z)
    (scrollHeight clientHeight : Z) : Outcome :=
  componentDidMount (committed p elements scrollHeight clientHeight (constructed p)).

(** One event.  An exception leaves the instance as the throwing call
    left it; the run goes on from there. *)
Definition step (inst : Instance) (e : Event) : Instance :=
  match e with
  | EvScroll top => scrolled top inst
  | EvUpdate p elements sh ch =>
      after (componentDidUpdate (committed p elements sh ch inst))
  | EvScrollTo arg => after (scrollTo arg inst)
  | EvAnimationFrame => animationFrame inst
  end.

Definition run (inst : Instance) (events : list Event) : Instance :=
  fold_left step events inst.

End Engine.

End Component.

Import Component.

(** ** The helper modules, modelled from the specification *)

Module SpecHelpers.

(** Modelled from the spec: [GHOST_ITEM_KEY] of [utils/itemUtil] is not in
    the source tree.  Section 3: a synthetic end-of-list sentinel key. *)
Definition GHOST_ITEM_KEY : JS.Key := JS.KString "__ghost_item__".

(** Modelled from the spec: [getItemRelativeTop] of [utils/itemUtil] is not
    in the source tree.  Section 4.4: the proportional position in the
    viewport, less the located item's offset fraction times its own ledger
    height (zero when unmeasured, as [List.tsx] itself reads the ledger). *)
Definition getItemRelativeTop (itemIndex : Z) (itemOffsetPtg : Q)
    (itemElementHeights : gmap string Z) (scrollPtg : Q) (clientHeight : Z)
    (getItemKey : Z -> JS.Key) : Q :=
  (scrollPtg * inject_Z clientHeight
   - itemOffsetPtg * inject_Z (heightOr0 itemElementHeights (getItemKey itemIndex)))%Q.

(** Modelled from the spec: [getItemAbsoluteTop] of [utils/itemUtil] is not
    in the source tree.  Section 4.4: the relative top anchored against the
    scroll offset. *)
Definition getItemAbsoluteTop (itemIndex : Z) (itemOffsetPtg : Q)
    (itemElementHeights : gmap string Z) (scrollTop : Z) (scrollPtg : Q)
    (clientHeight : Z) (getItemKey : Z -> JS.Key) : Q :=
  (inject_Z scrollTop
   + getItemRelativeTop itemIndex itemOffsetPtg itemElementHeights scrollPtg
       clientHeight getItemKey)%Q.

Definition sumHeights (itemElementHeights : gmap string Z)
    (getItemKey : Z -> JS.Key) (indices : list Z) : Z :=
  fold_left (fun acc index => acc + heightOr0 itemElementHeights (getItemKey index))
            indices 0.

(** Modelled from the spec: [getCompareItemRelativeTop] of [utils/itemUtil]
    is not in the source tree.  Section 4.4: walk the ledger between the
    located index and the target index inside the window, subtracting
    heights when walking backward and adding them when walking forward. *)
Definition getCompareItemRelativeTop (locatedItemRelativeTop : Q)
    (locatedItemIndex compareItemIndex startIndex endIndex : Z)
    (getItemKey : Z -> JS.Key) (itemElementHeights : gmap string Z) : Q :=
  if compareItemIndex <=? locatedItemIndex then
    (locatedItemRelativeTop
     - inject_Z (sumHeights itemElementHeights getItemKey
                   (indicesDown (locatedItemIndex - 1)
                                (Z.max compareItemIndex startIndex))))%Q
  else
    (locatedItemRelativeTop
     + inject_Z (sumHeights itemElementHeights getItemKey
                   (indicesUp locatedItemIndex
                              (Z.min (compareItemIndex - 1) endIndex))))%Q.

(** Modelled from the spec: [getIndexByStartLoc] of [utils/algorithmUtil]
    is not in the source tree.  Section 4.6: candidates in [[min, max]] by
    expanding distance from [start], alternating sides while both sides
    have room and then running along the side that is left. *)
Definition getIndexByStartLoc (min max : Z) (start : option Z) (index : Z) : Z :=
  let s := JS.toNumber start in
  let room := Z.min (s - min) (max - s) in
  if index <=? 2 * room then
    if Z.odd index then s + (index + 1) / 2 else s - index / 2
  else if max - s <? s - min then s - (index - (max - s))
  else s + (index - (s - min)).

(** The engine's methods with these helpers plugged in. *)
(** The engine's methods with these helpers plugged in. *)
Definition scrollSearch :=
  scrollSearch GHOST_ITEM_KEY getItemRelativeTop getCompareItemRelativeTop
    getIndexByStartLoc.
Definition scrollTo :=
  scrollTo GHOST_ITEM_KEY getItemRelativeTop getCompareItemRelativeTop
    getIndexByStartLoc.
Definition componentDidUpdate :=
  componentDidUpdate GHOST_ITEM_KEY getItemRelativeTop getItemAbsoluteTop
    getCompareItemRelativeTop getIndexByStartLoc.
Definition step :=
  step GHOST_ITEM_KEY getItemRelativeTop getItemAbsoluteTop
    getCompareItemRelativeTop getIndexByStartLoc.
Definition run :=
  run GHOST_ITEM_KEY getItemRelativeTop getItemAbsoluteTop
    getCompareItemRelativeTop getIndexByStartLoc.

End SpecHelpers.

(** ** Concrete lists used by the examples *)

Module Sample.

(** An item [{ id: <k> }]. *)
Definition item (k : string) : Item := {[ "id"%string := k ]}.

(** [count] items whose ids are the decimal numerals of [0 .. count-1]. *)
Definition items (count : nat) : list Item :=
  map (fun k => item (pretty k)) (seq 0 count).

Definition propsOf (ds : list Item) (h : option Z) (off : bool) : Props :=
  {| dataSource := ds; height := h; itemHeight := 15; itemKey := "id";
     disabled := off |}.

(** A container at offset 0 with the given extents. *)
Definition box (scrollHeight clientHeight : Z) : Container :=
  {| el_scrollTop := 0; el_scrollHeight := scrollHeight;
     el_clientHeight := clientHeight |}.

(** A list whose first render has been committed, no visual measured
    yet: when [render] passes the [ref], on a container showing
    [clientHeight] pixels of the list; otherwise without one. *)
Definition fresh (p : Props) (clientHeight : Z) : Instance :=
  committed p ∅ (Z.of_nat (length (dataSource p)) * itemHeight p) clientHeight
    (constructed p).

(** 100 items of assumed height 15 in a 300 pixel viewport. *)
Definition hundred : Instance := fresh (propsOf (items 100) (Some 300) false) 300.

(** 1000 items of assumed height 15 in a 300 pixel viewport. *)
Definition thousand : Instance := fresh (propsOf (items 1000) (Some 300) false) 300.

(** 21 items in a 300 pixel viewport: 15 pixels of scroll range. *)
Definition small : Instance := fresh (propsOf (items 21) (Some 300) false) 300.

(** Ask for the item at index 100, which neither list has. *)
Definition pastEnd : RelativeScroll := {| rs_itemIndex := 100; rs_relativeTop := 0%Q |}.

(** Ask for item 0 at the top edge of the viewport. *)
Definition firstAtTop : RelativeScroll := {| rs_itemIndex := 0; rs_relativeTop := 0%Q |}.

(** A collection before and after an item is inserted at index 2. *)
Definition oldItems : list Item := [item "0"; item "1"; item "2"].
Definition newItems : list Item := [item "0"; item "1"; item "x"; item "2"].

Definition with_cachedProps (c : Props) (i : Instance) : Instance :=
  set_cachedProps (Some c) i.

(** The list re-rendered with [newItems] while its cached props still
    hold [oldItems]. *)
Definition inserted : Instance :=
  with_cachedProps (propsOf oldItems (Some 30) false)
    (fresh (propsOf newItems (Some 30) false) 30).

(** The same, with [disabled] set on the new props. *)
Definition frozen : Instance :=
  with_cachedProps (propsOf oldItems (Some 30) false)
    (fresh (propsOf newItems (Some 30) true) 30).

(** [hundred] after a relative [scrollTo], one animation frame, and a
    second relative [scrollTo]. *)
Definition armedTwice : Instance :=
  SpecHelpers.run hundred
    [EvScrollTo (ArgRelative firstAtTop); EvAnimationFrame;
     EvScrollTo (ArgRelative firstAtTop)].

(** A list without a [height]: rendered through the plain branch, no
    container attached. *)
Definition unconstrained : Instance := fresh (propsOf newItems None false) 0.

(** [newItems] in a 30 pixel viewport after its first scroll event, with
    the visuals of the first two items mounted (20 and 25 pixels high) and
    the cached props already those of the current render. *)
Definition measuring : Instance :=
  with_cachedProps (propsOf newItems (Some 30) false)
    (committed (propsOf newItems (Some 30) false)
       {[ "0"%string := 20; "1"%string := 25 ]} 60 30
       (scrolled 0 (fresh (propsOf newItems (Some 30) false) 30))).

(** [newItems] (60 pixels assumed) with [height] 30 on a container whose
    box is 70 pixels high: windowed, yet with nothing to scroll. *)
Definition padded : Instance := fresh (propsOf newItems (Some 30) false) 70.

(** Three items of 15 pixels with [height] 300: the list fits, is
    rendered through the plain branch and has no container attached. *)
Definition fitting : Instance := fresh (propsOf oldItems (Some 300) false) 300.

(** [hundred] re-rendered with [oldItems], which fit the 300 pixels, while
    its cached props still hold the 100 items. *)
Definition shrunk : Instance :=
  committed (propsOf oldItems (Some 300) false) ∅ 45 300
    (with_cachedProps (propsOf (items 100) (Some 300) false) hundred).

End Sample.

(** ** Vocabulary of the properties *)

(** A located range as the positioning state stores it: the window starts
    at or before the located index and ends at it, after it, or (located
    item = sentinel) one before it. *)
Definition windowHolds (start located stop : Z) : Prop :=
  0 <= start /\ start <= located /\ located <= stop + 1.

Definition stateWindowHolds (st : ListState) : Prop :=
  windowHolds (startIndex st) (itemIndex st) (endIndex st).

(** Whatever match the search holds is a well-formed located range. *)
Definition bestWindowHolds (acc : SearchAcc) : Prop :=
  forall b, best acc = Some b ->
    windowHolds (bestStartIndex b) (bestItemIndex b) (bestEndIndex b).

(** Props under which [Math.ceil(height / itemHeight)] is a finite,
    non-negative number: a defined, non-negative [height] and a positive
    [itemHeight]. *)
Definition finiteCapacity (p : Props) : bool :=
  (0 <? itemHeight p)
  && match height p with
     | Some h => 0 <=? h
     | None => false
     end.

Definition finiteCapacityEvent (e : Event) : bool :=
  match e with
  | EvUpdate p _ _ _ => finiteCapacity p
  | _ => true
  end.

Definition notFrame (e : Event) : bool :=
  match e with
  | EvAnimationFrame => false
  | _ => true
  end.

Definition isUnlock (cb : FrameCallback) : bool :=
  match cb with
  | Unlock => true
  | UnlockAfterNextFrame => false
  end.

(** No callback in the queue releases the lock at the next frame. *)
Definition noUnlockDue (inst : Instance) : bool :=
  negb (existsb isUnlock (frameQueue inst)).

(** [d] is the first position at which the two collections differ by
    key, a position past the end of a collection having the key of no
    item ([null]). *)
Definition firstDivergence (key : string) (old new : list Item) (d : nat) : Prop :=
  (forall i, (i < d)%nat ->
     getItemKey (nth_error old i) (Some key) = getItemKey (nth_error new i) (Some key))
  /\ getItemKey (nth_error old d) (Some key) <> getItemKey (nth_error new d) (Some key).

(** The similarity score the loop of [scrollTo] computes for a candidate
    offset whose window contains the target. *)
Definition candidateSimilarity (ghost : JS.Key)
    (relativeTop : Z -> Q -> gmap string Z -> Q -> Z -> (Z -> JS.Key) -> Q)
    (compareTop : Q -> Z -> Z -> Z -> Z -> (Z -> JS.Key) -> gmap string Z -> Q)
    (inst : Instance) (clientHeight : Z) (target : RelativeScroll)
    (candidate : Z) : Q :=
  let r := candidateRange inst clientHeight candidate in
  let keyOf := fun index => getIndexKey ghost index (Some (props inst)) in
  Qabs (compareTop
          (relativeTop (ri_itemIndex r) (ri_itemOffsetPtg r) (itemElementHeights inst)
             (candidateScrollPtg inst clientHeight candidate) clientHeight keyOf)
          (ri_itemIndex r) (rs_itemIndex target) (ri_startIndex r) (ri_endIndex r)
          keyOf (itemElementHeights inst)
        - rs_relativeTop target).

(** The candidate's window contains the target item. *)
Definition showsTarget (inst : Instance) (clientHeight : Z)
    (target : RelativeScroll) (candidate : Z) : bool :=
  windowContains (candidateRange inst clientHeight candidate) (rs_itemIndex target).

(** What a candidate means to the miss counter, given the candidates
    examined before it: its window misses the target; or it contains the
    target and the candidate improves the best similarity, scoring
    strictly below every earlier candidate whose window contains the
    target; or it contains the target and fails to improve. *)
Inductive Verdict : Type :=
| Outside
| Improves
| Fails.

Definition verdictOf (ghost : JS.Key)
    (relativeTop : Z -> Q -> gmap string Z -> Q -> Z -> (Z -> JS.Key) -> Q)
    (compareTop : Q -> Z -> Z -> Z -> Z -> (Z -> JS.Key) -> gmap string Z -> Q)
    (inst : Instance) (clientHeight : Z) (target : RelativeScroll)
    (earlier : list Z) (candidate : Z) : Verdict :=
  let score := candidateSimilarity ghost relativeTop compareTop inst clientHeight target in
  if showsTarget inst clientHeight target candidate then
    if forallb (fun e => negb (showsTarget inst clientHeight target e)
                         || Qltb (score candidate) (score e))
               earlier
    then Improves
    else Fails
  else Outside.

(** The verdicts of a sequence of candidates examined after [earlier]. *)
Fixpoint verdicts (ghost : JS.Key)
    (relativeTop : Z -> Q -> gmap string Z -> Q -> Z -> (Z -> JS.Key) -> Q)
    (compareTop : Q -> Z -> Z -> Z -> Z -> (Z -> JS.Key) -> gmap string Z -> Q)
    (inst : Instance) (clientHeight : Z) (target : RelativeScroll)
    (earlier candidates : list Z) : list Verdict :=
  match candidates with
  | [] => []
  | c :: rest =>
      verdictOf ghost relativeTop compareTop inst clientHeight target earlier c
      :: verdicts ghost relativeTop compareTop inst clientHeight target
           (earlier ++ [c]) rest
  end.

(** The number of candidates that failed to improve since the last
    improvement; candidates whose window misses the target neither count
    nor reset. *)
Definition countMiss (misses : Z) (v : Verdict) : Z :=
  match v with
  | Outside => misses
  | Improves => 0
  | Fails => misses + 1
  end.

Definition missesAfter (vs : list Verdict) : Z := fold_left countMiss vs 0.

(** Between an instance and a later one: the props stay, and under props
    of finite capacity so does the invariant of the window. *)
Definition windowKept (a b : Instance) : Prop :=
  props b = props a
  /\ (finiteCapacity (props a) = true ->
      stateWindowHolds (state a) -> stateWindowHolds (state b)).

(** Between an instance and a later one: a set lock stays set and the
    queue only grows by callbacks that wait one more frame. *)
Definition lockKept (a b : Instance) : Prop :=
  (lockScroll a = true -> lockScroll b = true)
  /\ exists k, frameQueue b = frameQueue a ++ repeat UnlockAfterNextFrame k.

(** *** Vocabulary of the further properties *)

(** The ledger slot of the item at an index, under the current props. *)
Definition ledgerSlot (ghost : JS.Key) (inst : Instance) (index : Z) : string :=
  JS.propName (getIndexKey ghost index (Some (props inst))).

(** Every entry of the first ledger is still present in the second. *)
Definition ledgerKept (before after : gmap string Z) : Prop :=
  forall k, is_Some (before !! k) -> is_Some (after !! k).

(** The recorded scroll offset is [null] exactly while the status is
    [NONE]. *)
Definition statusTracksScrollTop (st : ListState) : Prop :=
  status st = NONE <-> scrollTop st = None.

Definition isUpdate (e : Event) : bool :=
  match e with
  | EvUpdate _ _ _ _ => true
  | _ => false
  end.

(** A set lock always has a frame callback on its way to release it. *)
Definition unlockPending (inst : Instance) : Prop :=
  lockScroll inst = true -> frameQueue inst <> [].

(** What the loop of [scrollTo] knows after examining the offsets [seen]:
    a recorded match is one of them, its window contains the target and
    the recorded similarity is its own; the recorded similarity is at most
    that of every examined offset whose window contains the target; and
    while nothing is recorded no examined window contained the target. *)
Definition matchSound (ghost : JS.Key)
    (relativeTop : Z -> Q -> gmap string Z -> Q -> Z -> (Z -> JS.Key) -> Q)
    (compareTop : Q -> Z -> Z -> Z -> Z -> (Z -> JS.Key) -> gmap string Z -> Q)
    (inst : Instance) (clientHeight : Z) (target : RelativeScroll)
    (seen : list Z) (acc : SearchAcc)
  : Prop :=
  (forall b, best acc = Some b ->
     In (bestScrollTop b) seen
     /\ bestStartIndex b <= rs_itemIndex target <= bestEndIndex b
     /\ showsTarget inst clientHeight target (bestScrollTop b) = true
     /\ bestSimilarity acc
        = Some (candidateSimilarity ghost relativeTop compareTop inst clientHeight
                  target (bestScrollTop b)))
  /\ (forall s, bestSimilarity acc = Some s ->
        (exists b, best acc = Some b)
        /\ forall c, In c seen ->
             showsTarget inst clientHeight target c = true ->
             (s <= candidateSimilarity ghost relativeTop compareTop inst clientHeight
                     target c)%Q)
  /\ (bestSimilarity acc = None ->
      best acc = None
      /\ forall c, In c seen ->
           showsTarget inst clientHeight target c = false).

(** The lifecycle never goes back: a status other than [NONE] stays one,
    and a state whose offset is recorded exactly off [NONE] stays so. *)
Definition lifecycleKept (before after : ListState) : Prop :=
  (status before <> NONE -> status after <> NONE)
  /\ (statusTracksScrollTop before -> statusTracksScrollTop after).

(** Total ledger height of the items at the given indices. *)
Definition ledgerHeight (heights : gmap string Z) (keyOf : Z -> JS.Key)
    (indices : list Z) : Z :=
  fold_right Z.add 0 (map (fun index => heightOr0 heights (keyOf index)) indices).

(** * Properties *)

(** ** Arithmetic of the helpers *)

Lemma ceilDiv_nonneg (a b : Z) : 0 <= a -> 0 < b -> 0 <= JS.ceilDiv a b.
Proof.
  intros Ha Hb. unfold JS.ceilDiv.
  assert (H : (- a) / b <= 0) by (apply Z.div_le_upper_bound; lia).
  lia.
Qed.

Lemma halfCapacity_nonneg (v : Z) : 0 <= v -> 0 <= halfCapacity v.
Proof. intros Hv. apply ceilDiv_nonneg; lia. Qed.

Lemma halfCapacity_pos (v : Z) : 1 <= v -> 1 <= halfCapacity v.
Proof.
  intros Hv. unfold halfCapacity, JS.ceilDiv.
  assert (H : (- v) / 2 < 0) by (apply Z.div_lt_upper_bound; lia).
  lia.
Qed.

Lemma visibleCountOf_nonneg (h ih : Z) :
  0 <= h -> 0 < ih -> 0 <= visibleCountOf (Some h) ih.
Proof.
  intros Hh Hih. unfold visibleCountOf.
  destruct (Z.eqb_spec ih 0) as [->|_]; [lia|].
  now apply ceilDiv_nonneg.
Qed.

Lemma clamp01_range (q : Q) : (0 <= clamp01 q /\ clamp01 q <= 1)%Q.
Proof.
  unfold clamp01. split.
  - apply Q.le_max_l.
  - apply Q.max_lub; [discriminate|]. apply Q.le_min_r.
Qed.

Lemma clamp01_id (q : Q) : (0 <= q)%Q -> (q <= 1)%Q -> (clamp01 q == q)%Q.
Proof.
  intros H0 H1. unfold clamp01.
  rewrite (Q.min_l q 1) by exact H1.
  now apply Q.max_r.
Qed.

Lemma clamp01_nonpos (q : Q) : (q <= 0)%Q -> (clamp01 q == 0)%Q.
Proof.
  intros Hq. unfold clamp01. apply Q.max_l.
  apply Qle_trans with q; [apply Q.le_min_l | exact Hq].
Qed.

Lemma getScrollPercentage_range (top sh ch : Z) :
  (0 <= getScrollPercentage top sh ch /\ getScrollPercentage top sh ch <= 1)%Q.
Proof.
  unfold getScrollPercentage.
  destruct (sh - ch <=? 0); [split; discriminate | apply clamp01_range].
Qed.

Lemma locatedIndex_range (f : Q) (n : Z) :
  0 <= n -> 0 <= locatedIndex f n <= n.
Proof. intros Hn. unfold locatedIndex. lia. Qed.

Lemma Qfloor_mult_lt (f : Q) (n : Z) :
  (f < 1)%Q -> 1 <= n -> Qfloor (f * inject_Z n) < n.
Proof.
  intros Hf Hn. rewrite Zlt_Qlt.
  apply Qle_lt_trans with (f * inject_Z n)%Q; [apply Qfloor_le|].
  apply Qlt_le_trans with (1 * inject_Z n)%Q.
  - apply Qmult_lt_compat_r; [|exact Hf].
    change 0%Q with (inject_Z 0). rewrite <- Zlt_Qlt. lia.
  - rewrite Qmult_1_l. apply Qle_refl.
Qed.

Lemma Qfloor_mult_ge (f : Q) (n : Z) :
  (1 <= f)%Q -> 0 <= n -> n <= Qfloor (f * inject_Z n).
Proof.
  intros Hf Hn. rewrite <- (Qfloor_Z n) at 1.
  apply Qfloor_resp_le.
  apply Qle_trans with (1 * inject_Z n)%Q.
  - rewrite Qmult_1_l. apply Qle_refl.
  - apply Qmult_le_compat_r; [exact Hf|].
    change 0%Q with (inject_Z 0). rewrite <- Zle_Qle. lia.
Qed.

Lemma locatedIndex_below (f : Q) (n : Z) :
  (f < 1)%Q -> 1 <= n -> locatedIndex f n <= n - 1.
Proof.
  intros Hf Hn. pose proof (Qfloor_mult_lt f n Hf Hn).
  unfold locatedIndex. lia.
Qed.

Lemma locatedIndex_sentinel (f : Q) (n : Z) :
  (1 <= f)%Q -> 0 <= n -> locatedIndex f n = n.
Proof.
  intros Hf Hn. pose proof (Qfloor_mult_ge f n Hf Hn).
  unfold locatedIndex. lia.
Qed.

Lemma getRangeIndex_window (f : Q) (n v : Z) :
  0 <= n -> 0 <= v ->
  windowHolds (ri_startIndex (getRangeIndex f n v))
              (ri_itemIndex (getRangeIndex f n v))
              (ri_endIndex (getRangeIndex f n v)).
Proof.
  intros Hn Hv. pose proof (locatedIndex_range f n Hn).
  pose proof (halfCapacity_nonneg v Hv).
  unfold windowHolds, getRangeIndex; simpl. lia.
Qed.

Lemma getRangeIndex_inside (f : Q) (n v : Z) :
  0 <= ri_startIndex (getRangeIndex f n v)
  /\ ri_endIndex (getRangeIndex f n v) <= n - 1.
Proof. unfold getRangeIndex; simpl. lia. Qed.

Lemma Qltb_lt (a b : Q) : Qltb a b = true -> (a < b)%Q.
Proof.
  unfold Qltb. intros H. apply negb_true_iff in H.
  apply Qnot_le_lt. intros Hle. apply Qle_bool_iff in Hle. congruence.
Qed.

Lemma Qltb_ge (a b : Q) : Qltb a b = false -> (b <= a)%Q.
Proof.
  unfold Qltb. intros H. apply negb_false_iff in H. now apply Qle_bool_iff.
Qed.

Lemma Qltb_true (a b : Q) : (a < b)%Q -> Qltb a b = true.
Proof.
  intros H. destruct (Qltb a b) eqn:E; [reflexivity|].
  apply Qltb_ge in E. exfalso. exact (Qlt_not_le _ _ H E).
Qed.

(** ** The container *)

Lemma scrollRange_nonneg (c : Container) : 0 <= scrollRange c.
Proof. unfold scrollRange. lia. Qed.

Lemma assignScrollTop_offset (value : Z) (c : Container) :
  el_scrollTop (assignScrollTop value c) = Z.max 0 (Z.min value (scrollRange c)).
Proof. reflexivity. Qed.

Lemma assignScrollTop_in_range (value : Z) (c : Container) :
  0 <= value <= scrollRange c -> el_scrollTop (assignScrollTop value c) = value.
Proof. intros H. rewrite assignScrollTop_offset. lia. Qed.

Lemma assignScrollTop_zero (c : Container) : assignScrollTop 0 c = scrolledTo 0 c.
Proof.
  unfold assignScrollTop. pose proof (scrollRange_nonneg c).
  now replace (Z.max 0 (Z.min 0 (scrollRange c))) with 0 by lia.
Qed.

Lemma assignScrollTop_range (value : Z) (c : Container) :
  scrollRange (assignScrollTop value c) = scrollRange c.
Proof. reflexivity. Qed.

(** On an attached container [onScroll] returns. *)
Lemma onScroll_attached (inst : Instance) (c : Container) :
  listRef inst = Some c -> onScroll inst = Returned (after (onScroll inst)).
Proof. intros Href. unfold onScroll. rewrite Href. now destruct (_ || _). Qed.

(** ** The search loop of [scrollTo] *)

Section SearchFacts.

Variable GHOST_ITEM_KEY : JS.Key.
Variable getItemRelativeTop :
  Z -> Q -> gmap string Z -> Q -> Z -> (Z -> JS.Key) -> Q.
Variable getCompareItemRelativeTop :
  Q -> Z -> Z -> Z -> Z -> (Z -> JS.Key) -> gmap string Z -> Q.
Variable getIndexByStartLoc : Z -> Z -> option Z -> Z -> Z.

Local Abbreviation searchStep :=
  (searchStep GHOST_ITEM_KEY getItemRelativeTop getCompareItemRelativeTop).
Local Abbreviation searchLoop :=
  (searchLoop GHOST_ITEM_KEY getItemRelativeTop getCompareItemRelativeTop
     getIndexByStartLoc).
Local Abbreviation scrollSearch :=
  (scrollSearch GHOST_ITEM_KEY getItemRelativeTop getCompareItemRelativeTop
     getIndexByStartLoc).
Local Abbreviation candidateSimilarity :=
  (candidateSimilarity GHOST_ITEM_KEY getItemRelativeTop getCompareItemRelativeTop).
Local Abbreviation soundLocals :=
  (matchSound GHOST_ITEM_KEY getItemRelativeTop getCompareItemRelativeTop).
Local Abbreviation verdictAt :=
  (verdictOf GHOST_ITEM_KEY getItemRelativeTop getCompareItemRelativeTop).
Local Abbreviation verdictsFrom :=
  (verdicts GHOST_ITEM_KEY getItemRelativeTop getCompareItemRelativeTop).

Lemma searchStep_outside inst ch target candidate acc :
  showsTarget inst ch target candidate = false ->
  searchStep inst ch target candidate acc = acc.
Proof.
  unfold showsTarget. intros H. unfold Component.searchStep. now rewrite H.
Qed.

(** Inside the window a candidate either improves on the best similarity,
    which resets the miss counter, or adds one miss and leaves the best
    match alone. *)
Lemma searchStep_inside inst ch target candidate acc :
  showsTarget inst ch target candidate = true ->
  (missSimilarity (searchStep inst ch target candidate acc) = 0
   /\ option_map bestScrollTop (best (searchStep inst ch target candidate acc))
      = Some candidate)
  \/ (missSimilarity (searchStep inst ch target candidate acc) = missSimilarity acc + 1
      /\ best (searchStep inst ch target candidate acc) = best acc
      /\ bestSimilarity (searchStep inst ch target candidate acc) = bestSimilarity acc).
Proof.
  unfold showsTarget. intros H. unfold Component.searchStep. rewrite H.
  destruct (match bestSimilarity acc with None => true | Some b => _ end);
    [left | right]; now repeat split.
Qed.

Lemma searchStep_miss inst ch target candidate acc :
  0 <= missSimilarity acc <= 10 ->
  0 <= missSimilarity (searchStep inst ch target candidate acc) <= 11.
Proof.
  intros Hacc. unfold Component.searchStep.
  destruct (windowContains _ _); [|lia].
  destruct (bestSimilarity acc) as [b|]; [destruct (Qltb _ b)|]; simpl; lia.
Qed.

(** The loop examines at most [remaining] candidates, and it is left
    either with every counter used up or with the miss counter at 11. *)
Lemma searchLoop_exit inst ch target remaining :
  forall i acc,
    0 <= missSimilarity acc <= 10 ->
    (length (sr_visited (searchLoop inst ch target remaining i acc)) <= remaining)%nat
    /\ match sr_exit (searchLoop inst ch target remaining i acc) with
       | IndexExhausted =>
           length (sr_visited (searchLoop inst ch target remaining i acc)) = remaining
           /\ 0 <= missSimilarity (sr_acc (searchLoop inst ch target remaining i acc)) <= 10
       | MissLimit =>
           missSimilarity (sr_acc (searchLoop inst ch target remaining i acc)) = 11
       end.
Proof.
  induction remaining as [|remaining IH]; intros i acc Hacc; simpl.
  - split; [lia | split; [reflexivity | exact Hacc]].
  - pose proof (searchStep_miss inst ch target
                  (candidateScrollTop getIndexByStartLoc inst ch i) acc Hacc) as Hstep.
    destruct (Z.gtb_spec
                (missSimilarity
                   (searchStep inst ch target
                      (candidateScrollTop getIndexByStartLoc inst ch i) acc))
                10) as [Hgt|Hle]; simpl.
    + split; lia.
    + destruct (IH (i + 1)
                  (searchStep inst ch target
                     (candidateScrollTop getIndexByStartLoc inst ch i) acc))
        as [Hlen Hexit]; [lia|].
      split; [lia|].
      destruct (sr_exit _); [|exact Hexit].
      destruct Hexit as [Hall Hmiss]. split; [lia | exact Hmiss].
Qed.

(** Candidates whose window misses the target leave the locals alone. *)
Lemma searchLoop_untouched inst ch target remaining :
  forall i acc,
    Forall (fun candidate => showsTarget inst ch target candidate = false)
           (sr_visited (searchLoop inst ch target remaining i acc)) ->
    sr_acc (searchLoop inst ch target remaining i acc) = acc.
Proof.
  induction remaining as [|remaining IH]; intros i acc Hall; simpl in *; [reflexivity|].
  destruct (missSimilarity _ >? 10) eqn:Hbreak; simpl in *.
  - inversion Hall as [|c l Hc _]; subst. now apply searchStep_outside.
  - inversion Hall as [|c l Hc Hrest]; subst.
    rewrite (searchStep_outside inst ch target _ acc Hc) in *.
    now apply IH.
Qed.

Lemma window_misses_outsider inst ch target candidate :
  rs_itemIndex target < 0
  \/ Z.of_nat (length (dataSource (props inst))) <= rs_itemIndex target ->
  showsTarget inst ch target candidate = false.
Proof.
  intros Hout. unfold showsTarget, windowContains, candidateRange.
  pose proof (getRangeIndex_inside
                (candidateScrollPtg inst ch candidate)
                (Z.of_nat (length (dataSource (props inst))))
                (visibleCountOf (height (props inst)) (itemHeight (props inst))))
    as [Hs He].
  apply andb_false_iff.
  destruct Hout; [left; apply Z.leb_gt | right; apply Z.leb_gt]; lia.
Qed.

(** With a target that no window can contain the loop runs to the end of
    its index range and never records a match. *)
Lemma searchLoop_outsider inst ch target remaining :
  rs_itemIndex target < 0
  \/ Z.of_nat (length (dataSource (props inst))) <= rs_itemIndex target ->
  forall i acc,
    0 <= missSimilarity acc <= 10 ->
    sr_acc (searchLoop inst ch target remaining i acc) = acc
    /\ sr_exit (searchLoop inst ch target remaining i acc) = IndexExhausted.
Proof.
  intros Hout.
  induction remaining as [|remaining IH]; intros i acc Hacc; simpl; [easy|].
  rewrite searchStep_outside by now apply window_misses_outsider.
  destruct (Z.gtb_spec (missSimilarity acc) 10) as [Hgt|_]; [lia|]. simpl.
  now apply IH.
Qed.

(** *** The recorded match is the best of what was examined *)

(** What one pass of the loop body does to the locals. *)
Lemma searchStep_outcome inst ch target candidate acc :
  (showsTarget inst ch target candidate = false
   /\ searchStep inst ch target candidate acc = acc)
  \/ (showsTarget inst ch target candidate = true
      /\ bestSimilarity (searchStep inst ch target candidate acc)
         = Some (candidateSimilarity inst ch target candidate)
      /\ best (searchStep inst ch target candidate acc)
         = Some {| bestScrollTop := candidate;
                   bestItemIndex := ri_itemIndex (candidateRange inst ch candidate);
                   bestItemOffsetPtg := ri_itemOffsetPtg (candidateRange inst ch candidate);
                   bestStartIndex := ri_startIndex (candidateRange inst ch candidate);
                   bestEndIndex := ri_endIndex (candidateRange inst ch candidate) |}
      /\ missSimilarity (searchStep inst ch target candidate acc) = 0
      /\ (forall s, bestSimilarity acc = Some s ->
            (candidateSimilarity inst ch target candidate < s)%Q))
  \/ (showsTarget inst ch target candidate = true
      /\ bestSimilarity (searchStep inst ch target candidate acc) = bestSimilarity acc
      /\ best (searchStep inst ch target candidate acc) = best acc
      /\ missSimilarity (searchStep inst ch target candidate acc)
         = missSimilarity acc + 1
      /\ exists s, bestSimilarity acc = Some s
                   /\ (s <= candidateSimilarity inst ch target candidate)%Q).
Proof.
  unfold showsTarget, Component.searchStep.
  destruct (windowContains _ _) eqn:Hin; [|now left].
  destruct (bestSimilarity acc) as [s0|] eqn:Hs0.
  - destruct (Qltb _ s0) eqn:Hlt.
    + right; left. repeat split. intros s [= <-]. now apply Qltb_lt.
    + right; right. repeat split. exists s0. split; [reflexivity|].
      now apply Qltb_ge.
  - right; left. repeat split. intros s Hs. discriminate.
Qed.

Lemma windowContains_bounds (r : RangeIndex) (index : Z) :
  windowContains r index = true -> ri_startIndex r <= index <= ri_endIndex r.
Proof.
  unfold windowContains. intros H. apply andb_true_iff in H as [H1 H2].
  apply Z.leb_le in H1, H2. lia.
Qed.

Lemma searchStep_sound inst ch target seen candidate acc :
  soundLocals inst ch target seen acc ->
  soundLocals inst ch target (seen ++ [candidate])
    (searchStep inst ch target candidate acc).
Proof.
  unfold matchSound. intros (Hbest & Hmin & Hnone).
  destruct (searchStep_outcome inst ch target candidate acc)
    as [[Hout ->]|[(Hin & Hs & Hb & _ & Hlt)|(Hin & Hs & Hb & _ & s0 & Hs0 & Hle)]].
  - split; [|split].
    + intros b Hb. destruct (Hbest b Hb) as (Hseen & Hwin & Hsim).
      split; [apply in_or_app; now left | now split].
    + intros s Hs. destruct (Hmin s Hs) as [Hex Hall]. split; [exact Hex|].
      intros c Hc Hwin. apply in_app_or in Hc as [Hc|[<-|[]]]; [now apply Hall|].
      congruence.
    + intros Hn. destruct (Hnone Hn) as [Hb Hall]. split; [exact Hb|].
      intros c Hc. apply in_app_or in Hc as [Hc|[<-|[]]]; [now apply Hall | exact Hout].
  - rewrite Hs, Hb. split; [|split].
    + intros b [= <-]. cbn [bestScrollTop bestStartIndex bestEndIndex].
      split; [apply in_or_app; right; now left|].
      split; [exact (windowContains_bounds _ _ Hin)|].
      split; [exact Hin | reflexivity].
    + intros s [= <-]. split; [eauto|].
      intros c Hc Hwin. apply in_app_or in Hc as [Hc|[<-|[]]]; [|apply Qle_refl].
      destruct (bestSimilarity acc) as [s0|] eqn:Hs0.
      * apply Qle_trans with s0; [apply Qlt_le_weak; now apply Hlt|].
        now apply (proj2 (Hmin s0 eq_refl)).
      * destruct (Hnone eq_refl) as [_ Hall]. rewrite (Hall c Hc) in Hwin. discriminate.
    + discriminate.
  - rewrite Hs, Hb. split; [|split].
    + intros b Hb'. destruct (Hbest b Hb') as (Hseen & Hwin & Hsim).
      split; [apply in_or_app; now left | now split].
    + intros s Hs'. destruct (Hmin s Hs') as [Hex Hall]. split; [exact Hex|].
      intros c Hc Hwin. apply in_app_or in Hc as [Hc|[<-|[]]]; [now apply Hall|].
      rewrite Hs0 in Hs'. injection Hs' as <-. exact Hle.
    + intros Hn. congruence.
Qed.

Lemma searchLoop_sound inst ch target remaining :
  forall i acc seen,
    soundLocals inst ch target seen acc ->
    soundLocals inst ch target
      (seen ++ sr_visited (searchLoop inst ch target remaining i acc))
      (sr_acc (searchLoop inst ch target remaining i acc)).
Proof.
  induction remaining as [|remaining IH]; intros i acc seen Hacc; simpl.
  - now rewrite app_nil_r.
  - destruct (missSimilarity _ >? 10); simpl.
    + now apply searchStep_sound.
    + rewrite (app_assoc seen [_] _ : seen ++ _ :: _ = _).
      apply IH. now apply searchStep_sound.
Qed.

Lemma initialAcc_sound inst ch target : soundLocals inst ch target [] initialAcc.
Proof.
  split; [|split]; simpl; try discriminate.
  intros _. split; [reflexivity|]. intros c [].
Qed.

Lemma scrollSearch_sound inst ch target :
  soundLocals inst ch target (sr_visited (scrollSearch inst ch target))
    (sr_acc (scrollSearch inst ch target)).
Proof.
  unfold Component.scrollSearch.
  apply (searchLoop_sound inst ch target (Z.to_nat (maxScrollTopOf inst ch)) 0
           initialAcc []).
  apply initialAcc_sound.
Qed.

(** *** The miss counter counts the failures since the last improvement *)

Lemma verdicts_app inst ch target (l1 : list Z) :
  forall earlier l2,
    verdictsFrom inst ch target earlier (l1 ++ l2)
    = verdictsFrom inst ch target earlier l1
      ++ verdictsFrom inst ch target (earlier ++ l1) l2.
Proof.
  induction l1 as [|c l1 IH]; intros earlier l2; simpl.
  - now rewrite app_nil_r.
  - rewrite IH, <- app_assoc. reflexivity.
Qed.

Lemma missesAfter_snoc (vs : list Verdict) (v : Verdict) :
  missesAfter (vs ++ [v]) = countMiss (missesAfter vs) v.
Proof. unfold missesAfter. now rewrite fold_left_app. Qed.

Lemma verdicts_snoc inst ch target (seen : list Z) (c : Z) :
  missesAfter (verdictsFrom inst ch target [] (seen ++ [c]))
  = countMiss (missesAfter (verdictsFrom inst ch target [] seen))
              (verdictAt inst ch target seen c).
Proof.
  rewrite verdicts_app.
  change (verdictsFrom inst ch target ([] ++ seen) [c])
    with [verdictAt inst ch target seen c].
  apply missesAfter_snoc.
Qed.

(** The test [similarity < bestSimilarity] of the loop body is the
    comparison with every earlier candidate that showed the target. *)
Lemma searchStep_verdict inst ch target seen candidate acc :
  soundLocals inst ch target seen acc ->
  missSimilarity (searchStep inst ch target candidate acc)
  = countMiss (missSimilarity acc) (verdictAt inst ch target seen candidate).
Proof.
  intros (Hbest & Hmin & Hnone). unfold verdictOf.
  destruct (searchStep_outcome inst ch target candidate acc)
    as [[Hout ->]|[(Hin & _ & _ & Hmiss & Hlt)|(Hin & _ & _ & Hmiss & s0 & Hs0 & Hle)]].
  - now rewrite Hout.
  - rewrite Hin, Hmiss.
    replace (forallb _ seen) with true; [reflexivity|].
    symmetry. apply forallb_forall. intros e He.
    destruct (showsTarget inst ch target e) eqn:Hshow; [|reflexivity]. simpl.
    apply Qltb_true.
    destruct (bestSimilarity acc) as [s|] eqn:Hs.
    + apply Qlt_le_trans with s; [now apply Hlt|].
      now apply (proj2 (Hmin s eq_refl)).
    + destruct (Hnone eq_refl) as [_ Hall]. rewrite (Hall e He) in Hshow. discriminate.
  - rewrite Hin, Hmiss.
    replace (forallb _ seen) with false; [reflexivity|].
    symmetry. apply not_true_iff_false. intros Hall.
    destruct (Hmin s0 Hs0) as [[b Hb] _].
    destruct (Hbest b Hb) as (Hseen & _ & Hshow & Hsim).
    rewrite forallb_forall in Hall. specialize (Hall _ Hseen).
    rewrite Hshow in Hall. simpl in Hall. apply Qltb_lt in Hall.
    rewrite Hs0 in Hsim. injection Hsim as ->.
    exact (Qlt_not_le _ _ Hall Hle).
Qed.

(** Along the loop the miss counter is the number of failures since the
    last improvement, and the loop goes on exactly while that number is
    at most 10. *)
Lemma searchLoop_misses inst ch target remaining :
  forall i acc seen,
    soundLocals inst ch target seen acc ->
    missSimilarity acc = missesAfter (verdictsFrom inst ch target [] seen) ->
    let visited := sr_visited (searchLoop inst ch target remaining i acc) in
    missSimilarity (sr_acc (searchLoop inst ch target remaining i acc))
    = missesAfter (verdictsFrom inst ch target [] (seen ++ visited))
    /\ (forall k, (0 < k < length visited)%nat ->
          missesAfter (verdictsFrom inst ch target [] (seen ++ take k visited)) <= 10).
Proof.
  induction remaining as [|remaining IH]; intros i acc seen Hsound Hmiss; simpl.
  - rewrite app_nil_r. split; [exact Hmiss | simpl; lia].
  - pose proof (searchStep_verdict inst ch target seen
                  (candidateScrollTop getIndexByStartLoc inst ch i) acc Hsound) as Hstep.
    pose proof (searchStep_sound inst ch target seen
                  (candidateScrollTop getIndexByStartLoc inst ch i) acc Hsound) as Hsound'.
    assert (Hmiss' :
      missSimilarity (searchStep inst ch target
                        (candidateScrollTop getIndexByStartLoc inst ch i) acc)
      = missesAfter (verdictsFrom inst ch target []
                       (seen ++ [candidateScrollTop getIndexByStartLoc inst ch i])))
      by (now rewrite verdicts_snoc, <- Hmiss).
    destruct (Z.gtb_spec
                (missSimilarity
                   (searchStep inst ch target
                      (candidateScrollTop getIndexByStartLoc inst ch i) acc))
                10) as [Hgt|Hle]; simpl.
    + split; [exact Hmiss' | lia].
    + destruct (IH (i + 1) _ _ Hsound' Hmiss') as [Hend Hprefix].
      rewrite <- app_assoc in Hend. split; [exact Hend|].
      intros [|k] Hk; [lia|]. simpl.
      rewrite (app_assoc seen [_] _ : seen ++ _ :: _ = _).
      destruct k as [|k].
      * rewrite take_0, app_nil_r, <- Hmiss'. exact Hle.
      * apply Hprefix. simpl in Hk. lia.
Qed.

Lemma searchLoop_order inst ch target remaining :
  forall i acc k c,
    sr_visited (searchLoop inst ch target remaining i acc) !! k = Some c ->
    c = candidateScrollTop getIndexByStartLoc inst ch (i + Z.of_nat k).
Proof.
  induction remaining as [|remaining IH]; intros i acc k c Hk; simpl in Hk;
    [discriminate|].
  destruct (missSimilarity _ >? 10); simpl in Hk.
  - destruct k as [|k]; [|discriminate]. injection Hk as <-. f_equal. lia.
  - destruct k as [|k]; simpl in Hk.
    + injection Hk as <-. f_equal. lia.
    + apply IH in Hk. rewrite Hk. f_equal. lia.
Qed.

End SearchFacts.

(** ** The claims about [scrollTo] *)

Section ScrollToFacts.

Variable GHOST_ITEM_KEY : JS.Key.
Variable getItemRelativeTop :
  Z -> Q -> gmap string Z -> Q -> Z -> (Z -> JS.Key) -> Q.
Variable getCompareItemRelativeTop :
  Q -> Z -> Z -> Z -> Z -> (Z -> JS.Key) -> gmap string Z -> Q.
Variable getIndexByStartLoc : Z -> Z -> option Z -> Z -> Z.

Local Abbreviation scrollSearch :=
  (scrollSearch GHOST_ITEM_KEY getItemRelativeTop getCompareItemRelativeTop
     getIndexByStartLoc).
Local Abbreviation scrollTo :=
  (scrollTo GHOST_ITEM_KEY getItemRelativeTop getCompareItemRelativeTop
     getIndexByStartLoc).
Local Abbreviation verdictsFrom :=
  (verdicts GHOST_ITEM_KEY getItemRelativeTop getCompareItemRelativeTop).

(** C3 (as amended).  Whatever the relative scroll target and the
    container's [clientHeight], the search of [scrollTo] examines at most
    [max(0, maxScrollTop)] candidate offsets.  Its miss counter is, at
    every point, the number of examined candidates that showed the target
    and failed to improve the best similarity since the last candidate
    that improved it; candidates whose window misses the target neither
    count nor reset it.  The loop goes on while that number is at most 10
    (it is so after every proper prefix of the examined candidates) and is
    left in one of two ways: the loop counter ran through its whole range
    (then exactly [max(0, maxScrollTop)] candidates were examined and the
    number is still at most 10), or the [break] fired, and then the last
    candidate examined was the eleventh failure in a row: the break needs
    eleven misses, not ten.  For an [itemIndex] outside [[0, itemCount)]
    the search records no match and ends by exhausting the range. *)
Theorem scrollSearch_bounded (inst : Instance) (clientHeight : Z)
    (target : RelativeScroll) :
  let search := scrollSearch inst clientHeight target in
  let misses := fun examined =>
    missesAfter (verdictsFrom inst clientHeight target [] examined) in
  Z.of_nat (length (sr_visited search))
    <= Z.max 0 (maxScrollTopOf inst clientHeight)
  /\ missSimilarity (sr_acc search) = misses (sr_visited search)
  /\ (forall k, (k < length (sr_visited search))%nat ->
        misses (take k (sr_visited search)) <= 10)
  /\ match sr_exit search with
     | IndexExhausted =>
         Z.of_nat (length (sr_visited search))
           = Z.max 0 (maxScrollTopOf inst clientHeight)
         /\ misses (sr_visited search) <= 10
     | MissLimit => misses (sr_visited search) = 11
     end
  /\ (rs_itemIndex target < 0
      \/ Z.of_nat (length (dataSource (props inst))) <= rs_itemIndex target ->
      best (sr_acc search) = None
      /\ sr_exit search = IndexExhausted).
Proof.
  intros search misses. unfold search, misses, Component.scrollSearch.
  destruct (searchLoop_exit GHOST_ITEM_KEY getItemRelativeTop
              getCompareItemRelativeTop getIndexByStartLoc inst clientHeight target
              (Z.to_nat (maxScrollTopOf inst clientHeight)) 0 initialAcc)
    as [Hlen Hexit]; [simpl; lia|].
  destruct (searchLoop_misses GHOST_ITEM_KEY getItemRelativeTop
              getCompareItemRelativeTop getIndexByStartLoc inst clientHeight target
              (Z.to_nat (maxScrollTopOf inst clientHeight)) 0 initialAcc []
              (initialAcc_sound _ _ _ inst clientHeight target) eq_refl)
    as [Hmiss Hprefix].
  cbn [app] in Hmiss, Hprefix.
  split; [lia|]. split; [exact Hmiss|]. split; [|split].
  - intros [|k] Hk; [simpl; unfold missesAfter; simpl; lia|].
    apply Hprefix. lia.
  - rewrite <- Hmiss. destruct (sr_exit _); [|exact Hexit].
    destruct Hexit as [Hall Hle]. split; lia.
  - intros Hout.
    destruct (searchLoop_outsider GHOST_ITEM_KEY getItemRelativeTop
                getCompareItemRelativeTop getIndexByStartLoc inst clientHeight target
                (Z.to_nat (maxScrollTopOf inst clientHeight)) Hout 0 initialAcc)
      as [Hacc Hex]; [simpl; lia|].
    rewrite Hacc. now split.
Qed.

(** C4.  On a list whose container is attached: when none of the
    candidate offsets the search examined has a render window containing
    the target index, [scrollTo] returns normally with the instance as it
    was: positioning state, container offset, lock, ledger and frame queue
    are all untouched. *)
Theorem scrollTo_unreachable_noop (inst : Instance) (c : Container)
    (target : RelativeScroll) :
  listRef inst = Some c ->
  Forall (fun candidate =>
            windowContains (candidateRange inst (el_clientHeight c) candidate)
                           (rs_itemIndex target) = false)
         (sr_visited (scrollSearch inst (el_clientHeight c) target)) ->
  scrollTo (ArgRelative target) inst = Returned inst.
Proof.
  intros Href Hall. unfold Component.scrollTo. rewrite Href.
  unfold Component.scrollSearch in *.
  rewrite (searchLoop_untouched GHOST_ITEM_KEY getItemRelativeTop
             getCompareItemRelativeTop getIndexByStartLoc inst (el_clientHeight c)
             target _ 0 initialAcc Hall).
  reflexivity.
Qed.

(** C10 (as amended).  On a list whose container is attached,
    [scrollTo(n)] with a number returns normally; the container then
    holds [n] clamped to its scroll range
    [[0, max(0, scrollHeight - clientHeight)]], which is [n] itself when
    [n] lies in that range; and nothing else changes: props, positioning
    state, the container's extents, mounted elements, height ledger,
    cached props, lock and frame queue are those of the instance before
    the call. *)
Theorem scrollTo_number_frame (n : Z) (inst : Instance) (c : Container) :
  listRef inst = Some c ->
  exists (r : Instance) (c' : Container),
    scrollTo (ArgNumber n) inst = Returned r
    /\ listRef r = Some c'
    /\ el_scrollTop c' = Z.max 0 (Z.min n (scrollRange c))
    /\ (0 <= n <= scrollRange c -> el_scrollTop c' = n)
    /\ el_scrollHeight c' = el_scrollHeight c
    /\ el_clientHeight c' = el_clientHeight c
    /\ state r = state inst
    /\ itemElementHeights r = itemElementHeights inst
    /\ lockScroll r = lockScroll inst
    /\ frameQueue r = frameQueue inst
    /\ cachedProps r = cachedProps inst
    /\ props r = props inst
    /\ itemElements r = itemElements inst.
Proof.
  intros Href. unfold Component.scrollTo. rewrite Href.
  eexists _, _. split; [reflexivity|]. split; [reflexivity|].
  split; [reflexivity|]. split; [apply assignScrollTop_in_range|].
  repeat split.
Qed.

End ScrollToFacts.

(** ** The component as a state machine *)

Section ComponentFacts.

Variable GHOST_ITEM_KEY : JS.Key.
Variable getItemRelativeTop :
  Z -> Q -> gmap string Z -> Q -> Z -> (Z -> JS.Key) -> Q.
Variable getItemAbsoluteTop :
  Z -> Q -> gmap string Z -> Z -> Q -> Z -> (Z -> JS.Key) -> Q.
Variable getCompareItemRelativeTop :
  Q -> Z -> Z -> Z -> Z -> (Z -> JS.Key) -> gmap string Z -> Q.
Variable getIndexByStartLoc : Z -> Z -> option Z -> Z -> Z.

Local Abbreviation searchStep :=
  (searchStep GHOST_ITEM_KEY getItemRelativeTop getCompareItemRelativeTop).
Local Abbreviation searchLoop :=
  (searchLoop GHOST_ITEM_KEY getItemRelativeTop getCompareItemRelativeTop
     getIndexByStartLoc).
Local Abbreviation scrollSearch :=
  (scrollSearch GHOST_ITEM_KEY getItemRelativeTop getCompareItemRelativeTop
     getIndexByStartLoc).
Local Abbreviation scrollTo :=
  (scrollTo GHOST_ITEM_KEY getItemRelativeTop getCompareItemRelativeTop
     getIndexByStartLoc).
Local Abbreviation collectItemHeights := (collectItemHeights GHOST_ITEM_KEY).
Local Abbreviation measureDone :=
  (measureDone GHOST_ITEM_KEY getItemAbsoluteTop).
Local Abbreviation measurePhase :=
  (measurePhase GHOST_ITEM_KEY getItemAbsoluteTop).
Local Abbreviation diffAnchorTarget :=
  (diffAnchorTarget GHOST_ITEM_KEY getItemRelativeTop getCompareItemRelativeTop).
Local Abbreviation lengthPhase :=
  (lengthPhase GHOST_ITEM_KEY getItemRelativeTop getCompareItemRelativeTop
     getIndexByStartLoc).
Local Abbreviation componentDidUpdate :=
  (componentDidUpdate GHOST_ITEM_KEY getItemRelativeTop getItemAbsoluteTop
     getCompareItemRelativeTop getIndexByStartLoc).
Local Abbreviation step :=
  (step GHOST_ITEM_KEY getItemRelativeTop getItemAbsoluteTop
     getCompareItemRelativeTop getIndexByStartLoc).
Local Abbreviation run :=
  (run GHOST_ITEM_KEY getItemRelativeTop getItemAbsoluteTop
     getCompareItemRelativeTop getIndexByStartLoc).

(** *** How each method leaves the instance *)

(** [scrollTo] ends in one of three ways: with the instance as it was
    (it threw, or found no match), with the number assigned to the
    container, or with a recorded match applied. *)
Lemma scrollTo_after arg inst :
  after (scrollTo arg inst) = inst
  \/ (exists n c,
        listRef inst = Some c
        /\ scrollTo arg inst
           = Returned (set_listRef (Some (assignScrollTop n c)) inst))
  \/ (exists target c b,
        arg = ArgRelative target
        /\ listRef inst = Some c
        /\ best (sr_acc (scrollSearch inst (el_clientHeight c) target)) = Some b
        /\ scrollTo arg inst = Returned (applyBest b c inst)).
Proof.
  unfold Component.scrollTo.
  destruct arg as [n|target]; destruct (listRef inst) as [c|] eqn:Href;
    try (now left).
  - right; left. now exists n, c.
  - destruct (best _) as [b|] eqn:Hb; [|now left].
    right; right. now exists target, c, b.
Qed.

(** A relation between the instance before and after that every part of
    an update pass respects is respected by the pass, however it ends. *)
Lemma componentDidUpdate_related (R : Instance -> Instance -> Prop) :
  (forall i, R i i) ->
  (forall a b c, R a b -> R b c -> R a c) ->
  (forall i, R i (collectItemHeights i)) ->
  (forall i c, R i (measureDone i c)) ->
  (forall arg i, R i (after (scrollTo arg i))) ->
  (forall p i, R i (set_cachedProps p i)) ->
  forall inst, R inst (after (componentDidUpdate inst)).
Proof.
  intros Hrefl Htrans Hcollect Hmeasure Hscroll Hcache inst.
  unfold Component.componentDidUpdate.
  destruct (disabled _); [apply Hrefl|].
  assert (Hm : R inst (after (measurePhase inst))).
  { unfold Component.measurePhase.
    destruct (status _); try apply Hrefl.
    destruct (listRef inst); [apply Hmeasure | apply Hrefl]. }
  destruct (measurePhase inst) as [inst1|inst1]; cbn [andThen after] in *;
    [|exact Hm].
  assert (Hl : R inst1 (after (lengthPhase inst1))).
  { unfold Component.lengthPhase.
    destruct (lengthChanged _); [|apply Hrefl].
    destruct (listRef _); [|apply Hcollect].
    eapply Htrans; [apply Hcollect | apply Hscroll]. }
  destruct (lengthPhase inst1) as [inst2|inst2]; cbn [andThen after] in *.
  - eapply Htrans; [exact Hm|]. eapply Htrans; [exact Hl | apply Hcache].
  - eapply Htrans; [exact Hm | exact Hl].
Qed.

(** The same for one event other than an animation frame. *)
Lemma step_related (R : Instance -> Instance -> Prop) :
  (forall i, R i i) ->
  (forall a b c, R a b -> R b c -> R a c) ->
  (forall i, R i (collectItemHeights i)) ->
  (forall i c, R i (measureDone i c)) ->
  (forall arg i, R i (after (scrollTo arg i))) ->
  (forall p i, R i (set_cachedProps p i)) ->
  (forall i, R i (after (onScroll i))) ->
  (forall c i, R i (set_listRef c i)) ->
  (forall p elements sh ch i, R i (committed p elements sh ch i)) ->
  forall inst e, notFrame e = true -> R inst (step inst e).
Proof.
  intros Hrefl Htrans Hcollect Hmeasure Hscroll Hcache Hon Href Hcommit inst e He.
  destruct e as [top|p elements sh ch|arg|]; [| | |discriminate];
    unfold Component.step.
  - unfold scrolled. destruct (listRef inst); [|apply Hrefl].
    eapply Htrans; [apply Href | apply Hon].
  - eapply Htrans; [apply Hcommit|].
    now apply componentDidUpdate_related.
  - apply Hscroll.
Qed.

Lemma finiteCapacity_visible p :
  finiteCapacity p = true -> 0 <= visibleCountOf (height p) (itemHeight p).
Proof.
  unfold finiteCapacity. intros H.
  apply andb_true_iff in H as [Hih Hh].
  destruct (height p) as [h|]; [|discriminate].
  apply visibleCountOf_nonneg; lia.
Qed.

Lemma candidateRange_window inst ch candidate :
  finiteCapacity (props inst) = true ->
  windowHolds (ri_startIndex (candidateRange inst ch candidate))
              (ri_itemIndex (candidateRange inst ch candidate))
              (ri_endIndex (candidateRange inst ch candidate)).
Proof.
  intros Hp. unfold candidateRange.
  apply getRangeIndex_window; [lia | now apply finiteCapacity_visible].
Qed.

Lemma searchStep_best_window inst ch target candidate acc :
  finiteCapacity (props inst) = true ->
  bestWindowHolds acc ->
  bestWindowHolds (searchStep inst ch target candidate acc).
Proof.
  intros Hp Hacc. unfold Component.searchStep.
  destruct (windowContains _ _); [|exact Hacc].
  destruct (match bestSimilarity acc with None => true | Some b => _ end).
  - intros b Hb. simpl in Hb. injection Hb as <-. simpl.
    now apply candidateRange_window.
  - exact Hacc.
Qed.

Lemma searchLoop_best_window inst ch target remaining :
  finiteCapacity (props inst) = true ->
  forall i acc,
    bestWindowHolds acc ->
    bestWindowHolds (sr_acc (searchLoop inst ch target remaining i acc)).
Proof.
  intros Hp. induction remaining as [|remaining IH]; intros i acc Hacc; simpl.
  - exact Hacc.
  - destruct (missSimilarity _ >? 10); simpl.
    + now apply searchStep_best_window.
    + apply IH. now apply searchStep_best_window.
Qed.

Lemma scrollSearch_best_window inst ch target b :
  finiteCapacity (props inst) = true ->
  best (sr_acc (scrollSearch inst ch target)) = Some b ->
  windowHolds (bestStartIndex b) (bestItemIndex b) (bestEndIndex b).
Proof.
  intros Hp Hb.
  apply (searchLoop_best_window inst ch target (Z.to_nat (maxScrollTopOf inst ch)) Hp 0
           initialAcc); [|exact Hb].
  intros b' Hb'. discriminate.
Qed.

(** *** The props and the window *)

Lemma windowKept_refl i : windowKept i i.
Proof. now split. Qed.

Lemma windowKept_trans a b c : windowKept a b -> windowKept b c -> windowKept a c.
Proof.
  intros [Hp1 Hw1] [Hp2 Hw2]. split; [congruence|].
  intros Hp Hw. apply Hw2; [now rewrite Hp1 | now apply Hw1].
Qed.

Lemma scrollTo_windowKept arg inst : windowKept inst (after (scrollTo arg inst)).
Proof.
  destruct (scrollTo_after arg inst)
    as [->|[(n & c & _ & ->)|(target & c & b & _ & _ & Hb & ->)]];
    [apply windowKept_refl | now split |].
  split; [reflexivity|]. intros Hp _.
  exact (scrollSearch_best_window inst _ target b Hp Hb).
Qed.

Lemma onScroll_windowKept inst : windowKept inst (after (onScroll inst)).
Proof.
  unfold onScroll. destruct (listRef inst) as [c|]; [|apply windowKept_refl].
  destruct (_ || _); [apply windowKept_refl|].
  split; [reflexivity|]. intros Hp _.
  unfold stateWindowHolds; simpl.
  apply getRangeIndex_window; [lia | now apply finiteCapacity_visible].
Qed.

Lemma componentDidUpdate_windowKept inst :
  windowKept inst (after (componentDidUpdate inst)).
Proof.
  apply componentDidUpdate_related;
    auto using windowKept_refl, scrollTo_windowKept; try (now split).
  apply windowKept_trans.
Qed.

Lemma scrollTo_props arg inst : props (after (scrollTo arg inst)) = props inst.
Proof. apply scrollTo_windowKept. Qed.

Lemma onScroll_props inst : props (after (onScroll inst)) = props inst.
Proof. apply onScroll_windowKept. Qed.

Lemma componentDidUpdate_props inst :
  props (after (componentDidUpdate inst)) = props inst.
Proof. apply componentDidUpdate_windowKept. Qed.

(** *** The lock and the frame queue outside animation frames *)

Lemma lockKept_same a b :
  lockScroll b = lockScroll a -> frameQueue b = frameQueue a -> lockKept a b.
Proof.
  intros Hl Hq. split; [congruence|].
  exists 0%nat. simpl. now rewrite app_nil_r.
Qed.

Lemma lockKept_refl i : lockKept i i.
Proof. now apply lockKept_same. Qed.

Lemma lockKept_trans a b c : lockKept a b -> lockKept b c -> lockKept a c.
Proof.
  intros [Hl1 [k1 Hq1]] [Hl2 [k2 Hq2]]. split; [auto|].
  exists (k1 + k2)%nat. rewrite Hq2, Hq1, <- app_assoc. f_equal.
  symmetry. apply repeat_app.
Qed.

Lemma scrollTo_lockKept arg inst : lockKept inst (after (scrollTo arg inst)).
Proof.
  destruct (scrollTo_after arg inst)
    as [->|[(n & c & _ & ->)|(target & c & b & _ & _ & _ & ->)]];
    [apply lockKept_refl | now apply lockKept_same |].
  split; [reflexivity|]. now exists 1%nat.
Qed.

Lemma onScroll_lockKept inst : lockKept inst (after (onScroll inst)).
Proof.
  unfold onScroll. destruct (listRef inst) as [c|]; [|apply lockKept_refl].
  destruct (_ || _); now apply lockKept_same.
Qed.

Lemma step_lockKept inst e : notFrame e = true -> lockKept inst (step inst e).
Proof.
  apply step_related;
    auto using lockKept_refl, scrollTo_lockKept, onScroll_lockKept;
    try (intros; now apply lockKept_same).
  apply lockKept_trans.
Qed.

Lemma run_lockKept (events : list Event) :
  forall inst, forallb notFrame events = true -> lockKept inst (run inst events).
Proof.
  induction events as [|e events IH]; intros inst Hes; [apply lockKept_refl|].
  simpl in Hes. apply andb_true_iff in Hes as [He Hes].
  change (run inst (e :: events)) with (run (step inst e) events).
  eapply lockKept_trans; [exact (step_lockKept inst e He) | now apply IH].
Qed.

(** *** Animation frames *)

Lemma frameCallbacks_fold (queue : list FrameCallback) :
  forall inst,
    props (fold_left runFrameCallback queue inst) = props inst
    /\ state (fold_left runFrameCallback queue inst) = state inst
    /\ lockScroll (fold_left runFrameCallback queue inst)
       = (if existsb isUnlock queue then false else lockScroll inst)
    /\ frameQueue (fold_left runFrameCallback queue inst)
       = frameQueue inst
         ++ repeat Unlock (length (List.filter (fun cb => negb (isUnlock cb)) queue)).
Proof.
  induction queue as [|cb queue IH]; intros inst; simpl.
  - repeat split. now rewrite app_nil_r.
  - destruct (IH (runFrameCallback inst cb)) as (Hp & Hs & Hl & Hq).
    rewrite Hp, Hs, Hl, Hq. destruct cb; simpl.
    + repeat split. now rewrite <- app_assoc.
    + repeat split. now destruct (existsb isUnlock queue).
Qed.

Lemma animationFrame_props inst : props (animationFrame inst) = props inst.
Proof. unfold animationFrame. now rewrite (proj1 (frameCallbacks_fold _ _)). Qed.

Lemma animationFrame_state inst : state (animationFrame inst) = state inst.
Proof.
  unfold animationFrame.
  now rewrite (proj1 (proj2 (frameCallbacks_fold _ _))).
Qed.

Lemma animationFrame_lock inst :
  lockScroll (animationFrame inst)
  = if existsb isUnlock (frameQueue inst) then false else lockScroll inst.
Proof.
  unfold animationFrame.
  now rewrite (proj1 (proj2 (proj2 (frameCallbacks_fold _ _)))).
Qed.

Lemma animationFrame_queue inst :
  frameQueue (animationFrame inst)
  = repeat Unlock (length (List.filter (fun cb => negb (isUnlock cb)) (frameQueue inst))).
Proof.
  unfold animationFrame.
  now rewrite (proj2 (proj2 (proj2 (frameCallbacks_fold _ _)))).
Qed.

(** *** Runs *)

Lemma run_app inst (es1 es2 : list Event) :
  run inst (es1 ++ es2) = run (run inst es1) es2.
Proof. unfold Component.run. apply fold_left_app. Qed.

Lemma step_props_window inst e :
  finiteCapacityEvent e = true ->
  finiteCapacity (props inst) = true ->
  stateWindowHolds (state inst) ->
  finiteCapacity (props (step inst e)) = true
  /\ stateWindowHolds (state (step inst e)).
Proof.
  intros He Hp Hst. destruct e as [top|p elements sh ch|arg|]; simpl in He;
    unfold Component.step.
  - unfold scrolled. destruct (listRef inst); [|now split].
    destruct (onScroll_windowKept (set_listRef_scrollTop top inst)) as [Hp' Hw].
    rewrite Hp'. split; [exact Hp | now apply Hw].
  - destruct (componentDidUpdate_windowKept (committed p elements sh ch inst))
      as [Hp' Hw].
    rewrite Hp'. split; [exact He | now apply Hw].
  - destruct (scrollTo_windowKept arg inst) as [Hp' Hw].
    rewrite Hp'. split; [exact Hp | now apply Hw].
  - now rewrite animationFrame_props, animationFrame_state.
Qed.

Lemma run_props_window (events : list Event) :
  forall inst,
    forallb finiteCapacityEvent events = true ->
    finiteCapacity (props inst) = true ->
    stateWindowHolds (state inst) ->
    stateWindowHolds (state (run inst events)).
Proof.
  induction events as [|e events IH]; intros inst Hes Hp Hst; [exact Hst|].
  simpl in Hes. apply andb_true_iff in Hes as [He Hes].
  destruct (step_props_window inst e He Hp Hst) as [Hp' Hst'].
  change (run inst (e :: events)) with (run (step inst e) events).
  now apply IH.
Qed.

Lemma existsb_isUnlock_app (q1 q2 : list FrameCallback) :
  existsb isUnlock (q1 ++ q2) = existsb isUnlock q1 || existsb isUnlock q2.
Proof. apply existsb_app. Qed.

Lemma existsb_isUnlock_waiting (k : nat) :
  existsb isUnlock (repeat UnlockAfterNextFrame k) = false.
Proof. induction k as [|k IH]; [reflexivity | exact IH]. Qed.

Lemma waiting_count (q : list FrameCallback) (k : nat) :
  existsb isUnlock q = false ->
  length (List.filter (fun cb => negb (isUnlock cb)) (q ++ repeat UnlockAfterNextFrame k))
  = (length q + k)%nat.
Proof.
  intros Hq. induction q as [|cb q IH]; simpl.
  - induction k as [|k IHk]; simpl; [reflexivity | now rewrite IHk].
  - simpl in Hq. apply orb_false_iff in Hq as [Hcb Hq].
    rewrite Hcb. simpl. now rewrite IH.
Qed.

(** *** Rendered children *)

Lemma imap_items {B C : Type} (l : list Item) :
  forall (f : nat -> B) (g : nat -> C),
    map (fun child => fst (fst child)) (imap (fun i x => (x, f i, g i)) l) = l.
Proof.
  induction l as [|x l IH]; intros f g; [reflexivity|].
  cbn [imap map fst]. f_equal.
  apply (IH (fun i => f (S i)) (fun i => g (S i))).
Qed.

(** *** The claims about the state machine *)

(** C1 (as amended).  For a scroll fraction in [[0,1]], at least one item
    and a visible capacity of at least one, the Range Locator returns
    [0 <= startIndex <= endIndex <= n-1] and
    [startIndex <= locatedItemIndex <= n]; the located index is at most
    [endIndex] exactly when the fraction is below 1 (at fraction 1 it is
    the sentinel [n], one past the window).  Along every run of the
    component from its initial state, under props with a finite
    non-negative capacity, the positioning state keeps
    [0 <= startIndex <= itemIndex <= endIndex + 1]. *)
Theorem located_window_invariant :
  (forall (f : Q) (n v : Z),
      (0 <= f)%Q -> (f <= 1)%Q -> 1 <= n -> 1 <= v ->
      0 <= ri_startIndex (getRangeIndex f n v)
      /\ ri_startIndex (getRangeIndex f n v) <= ri_endIndex (getRangeIndex f n v)
      /\ ri_endIndex (getRangeIndex f n v) <= n - 1
      /\ ri_startIndex (getRangeIndex f n v) <= ri_itemIndex (getRangeIndex f n v)
      /\ ri_itemIndex (getRangeIndex f n v) <= n
      /\ (ri_itemIndex (getRangeIndex f n v) <= ri_endIndex (getRangeIndex f n v)
          <-> (f < 1)%Q))
  /\ (forall (inst : Instance) (events : list Event),
        state inst = initialState ->
        finiteCapacity (props inst) = true ->
        forallb finiteCapacityEvent events = true ->
        stateWindowHolds (state (run inst events))).
Proof.
  split.
  - intros f n v Hf0 Hf1 Hn Hv.
    pose proof (locatedIndex_range f n ltac:(lia)) as Hloc.
    pose proof (halfCapacity_pos v Hv) as Hhalf.
    unfold getRangeIndex; simpl.
    repeat (split; [lia|]).
    split.
    + intros Hle. apply Qnot_le_lt. intros Hge.
      pose proof (locatedIndex_sentinel f n Hge ltac:(lia)). lia.
    + intros Hlt. pose proof (locatedIndex_below f n Hlt Hn). lia.
  - intros inst events Hinit Hp Hes.
    apply run_props_window; [exact Hes | exact Hp |].
    rewrite Hinit. unfold stateWindowHolds, windowHolds; simpl. lia.
Qed.

(** C5 (as amended).  A scroll event is a no-op whenever the container's
    scroll offset equals the recorded one or the lock is set: [onScroll]
    leaves the instance as it was, and on an attached container it
    returns normally.  When [scrollTo] applies a best candidate while no
    earlier unlock is due at the next frame, the lock is set and stays
    set through every scroll, update and [scrollTo] call before the first
    animation frame, across that frame, and through every such call up to
    the second frame; the second frame releases it. *)
Theorem scroll_lock_two_frames :
  (forall inst : Instance,
      (exists c, listRef inst = Some c
                 /\ Some (el_scrollTop c) = scrollTop (state inst))
      \/ lockScroll inst = true ->
      after (onScroll inst) = inst
      /\ (listRef inst <> None -> onScroll inst = Returned inst))
  /\ (forall (inst : Instance) (c : Container) (target : RelativeScroll)
             (es1 es2 : list Event),
        listRef inst = Some c ->
        noUnlockDue inst = true ->
        best (sr_acc (scrollSearch inst (el_clientHeight c) target)) <> None ->
        forallb notFrame es1 = true ->
        forallb notFrame es2 = true ->
        lockScroll (run (after (scrollTo (ArgRelative target) inst)) es1) = true
        /\ lockScroll (run (after (scrollTo (ArgRelative target) inst))
                          (es1 ++ EvAnimationFrame :: es2)) = true
        /\ lockScroll (run (after (scrollTo (ArgRelative target) inst))
                          (es1 ++ EvAnimationFrame :: es2 ++ [EvAnimationFrame]))
           = false).
Proof.
  split.
  - intros inst H. unfold onScroll.
    destruct (listRef inst) as [c|] eqn:Href; [|split; [reflexivity | congruence]].
    assert (Hguard :
      bool_decide (Some (el_scrollTop c) = scrollTop (state inst))
      || lockScroll inst || disabled (props inst) = true).
    { destruct H as [(c' & Hc' & Hsame)|Hlock].
      - injection Hc' as <-. now rewrite bool_decide_eq_true_2.
      - rewrite Hlock. now rewrite orb_true_r. }
    rewrite Hguard. now split.
  - intros inst c target es1 es2 Href Hdue Hbest Hes1 Hes2.
    assert (Harmed :
      lockScroll (after (scrollTo (ArgRelative target) inst)) = true
      /\ frameQueue (after (scrollTo (ArgRelative target) inst))
         = frameQueue inst ++ [UnlockAfterNextFrame]).
    { unfold Component.scrollTo. rewrite Href.
      destruct (best _); [now split | contradiction]. }
    destruct Harmed as [Hl0 Hq0].
    destruct (run_lockKept es1 (after (scrollTo (ArgRelative target) inst)) Hes1)
      as [Hl1 [k1 Hq1]].
    specialize (Hl1 Hl0).
    rewrite Hq0, <- app_assoc in Hq1.
    change ([UnlockAfterNextFrame] ++ repeat UnlockAfterNextFrame k1)
      with (repeat UnlockAfterNextFrame (S k1)) in Hq1.
    assert (Hnone : existsb isUnlock (frameQueue inst) = false).
    { unfold noUnlockDue in Hdue. now apply negb_true_iff in Hdue. }
    assert (Hl2 :
      lockScroll (animationFrame (run (after (scrollTo (ArgRelative target) inst)) es1))
      = true).
    { rewrite animationFrame_lock, Hq1, existsb_isUnlock_app, Hnone,
        existsb_isUnlock_waiting. exact Hl1. }
    assert (Hq2 :
      frameQueue (animationFrame (run (after (scrollTo (ArgRelative target) inst)) es1))
      = Unlock :: repeat Unlock (length (frameQueue inst) + k1)).
    { rewrite animationFrame_queue, Hq1, waiting_count by exact Hnone.
      replace (length (frameQueue inst) + S k1)%nat
        with (S (length (frameQueue inst) + k1)) by lia.
      reflexivity. }
    destruct (run_lockKept es2
                (animationFrame (run (after (scrollTo (ArgRelative target) inst)) es1))
                Hes2) as [Hl3 [k2 Hq3]].
    specialize (Hl3 Hl2).
    split; [exact Hl1|]. split.
    + rewrite run_app.
      change (run ?i (EvAnimationFrame :: es2)) with (run (animationFrame i) es2).
      exact Hl3.
    + rewrite run_app.
      change (run ?i (EvAnimationFrame :: es2 ++ [EvAnimationFrame]))
        with (run (animationFrame i) (es2 ++ [EvAnimationFrame])).
      rewrite run_app.
      change (run ?i [EvAnimationFrame]) with (animationFrame i).
      rewrite animationFrame_lock, Hq3, Hq2. reflexivity.
Qed.

(** C7 (as amended).  With [disabled] set, a scroll event and an update
    pass both leave the instance exactly as it was: no recomputation, the
    positioning state unchanged, and the cached props left as they were
    (they follow the props only while [disabled] is false).  The update
    pass returns normally, and so does [onScroll] on an attached
    container. *)
Theorem disabled_freezes (inst : Instance) :
  disabled (props inst) = true ->
  after (onScroll inst) = inst
  /\ (listRef inst <> None -> onScroll inst = Returned inst)
  /\ componentDidUpdate inst = Returned inst.
Proof.
  intros Hd. split; [|split].
  - unfold onScroll. destruct (listRef inst); [|reflexivity].
    now rewrite Hd, orb_true_r.
  - unfold onScroll. destruct (listRef inst); [|congruence].
    now rewrite Hd, orb_true_r.
  - unfold Component.componentDidUpdate. now rewrite Hd.
Qed.

(** C9.  A list without a [height] cannot be mounted: [render] takes
    the plain branch and passes no [ref], so after the first commit
    [listRef.current] is still [null]; [componentDidMount] dereferences
    it in its first statement and throws, leaving the positioning state
    at its initial value. *)
Theorem mount_without_height_throws (p : Props) (elements : gmap string Z)
    (scrollHeight clientHeight : Z) :
  height p = None ->
  out_ref (render GHOST_ITEM_KEY (constructed p)) = false
  /\ listRef (committed p elements scrollHeight clientHeight (constructed p)) = None
  /\ mount p elements scrollHeight clientHeight
     = Threw (committed p elements scrollHeight clientHeight (constructed p))
  /\ state (after (mount p elements scrollHeight clientHeight)) = initialState.
Proof.
  intros Hh. unfold mount, componentDidMount, committed, attachedContainer, windowed,
    render.
  cbn [props listRef constructed]. rewrite Hh. now repeat split.
Qed.

End ComponentFacts.
(** ** The Diff-Anchor Reconciler *)

Lemma Key_eqb_eq (a b : JS.Key) : JS.Key_eqb a b = true <-> a = b.
Proof.
  destruct a as [| |s], b as [| |t]; simpl; try (split; congruence).
  rewrite bool_decide_eq_true. split; congruence.
Qed.

Lemma Key_differs (a b : JS.Key) : negb (JS.Key_eqb a b) = true <-> a <> b.
Proof.
  rewrite negb_true_iff, <- not_true_iff_false. now rewrite Key_eqb_eq.
Qed.

Lemma find_seq_first (P : nat -> bool) (len : nat) :
  forall start d,
    List.find P (seq start len) = Some d ->
    P d = true /\ (forall i, (start <= i < d)%nat -> P i = false).
Proof.
  induction len as [|len IH]; intros start d Hfind; simpl in Hfind; [discriminate|].
  destruct (P start) eqn:Hstart.
  - injection Hfind as <-. split; [exact Hstart | intros i Hi; lia].
  - destruct (IH (S start) d Hfind) as [Hd Hbefore].
    split; [exact Hd|]. intros i Hi.
    destruct (Nat.eq_dec i start) as [->|Hne]; [exact Hstart|].
    apply Hbefore. lia.
Qed.

Lemma find_seq_some (P : nat -> bool) (len : nat) :
  forall start i,
    (start <= i < start + len)%nat -> P i = true ->
    exists d, List.find P (seq start len) = Some d.
Proof.
  induction len as [|len IH]; intros start i Hi HP; simpl; [lia|].
  destruct (P start) eqn:Hstart; [now exists start|].
  apply (IH (S start) i); [|exact HP].
  destruct (Nat.eq_dec i start) as [->|Hne]; [congruence | lia].
Qed.

Lemma getItemKey_of_item (it : Item) (key : option string) :
  getItemKey (Some it) key <> JS.KNull.
Proof. unfold getItemKey. now destruct (it !! _). Qed.

(** What [findListDiffIndex] finds is a first divergence. *)
Lemma findListDiffIndex_first (key : string) (old new : list Item) (d : nat) :
  findListDiffIndex old new (fun item => getItemKey item (Some key)) = Some (Z.of_nat d) ->
  firstDivergence key old new d.
Proof.
  unfold findListDiffIndex. intros Hfind.
  destruct (List.find _ _) as [d'|] eqn:Hd; [|discriminate].
  simpl in Hfind. assert (d' = d) as -> by (injection Hfind; lia).
  apply find_seq_first in Hd as [Hd Hbefore]. split.
  - intros i Hi. apply Key_eqb_eq.
    specialize (Hbefore i ltac:(lia)). now apply negb_false_iff in Hbefore.
  - now apply Key_differs.
Qed.

(** Collections of different lengths always diverge somewhere. *)
Lemma findListDiffIndex_changed (key : string) (old new : list Item) :
  length old <> length new ->
  exists d, findListDiffIndex old new (fun item => getItemKey item (Some key))
            = Some (Z.of_nat d).
Proof.
  intros Hlen. unfold findListDiffIndex.
  destruct (find_seq_some
              (fun i => negb (JS.Key_eqb (getItemKey (nth_error old i) (Some key))
                                         (getItemKey (nth_error new i) (Some key))))
              (Nat.max (length old) (length new)) 0
              (Nat.min (length old) (length new))) as [d Hd].
  - lia.
  - apply Key_differs.
    destruct (Nat.lt_ge_cases (length old) (length new)) as [Hlt|Hge].
    + rewrite Nat.min_l by lia.
      rewrite (proj2 (nth_error_None old (length old))) by lia.
      destruct (nth_error new (length old)) as [it|] eqn:Hnew.
      * intros Heq. symmetry in Heq. now apply getItemKey_of_item in Heq.
      * apply nth_error_None in Hnew. lia.
    + rewrite Nat.min_r by lia.
      rewrite (proj2 (nth_error_None new (length new))) by lia.
      destruct (nth_error old (length new)) as [it|] eqn:Hold.
      * apply getItemKey_of_item.
      * apply nth_error_None in Hold. lia.
  - exists d. now rewrite Hd.
Qed.

Section ReconcilerFacts.

Variable GHOST_ITEM_KEY : JS.Key.
Variable getItemRelativeTop :
  Z -> Q -> gmap string Z -> Q -> Z -> (Z -> JS.Key) -> Q.
Variable getItemAbsoluteTop :
  Z -> Q -> gmap string Z -> Z -> Q -> Z -> (Z -> JS.Key) -> Q.
Variable getCompareItemRelativeTop :
  Q -> Z -> Z -> Z -> Z -> (Z -> JS.Key) -> gmap string Z -> Q.
Variable getIndexByStartLoc : Z -> Z -> option Z -> Z -> Z.

Local Abbreviation scrollTo :=
  (scrollTo GHOST_ITEM_KEY getItemRelativeTop getCompareItemRelativeTop
     getIndexByStartLoc).
Local Abbreviation collectItemHeights := (collectItemHeights GHOST_ITEM_KEY).
Local Abbreviation measurePhase :=
  (measurePhase GHOST_ITEM_KEY getItemAbsoluteTop).
Local Abbreviation diffAnchorTarget :=
  (diffAnchorTarget GHOST_ITEM_KEY getItemRelativeTop getCompareItemRelativeTop).
Local Abbreviation componentDidUpdate :=
  (componentDidUpdate GHOST_ITEM_KEY getItemRelativeTop getItemAbsoluteTop
     getCompareItemRelativeTop getIndexByStartLoc).

(** With the container attached the measuring branch returns, and it
    leaves props, cached props and container alone. *)
Lemma measurePhase_attached inst c :
  listRef inst = Some c ->
  measurePhase inst = Returned (after (measurePhase inst))
  /\ props (after (measurePhase inst)) = props inst
  /\ cachedProps (after (measurePhase inst)) = cachedProps inst
  /\ listRef (after (measurePhase inst)) = Some c
  /\ lengthChanged (after (measurePhase inst)) = lengthChanged inst.
Proof.
  intros Href. unfold Component.measurePhase, lengthChanged, prevDataSourceOf.
  rewrite Href. now destruct (status _).
Qed.

(** With the container attached [scrollTo] returns. *)
Lemma scrollTo_attached arg inst c :
  listRef inst = Some c -> scrollTo arg inst = Returned (after (scrollTo arg inst)).
Proof.
  intros Href. unfold Component.scrollTo. rewrite Href.
  destruct arg as [n|target]; [reflexivity|]. now destruct (best _).
Qed.

(** C2 (as amended).  On an update pass of an enabled list whose
    collection length changed (and whose [height] is set), with the
    container attached, the old and the new collection have a first
    divergence index [d] (by key, from the front), and the pass calls
    [scrollTo] with a relative target whose [itemIndex] is
    [max(0, d - 1)]: the item just before the first divergence, or index 0
    when the divergence is at the front.  Its [relativeTop] is that
    compare item's relative top, computed from the located item of the
    positioning state with the old collection's keys and scroll fraction.
    The call returns and the pass ends by caching the props. *)
Theorem diff_anchor_target (inst : Instance) (c : Container) :
  disabled (props inst) = false ->
  lengthChanged inst = true ->
  listRef inst = Some c ->
  let anchored := collectItemHeights (after (measurePhase inst)) in
  let st := state anchored in
  let cachedKeyOf := fun index => getIndexKey GHOST_ITEM_KEY index (cachedProps inst) in
  exists (d : nat) (r : Instance),
    firstDivergence (itemKey (props inst)) (prevDataSourceOf inst)
      (dataSource (props inst)) d
    /\ scrollTo (ArgRelative (diffAnchorTarget anchored c)) anchored = Returned r
    /\ componentDidUpdate inst = Returned (set_cachedProps (Some (props inst)) r)
    /\ rs_itemIndex (diffAnchorTarget anchored c) = Z.max 0 (Z.of_nat d - 1)
    /\ rs_relativeTop (diffAnchorTarget anchored c)
       = getCompareItemRelativeTop
           (getItemRelativeTop (itemIndex st) (itemOffsetPtg st)
              (itemElementHeights anchored)
              (getScrollPercentage (JS.toNumber (scrollTop st))
                 (Z.of_nat (length (prevDataSourceOf inst)) * itemHeight (props inst))
                 (el_clientHeight c))
              (el_clientHeight c) cachedKeyOf)
           (itemIndex st) (Z.max 0 (Z.of_nat d - 1)) (startIndex st) (endIndex st)
           cachedKeyOf (itemElementHeights anchored).
Proof.
  intros Hd Hchanged Href anchored st cachedKeyOf.
  assert (Hlen : length (prevDataSourceOf inst) <> length (dataSource (props inst))).
  { unfold lengthChanged in Hchanged. apply andb_true_iff in Hchanged as [Hne _].
    apply negb_true_iff in Hne. now apply Nat.eqb_neq in Hne. }
  destruct (findListDiffIndex_changed (itemKey (props inst)) _ _ Hlen) as [d Hfind].
  destruct (measurePhase_attached inst c Href)
    as (Hreturned & Hprops & Hcached & Href' & Hchanged').
  assert (Hprops' : props anchored = props inst) by exact Hprops.
  assert (Hcached' : cachedProps anchored = cachedProps inst) by exact Hcached.
  assert (Href'' : listRef anchored = Some c) by exact Href'.
  assert (Hindex : originCompareItemIndexOf anchored = Z.max 0 (Z.of_nat d - 1)).
  { unfold originCompareItemIndexOf, prevDataSourceOf.
    rewrite Hprops', Hcached'. fold (prevDataSourceOf inst). rewrite Hfind. simpl.
    destruct (Z.ltb_spec (Z.of_nat d - 1) 0); lia. }
  exists d, (after (scrollTo (ArgRelative (diffAnchorTarget anchored c)) anchored)).
  split; [now apply findListDiffIndex_first|]. split; [|split; [|split]].
  - now apply scrollTo_attached with c.
  - unfold Component.componentDidUpdate. rewrite Hd, Hreturned. cbn [andThen].
    unfold Component.lengthPhase. rewrite Hchanged', Hchanged.
    fold anchored. rewrite Href''.
    rewrite (scrollTo_attached _ anchored c Href''). reflexivity.
  - exact Hindex.
  - unfold Component.diffAnchorTarget. cbn [rs_relativeTop].
    rewrite Hindex. unfold prevDataSourceOf. rewrite Hprops', Hcached'.
    reflexivity.
Qed.

End ReconcilerFacts.

(** ** The pure helpers *)

(** C6 (as amended).  [getScrollPercentage] always lies in [[0,1]].  It is
    [scrollOffset / max(1, scrollableHeight - viewportHeight)] clamped to
    [[0,1]], except when the difference is zero or negative and the offset
    positive: there the result is 0 where the clamped quotient would
    be positive. *)
Theorem getScrollPercentage_guarded (top sh ch : Z) :
  (0 <= getScrollPercentage top sh ch)%Q
  /\ (getScrollPercentage top sh ch <= 1)%Q
  /\ (getScrollPercentage top sh ch
      == if (sh - ch <=? 0) && (0 <? top) then 0
         else scrollFractionFormula top sh ch)%Q.
Proof.
  destruct (getScrollPercentage_range top sh ch) as [H0 H1].
  split; [exact H0|]. split; [exact H1|].
  unfold getScrollPercentage, scrollFractionFormula.
  destruct (Z.leb_spec (sh - ch) 0) as [Hfit|Hroom]; simpl; [|reflexivity].
  destruct (Z.ltb_spec 0 top) as [Hpos|Hnonpos]; [reflexivity|].
  symmetry. apply clamp01_nonpos.
  rewrite Z.max_l by lia.
  unfold Qdiv, Qle; simpl. lia.
Qed.

(** C8.  With 1000 items, [itemHeight = 15] and [height = 300] the visible
    capacity is 20; at scroll fraction 1/2 the Range Locator returns the
    located index 500 and the window [[490, 510]]; and a scroll event at
    the middle offset 7350 of such a list (whose container is attached,
    the collection overflowing the 300 pixels) is handled normally and
    records just that in the positioning state. *)
Theorem scenario_thousand_items :
  visibleCountOf (Some 300) 15 = 20
  /\ ri_itemIndex (getRangeIndex (1 # 2) 1000 20) = 500
  /\ ri_startIndex (getRangeIndex (1 # 2) 1000 20) = 490
  /\ ri_endIndex (getRangeIndex (1 # 2) 1000 20) = 510
  /\ (exists c,
        listRef (set_listRef_scrollTop 7350 Sample.thousand) = Some c
        /\ (getElementScrollPercentage c == 1 # 2)%Q)
  /\ (exists r,
        onScroll (set_listRef_scrollTop 7350 Sample.thousand) = Returned r
        /\ status (state r) = MEASURE_START
        /\ itemIndex (state r) = 500
        /\ startIndex (state r) = 490
        /\ endIndex (state r) = 510).
Proof.
  do 4 (split; [vm_compute; reflexivity|]). split.
  - exists (scrolledTo 7350 (Sample.box 15000 300)).
    split; vm_compute; reflexivity.
  - exists (after (onScroll (set_listRef_scrollTop 7350 Sample.thousand))).
    split; [|repeat split; vm_compute; reflexivity].
    apply onScroll_attached with (scrolledTo 7350 (Sample.box 15000 300)).
    vm_compute. reflexivity.
Qed.

(** * Worked instances *)

(** The properties above at concrete lists, with the helper modules of
    [SpecHelpers]. *)

(** C1, as first stated, fails at the bottom of the scroll range: at
    fraction 1 the located index is the sentinel, one past the window,
    both in the Range Locator's output and in the positioning state that a
    scroll event records. *)
Lemma located_past_window_at_bottom :
  ~ (ri_startIndex (getRangeIndex 1 1 1) <= ri_itemIndex (getRangeIndex 1 1 1)
       <= ri_endIndex (getRangeIndex 1 1 1))
  /\ status (state (SpecHelpers.run Sample.hundred [EvScroll 1200])) <> NONE
  /\ ~ (startIndex (state (SpecHelpers.run Sample.hundred [EvScroll 1200]))
          <= itemIndex (state (SpecHelpers.run Sample.hundred [EvScroll 1200]))
          <= endIndex (state (SpecHelpers.run Sample.hundred [EvScroll 1200]))).
Proof.
  assert (E1 : ri_itemIndex (getRangeIndex 1 1 1) = 1) by (vm_compute; reflexivity).
  assert (E2 : ri_endIndex (getRangeIndex 1 1 1) = 0) by (vm_compute; reflexivity).
  assert (E3 : status (state (SpecHelpers.run Sample.hundred [EvScroll 1200]))
               = MEASURE_START) by (vm_compute; reflexivity).
  assert (E4 : itemIndex (state (SpecHelpers.run Sample.hundred [EvScroll 1200])) = 100)
    by (vm_compute; reflexivity).
  assert (E5 : endIndex (state (SpecHelpers.run Sample.hundred [EvScroll 1200])) = 99)
    by (vm_compute; reflexivity).
  rewrite E1, E2, E3, E4, E5. repeat split; [lia | discriminate | lia].
Qed.

(** The located range at fraction 1/2 of 1000 items, and the window
    invariant after a scroll event and a frame on [Sample.hundred]. *)
Lemma located_window_invariant_witness :
  ((0 <= 1 # 2)%Q /\ (1 # 2 <= 1)%Q /\ 1 <= 1000 /\ 1 <= 20
   /\ ri_startIndex (getRangeIndex (1 # 2) 1000 20)
      <= ri_endIndex (getRangeIndex (1 # 2) 1000 20))
  /\ (state Sample.hundred = initialState
      /\ finiteCapacity (props Sample.hundred) = true
      /\ forallb finiteCapacityEvent [EvScroll 600; EvAnimationFrame] = true
      /\ stateWindowHolds
           (state (SpecHelpers.run Sample.hundred [EvScroll 600; EvAnimationFrame]))).
Proof.
  destruct (located_window_invariant SpecHelpers.GHOST_ITEM_KEY
              SpecHelpers.getItemRelativeTop SpecHelpers.getItemAbsoluteTop
              SpecHelpers.getCompareItemRelativeTop SpecHelpers.getIndexByStartLoc)
    as [Hrange Hrun].
  assert (H0 : (0 <= 1 # 2)%Q) by (unfold Qle; simpl; lia).
  assert (H1 : (1 # 2 <= 1)%Q) by (unfold Qle; simpl; lia).
  assert (Hn : 1 <= 1000) by lia.
  assert (Hv : 1 <= 20) by lia.
  split.
  - split; [exact H0|]. split; [exact H1|]. split; [exact Hn|]. split; [exact Hv|].
    exact (proj1 (proj2 (Hrange (1 # 2) 1000 20 H0 H1 Hn Hv))).
  - assert (Hi : state Sample.hundred = initialState) by reflexivity.
    assert (Hp : finiteCapacity (props Sample.hundred) = true) by reflexivity.
    assert (He : forallb finiteCapacityEvent [EvScroll 600; EvAnimationFrame] = true)
      by reflexivity.
    split; [exact Hi|]. split; [exact Hp|]. split; [exact He|].
    exact (Hrun Sample.hundred [EvScroll 600; EvAnimationFrame] Hi Hp He).
Defined.

(** C2, as first stated, fails when an item is inserted at index 2: the
    first divergence is at index 2, yet the target handed to [scrollTo]
    names index 1. *)
Lemma diff_anchor_is_item_before :
  firstDivergence "id" Sample.oldItems Sample.newItems 2
  /\ listRef Sample.inserted = Some (Sample.box 60 30)
  /\ rs_itemIndex
       (diffAnchorTarget SpecHelpers.GHOST_ITEM_KEY SpecHelpers.getItemRelativeTop
          SpecHelpers.getCompareItemRelativeTop
          (collectItemHeights SpecHelpers.GHOST_ITEM_KEY
             (after (measurePhase SpecHelpers.GHOST_ITEM_KEY
                       SpecHelpers.getItemAbsoluteTop Sample.inserted)))
          (Sample.box 60 30))
     <> 2.
Proof.
  split; [|split].
  - apply findListDiffIndex_first. vm_compute. reflexivity.
  - reflexivity.
  - assert (E : rs_itemIndex
                  (diffAnchorTarget SpecHelpers.GHOST_ITEM_KEY
                     SpecHelpers.getItemRelativeTop
                     SpecHelpers.getCompareItemRelativeTop
                     (collectItemHeights SpecHelpers.GHOST_ITEM_KEY
                        (after (measurePhase SpecHelpers.GHOST_ITEM_KEY
                                  SpecHelpers.getItemAbsoluteTop Sample.inserted)))
                     (Sample.box 60 30)) = 1)
      by (vm_compute; reflexivity).
    rewrite E. lia.
Qed.

(** The reconciler's target for [Sample.inserted]. *)
Lemma diff_anchor_target_witness :
  disabled (props Sample.inserted) = false
  /\ lengthChanged Sample.inserted = true
  /\ listRef Sample.inserted = Some (Sample.box 60 30)
  /\ exists d : nat,
       firstDivergence "id" Sample.oldItems Sample.newItems d
       /\ rs_itemIndex
            (diffAnchorTarget SpecHelpers.GHOST_ITEM_KEY SpecHelpers.getItemRelativeTop
               SpecHelpers.getCompareItemRelativeTop
               (collectItemHeights SpecHelpers.GHOST_ITEM_KEY
                  (after (measurePhase SpecHelpers.GHOST_ITEM_KEY
                            SpecHelpers.getItemAbsoluteTop Sample.inserted)))
               (Sample.box 60 30))
          = Z.max 0 (Z.of_nat d - 1).
Proof.
  assert (Hd : disabled (props Sample.inserted) = false) by reflexivity.
  assert (Hc : lengthChanged Sample.inserted = true) by reflexivity.
  assert (Href : listRef Sample.inserted = Some (Sample.box 60 30)) by reflexivity.
  split; [exact Hd|]. split; [exact Hc|]. split; [exact Href|].
  destruct (diff_anchor_target SpecHelpers.GHOST_ITEM_KEY
              SpecHelpers.getItemRelativeTop SpecHelpers.getItemAbsoluteTop
              SpecHelpers.getCompareItemRelativeTop SpecHelpers.getIndexByStartLoc
              Sample.inserted (Sample.box 60 30) Hd Hc Href)
    as (d & r & Hfirst & _ & _ & Hindex & _).
  exists d. split; [exact Hfirst | exact Hindex].
Defined.

(** C3, as first stated, fails on the miss bound: with item 0 wanted at
    the top of a list that already shows it there, candidate 0 matches
    exactly, the ten candidates after it all fail to improve, and the loop
    is still running; it stops only at the eleventh miss, having examined
    twelve candidates. *)
Lemma search_needs_eleven_misses :
  listRef Sample.hundred = Some (Sample.box 1500 300)
  /\ sr_visited (SpecHelpers.scrollSearch Sample.hundred 300 Sample.firstAtTop)
     = [0; 1; 2; 3; 4; 5; 6; 7; 8; 9; 10; 11]
  /\ sr_exit (SpecHelpers.scrollSearch Sample.hundred 300 Sample.firstAtTop) = MissLimit
  /\ missSimilarity (sr_acc (SpecHelpers.scrollSearch Sample.hundred 300 Sample.firstAtTop))
     <> 10
  /\ verdicts SpecHelpers.GHOST_ITEM_KEY SpecHelpers.getItemRelativeTop
       SpecHelpers.getCompareItemRelativeTop Sample.hundred 300 Sample.firstAtTop []
       [0; 1; 2; 3; 4; 5; 6; 7; 8; 9; 10]
     = [Improves; Fails; Fails; Fails; Fails; Fails; Fails; Fails; Fails; Fails; Fails]
  /\ missesAfter (verdicts SpecHelpers.GHOST_ITEM_KEY SpecHelpers.getItemRelativeTop
       SpecHelpers.getCompareItemRelativeTop Sample.hundred 300 Sample.firstAtTop []
                    [0; 1; 2; 3; 4; 5; 6; 7; 8; 9; 10]) = 10
  /\ sr_exit (searchLoop SpecHelpers.GHOST_ITEM_KEY SpecHelpers.getItemRelativeTop
                SpecHelpers.getCompareItemRelativeTop SpecHelpers.getIndexByStartLoc
                Sample.hundred 300 Sample.firstAtTop 11 0 initialAcc) = IndexExhausted.
Proof. repeat split; vm_compute; congruence. Qed.

(** A target past the end of [Sample.hundred] is never matched. *)
Lemma scrollSearch_bounded_witness :
  Z.of_nat (length (dataSource (props Sample.hundred))) <= rs_itemIndex Sample.pastEnd
  /\ best (sr_acc (SpecHelpers.scrollSearch Sample.hundred 300 Sample.pastEnd)) = None
  /\ sr_exit (SpecHelpers.scrollSearch Sample.hundred 300 Sample.pastEnd) = IndexExhausted.
Proof.
  assert (Hout : Z.of_nat (length (dataSource (props Sample.hundred)))
                 <= rs_itemIndex Sample.pastEnd)
    by (vm_compute; discriminate).
  split; [exact Hout|].
  unfold SpecHelpers.scrollSearch.
  destruct (scrollSearch_bounded SpecHelpers.GHOST_ITEM_KEY
              SpecHelpers.getItemRelativeTop SpecHelpers.getCompareItemRelativeTop
              SpecHelpers.getIndexByStartLoc Sample.hundred 300 Sample.pastEnd)
    as (_ & _ & _ & _ & Hnone).
  apply Hnone. right. exact Hout.
Defined.

(** No candidate of [Sample.small] shows index 100, so [scrollTo] leaves
    the instance alone. *)
Lemma scrollTo_unreachable_noop_witness :
  listRef Sample.small = Some (Sample.box 315 300)
  /\ Forall (fun candidate =>
               windowContains (candidateRange Sample.small 300 candidate)
                              (rs_itemIndex Sample.pastEnd) = false)
            (sr_visited (SpecHelpers.scrollSearch Sample.small 300 Sample.pastEnd))
  /\ SpecHelpers.scrollTo (ArgRelative Sample.pastEnd) Sample.small
     = Returned Sample.small.
Proof.
  unfold SpecHelpers.scrollSearch, SpecHelpers.scrollTo.
  assert (Href : listRef Sample.small = Some (Sample.box 315 300)) by reflexivity.
  assert (Hall :
    Forall (fun candidate =>
              windowContains (candidateRange Sample.small 300 candidate)
                             (rs_itemIndex Sample.pastEnd) = false)
           (sr_visited (scrollSearch SpecHelpers.GHOST_ITEM_KEY
                          SpecHelpers.getItemRelativeTop
                          SpecHelpers.getCompareItemRelativeTop
                          SpecHelpers.getIndexByStartLoc Sample.small 300
                          Sample.pastEnd))).
  { refine (bool_decide_unpack _ _). vm_compute. exact I. }
  split; [exact Href|]. split; [exact Hall|].
  exact (scrollTo_unreachable_noop SpecHelpers.GHOST_ITEM_KEY
           SpecHelpers.getItemRelativeTop SpecHelpers.getCompareItemRelativeTop
           SpecHelpers.getIndexByStartLoc Sample.small (Sample.box 315 300)
           Sample.pastEnd Href Hall).
Defined.

(** C5, as first stated, fails when two searches overlap: the second
    [scrollTo] arms the lock one frame after the first, the first call's
    pending unlock fires at the next frame, and the lock is gone after a
    single frame boundary; the scroll event that follows is processed. *)
Lemma lock_released_after_one_frame :
  best (sr_acc (SpecHelpers.scrollSearch
                  (SpecHelpers.run Sample.hundred
                     [EvScrollTo (ArgRelative Sample.firstAtTop); EvAnimationFrame])
                  300 Sample.firstAtTop)) <> None
  /\ lockScroll Sample.armedTwice = true
  /\ lockScroll (SpecHelpers.step Sample.armedTwice EvAnimationFrame) = false
  /\ state (SpecHelpers.step (SpecHelpers.step Sample.armedTwice EvAnimationFrame)
              (EvScroll 600))
     <> state (SpecHelpers.step Sample.armedTwice EvAnimationFrame).
Proof.
  split; [vm_compute; discriminate|].
  split; [vm_compute; reflexivity|].
  split; [vm_compute; reflexivity|].
  intros Heq. apply (f_equal itemIndex) in Heq. vm_compute in Heq. discriminate.
Qed.

(** The lock on [Sample.hundred] across two frames with scroll events in
    between. *)
Lemma scroll_lock_two_frames_witness :
  (lockScroll (after (SpecHelpers.scrollTo (ArgRelative Sample.firstAtTop) Sample.hundred))
   = true
   /\ after (onScroll (after (SpecHelpers.scrollTo (ArgRelative Sample.firstAtTop)
                                Sample.hundred)))
      = after (SpecHelpers.scrollTo (ArgRelative Sample.firstAtTop) Sample.hundred))
  /\ (listRef Sample.hundred = Some (Sample.box 1500 300)
      /\ noUnlockDue Sample.hundred = true
      /\ best (sr_acc (SpecHelpers.scrollSearch Sample.hundred 300 Sample.firstAtTop))
         <> None
      /\ forallb notFrame [EvScroll 30] = true
      /\ forallb notFrame [EvScroll 45] = true
      /\ lockScroll
           (SpecHelpers.run
              (after (SpecHelpers.scrollTo (ArgRelative Sample.firstAtTop) Sample.hundred))
              ([EvScroll 30] ++ EvAnimationFrame :: [EvScroll 45])) = true
      /\ lockScroll
           (SpecHelpers.run
              (after (SpecHelpers.scrollTo (ArgRelative Sample.firstAtTop) Sample.hundred))
              ([EvScroll 30] ++ EvAnimationFrame :: [EvScroll 45] ++ [EvAnimationFrame]))
         = false).
Proof.
  unfold SpecHelpers.scrollSearch, SpecHelpers.scrollTo, SpecHelpers.run.
  destruct (scroll_lock_two_frames SpecHelpers.GHOST_ITEM_KEY
              SpecHelpers.getItemRelativeTop SpecHelpers.getItemAbsoluteTop
              SpecHelpers.getCompareItemRelativeTop SpecHelpers.getIndexByStartLoc)
    as [Hnoop Hlock].
  split.
  - assert (Hl : lockScroll
                   (after (scrollTo SpecHelpers.GHOST_ITEM_KEY
                             SpecHelpers.getItemRelativeTop
                             SpecHelpers.getCompareItemRelativeTop
                             SpecHelpers.getIndexByStartLoc
                             (ArgRelative Sample.firstAtTop) Sample.hundred)) = true)
      by (vm_compute; reflexivity).
    split; [exact Hl|]. apply Hnoop. right. exact Hl.
  - assert (Href : listRef Sample.hundred = Some (Sample.box 1500 300)) by reflexivity.
    assert (Hdue : noUnlockDue Sample.hundred = true) by reflexivity.
    assert (Hbest : best (sr_acc (scrollSearch SpecHelpers.GHOST_ITEM_KEY
                                    SpecHelpers.getItemRelativeTop
                                    SpecHelpers.getCompareItemRelativeTop
                                    SpecHelpers.getIndexByStartLoc
                                    Sample.hundred 300 Sample.firstAtTop)) <> None)
      by (vm_compute; discriminate).
    assert (H1 : forallb notFrame [EvScroll 30] = true) by reflexivity.
    assert (H2 : forallb notFrame [EvScroll 45] = true) by reflexivity.
    split; [exact Href|]. split; [exact Hdue|]. split; [exact Hbest|].
    split; [exact H1|]. split; [exact H2|].
    exact (proj2 (Hlock Sample.hundred (Sample.box 1500 300) Sample.firstAtTop
                    [EvScroll 30] [EvScroll 45] Href Hdue Hbest H1 H2)).
Defined.

(** C6, as first stated, fails when the content fits the viewport and the
    offset is positive: the guard returns 0, the clamped quotient is 1. *)
Lemma scroll_fraction_guard_beats_formula :
  10 - 10 <= 0
  /\ (getScrollPercentage 5 10 10 == 0)%Q
  /\ (scrollFractionFormula 5 10 10 == 1)%Q
  /\ ~ (getScrollPercentage 5 10 10 == scrollFractionFormula 5 10 10)%Q.
Proof.
  split; [lia|]. split; [vm_compute; reflexivity|]. split; [vm_compute; reflexivity|].
  intros Heq. vm_compute in Heq. discriminate.
Qed.

(** C7, as first stated, fails on the cached props: an update pass of a
    disabled list returns normally and leaves them at the older props. *)
Lemma disabled_keeps_stale_cachedProps :
  disabled (props Sample.frozen) = true
  /\ SpecHelpers.componentDidUpdate Sample.frozen = Returned Sample.frozen
  /\ cachedProps (after (SpecHelpers.componentDidUpdate Sample.frozen))
     <> Some (props Sample.frozen).
Proof.
  split; [reflexivity|]. split; [reflexivity|].
  intros Heq.
  apply (f_equal (option_map (fun c => length (dataSource c)))) in Heq.
  vm_compute in Heq. discriminate.
Qed.

(** Both handlers leave [Sample.frozen] as it is. *)
Lemma disabled_freezes_witness :
  disabled (props Sample.frozen) = true
  /\ after (onScroll Sample.frozen) = Sample.frozen
  /\ SpecHelpers.componentDidUpdate Sample.frozen = Returned Sample.frozen.
Proof.
  assert (Hd : disabled (props Sample.frozen) = true) by reflexivity.
  split; [exact Hd|].
  unfold SpecHelpers.componentDidUpdate.
  destruct (disabled_freezes SpecHelpers.GHOST_ITEM_KEY SpecHelpers.getItemRelativeTop
              SpecHelpers.getItemAbsoluteTop SpecHelpers.getCompareItemRelativeTop
              SpecHelpers.getIndexByStartLoc Sample.frozen Hd) as (Hscroll & _ & Hupdate).
  split; [exact Hscroll | exact Hupdate].
Defined.

(** Mounting [Sample.newItems] without a [height] throws. *)
Lemma mount_without_height_throws_witness :
  height (Sample.propsOf Sample.newItems None false) = None
  /\ mount (Sample.propsOf Sample.newItems None false) ∅ 60 0
     = Threw Sample.unconstrained.
Proof.
  assert (Hh : height (Sample.propsOf Sample.newItems None false) = None)
    by reflexivity.
  split; [exact Hh|].
  exact (proj1 (proj2 (proj2
           (mount_without_height_throws SpecHelpers.GHOST_ITEM_KEY
              (Sample.propsOf Sample.newItems None false) ∅ 60 0 Hh)))).
Defined.

(** C10, as first stated, fails for a number outside the container's
    scroll range: [Sample.hundred] can scroll by 1200 pixels, so after
    [scrollTo(5000)] its container is at 1200, and after [scrollTo(-5)]
    at 0. *)
Lemma scrollTo_number_is_clamped :
  listRef Sample.hundred = Some (Sample.box 1500 300)
  /\ option_map el_scrollTop
       (listRef (after (SpecHelpers.scrollTo (ArgNumber 5000) Sample.hundred)))
     = Some 1200
  /\ option_map el_scrollTop
       (listRef (after (SpecHelpers.scrollTo (ArgNumber 5000) Sample.hundred)))
     <> Some 5000
  /\ option_map el_scrollTop
       (listRef (after (SpecHelpers.scrollTo (ArgNumber (-5)) Sample.hundred)))
     = Some 0.
Proof. repeat split; vm_compute; congruence. Qed.

(** [scrollTo(600)] on [Sample.hundred] puts the container at 600. *)
Lemma scrollTo_number_frame_witness :
  listRef Sample.hundred = Some (Sample.box 1500 300)
  /\ 0 <= 600 <= scrollRange (Sample.box 1500 300)
  /\ exists r c',
       SpecHelpers.scrollTo (ArgNumber 600) Sample.hundred = Returned r
       /\ listRef r = Some c'
       /\ el_scrollTop c' = 600
       /\ state r = state Sample.hundred.
Proof.
  assert (Href : listRef Sample.hundred = Some (Sample.box 1500 300)) by reflexivity.
  assert (Hin : 0 <= 600 <= scrollRange (Sample.box 1500 300))
    by (vm_compute; split; discriminate).
  split; [exact Href|]. split; [exact Hin|].
  unfold SpecHelpers.scrollTo.
  destruct (scrollTo_number_frame SpecHelpers.GHOST_ITEM_KEY
              SpecHelpers.getItemRelativeTop SpecHelpers.getCompareItemRelativeTop
              SpecHelpers.getIndexByStartLoc 600 Sample.hundred (Sample.box 1500 300)
              Href)
    as (r & c' & Hr & Hc' & _ & Hexact & _ & _ & Hstate & _).
  exists r, c'. split; [exact Hr|]. split; [exact Hc'|].
  split; [exact (Hexact Hin) | exact Hstate].
Defined.
(** * Further properties of the component *)

(** ** Keys and the height ledger *)

Lemma nth_error_lookup {A : Type} (l : list A) (i : nat) : nth_error l i = l !! i.
Proof. revert i. induction l as [|x l IH]; intros [|i]; simpl; auto. Qed.

Lemma in_indicesUp (from to index : Z) :
  In index (indicesUp from to) <-> from <= index <= to.
Proof.
  unfold indicesUp. rewrite in_map_iff. split.
  - intros (k & <- & Hk). apply in_seq in Hk. lia.
  - intros H. exists (Z.to_nat (index - from)). split; [lia|].
    apply in_seq. lia.
Qed.

Lemma indicesUp_empty (from to : Z) : to < from -> indicesUp from to = [].
Proof.
  intros H. unfold indicesUp.
  replace (Z.to_nat (to - from + 1)) with 0%nat by lia. reflexivity.
Qed.

(** Writing [val (slot i)] at [slot i] for each index of a list, in order. *)
Lemma fold_insert_lookup (slot : Z -> string) (val : string -> Z) (l : list Z) :
  forall (m : gmap string Z) (k : string),
    fold_left (fun heights index => <[ slot index := val (slot index) ]> heights) l m !! k
    = if in_dec String.string_dec k (map slot l) then Some (val k) else m !! k.
Proof.
  induction l as [|a l IH]; intros m k; simpl.
  - reflexivity.
  - rewrite IH.
    destruct (in_dec String.string_dec k (map slot l)) as [Hin|Hnot].
    + destruct (String.string_dec (slot a) k); reflexivity.
    + destruct (String.string_dec (slot a) k) as [<-|Hne].
      * now rewrite lookup_insert_eq.
      * now rewrite lookup_insert_ne.
Qed.

Section LedgerFacts.

Variable GHOST_ITEM_KEY : JS.Key.

Local Abbreviation getIndexKey := (getIndexKey GHOST_ITEM_KEY).
Local Abbreviation collectItemHeights := (collectItemHeights GHOST_ITEM_KEY).
Local Abbreviation ledgerSlot := (ledgerSlot GHOST_ITEM_KEY).

(** X1.  [getIndexKey] on the current props: the ghost key exactly at
    [index = dataSource.length]; the item's own key field (or [undefined]
    when the item lacks it) for an index inside the collection; [null] for
    a negative index or one beyond the length.  On the initial empty
    cached props, index 0 is the ghost and every other index is [null]. *)
Theorem getIndexKey_cases (p : Props) (index : Z) :
  (index = Z.of_nat (length (dataSource p)) ->
   getIndexKey index (Some p) = GHOST_ITEM_KEY)
  /\ (forall it : Item,
        0 <= index ->
        dataSource p !! Z.to_nat index = Some it ->
        getIndexKey index (Some p)
        = match it !! itemKey p with
          | Some s => JS.KString s
          | None => JS.KUndefined
          end)
  /\ (index < 0 \/ Z.of_nat (length (dataSource p)) < index ->
      getIndexKey index (Some p) = JS.KNull)
  /\ getIndexKey 0 None = GHOST_ITEM_KEY
  /\ (index <> 0 -> getIndexKey index None = JS.KNull).
Proof.
  unfold Component.getIndexKey. repeat split.
  - intros ->. now rewrite Z.eqb_refl.
  - intros it Hpos Hit.
    assert (Hlt : (Z.to_nat index < length (dataSource p))%nat)
      by (apply lookup_lt_is_Some; eauto).
    destruct (Z.eqb_spec index (Z.of_nat (length (dataSource p)))) as [Heq|_]; [lia|].
    unfold JS.index. destruct (Z.ltb_spec index 0) as [Hneg|_]; [lia|].
    rewrite nth_error_lookup, Hit. reflexivity.
  - intros Hout.
    destruct (Z.eqb_spec index (Z.of_nat (length (dataSource p)))) as [Heq|_]; [lia|].
    unfold JS.index. destruct (Z.ltb_spec index 0) as [Hneg|Hpos]; [reflexivity|].
    destruct Hout as [Hneg|Hbig]; [lia|].
    rewrite (proj2 (nth_error_None _ _)) by lia. reflexivity.
  - intros Hne. cbn [length]. change (Z.of_nat 0) with 0.
    destruct (Z.eqb_spec index 0) as [Heq|_]; [contradiction|].
    unfold JS.index. destruct (index <? 0); [reflexivity|].
    now destruct (Z.to_nat index).
Qed.

Lemma collectItemHeights_ledger (inst : Instance) (k : string) :
  itemElementHeights (collectItemHeights inst) !! k
  = if in_dec String.string_dec k
         (map (ledgerSlot inst)
            (indicesUp (startIndex (state inst)) (endIndex (state inst))))
    then Some (getNodeHeight (itemElements inst !! k))
    else itemElementHeights inst !! k.
Proof.
  unfold Component.collectItemHeights. cbn [itemElementHeights set_itemElementHeights].
  apply (fold_insert_lookup (ledgerSlot inst)
           (fun slot => getNodeHeight (itemElements inst !! slot))).
Qed.

(** X2.  [collectItemHeights] records, for every index of the render
    window, the measured height of the element mounted under that item's
    key (0 when none is mounted); ledger entries under other keys stay as
    they were; nothing but the ledger changes; and with an empty window
    ([endIndex < startIndex]) the instance is returned as it was. *)
Theorem collectItemHeights_records (inst : Instance) :
  (forall index,
      startIndex (state inst) <= index <= endIndex (state inst) ->
      itemElementHeights (collectItemHeights inst) !! ledgerSlot inst index
      = Some (getNodeHeight (itemElements inst !! ledgerSlot inst index)))
  /\ (forall k,
        (forall index,
            startIndex (state inst) <= index <= endIndex (state inst) ->
            ledgerSlot inst index <> k) ->
        itemElementHeights (collectItemHeights inst) !! k = itemElementHeights inst !! k)
  /\ set_itemElementHeights (itemElementHeights inst) (collectItemHeights inst) = inst
  /\ (endIndex (state inst) < startIndex (state inst) -> collectItemHeights inst = inst).
Proof.
  split; [|split; [|split]].
  - intros index Hin. rewrite collectItemHeights_ledger.
    destruct (in_dec _ _ _) as [_|Hno]; [reflexivity|].
    exfalso. apply Hno. apply in_map. now apply in_indicesUp.
  - intros k Hother. rewrite collectItemHeights_ledger.
    destruct (in_dec _ _ _) as [Hin|_]; [|reflexivity].
    apply in_map_iff in Hin as (index & Hslot & Hin).
    apply in_indicesUp in Hin. now apply Hother in Hin.
  - now destruct inst.
  - intros Hempty. unfold Component.collectItemHeights.
    rewrite indicesUp_empty by exact Hempty. now destruct inst.
Qed.

(** X3.  Collecting the heights twice in a row, with no render in between,
    gives the same instance as collecting them once. *)
Theorem collectItemHeights_idempotent (inst : Instance) :
  collectItemHeights (collectItemHeights inst) = collectItemHeights inst.
Proof.
  assert (Hledger :
    itemElementHeights (collectItemHeights (collectItemHeights inst))
    = itemElementHeights (collectItemHeights inst)).
  { apply map_eq. intros k.
    rewrite (collectItemHeights_ledger (collectItemHeights inst)).
    change (state (collectItemHeights inst)) with (state inst).
    change (itemElements (collectItemHeights inst)) with (itemElements inst).
    change (ledgerSlot (collectItemHeights inst)) with (ledgerSlot inst).
    rewrite (collectItemHeights_ledger inst).
    now destruct (in_dec _ _ _). }
  unfold Component.collectItemHeights at 1. unfold set_itemElementHeights at 1.
  unfold Component.collectItemHeights at 1 in Hledger.
  cbn [itemElementHeights set_itemElementHeights] in Hledger.
  cbn [props state listRef itemElements cachedProps lockScroll frameQueue
       itemElementHeights].
  rewrite Hledger. reflexivity.
Qed.

Lemma collectItemHeights_kept (inst : Instance) :
  ledgerKept (itemElementHeights inst) (itemElementHeights (collectItemHeights inst)).
Proof.
  intros k Hk. rewrite collectItemHeights_ledger.
  destruct (in_dec _ _ _); [eauto | exact Hk].
Qed.

End LedgerFacts.

(** ** Scroll events, update passes and frames *)

(** Frame callbacks touch nothing but the lock and the queue. *)
Lemma frameCallbacks_only_lock_queue (queue : list FrameCallback) :
  forall inst,
    exists b q,
      fold_left runFrameCallback queue inst = set_frameQueue q (set_lockScroll b inst).
Proof.
  induction queue as [|cb queue IH]; intros inst; simpl.
  - exists (lockScroll inst), (frameQueue inst). now destruct inst.
  - destruct (IH (runFrameCallback inst cb)) as (b & q & ->).
    exists b, q. now destruct cb.
Qed.

Lemma animationFrame_ledger inst :
  itemElementHeights (animationFrame inst) = itemElementHeights inst.
Proof.
  unfold animationFrame.
  destruct (frameCallbacks_only_lock_queue (frameQueue inst) (set_frameQueue [] inst))
    as (b & q & ->).
  reflexivity.
Qed.


(** The relations the run-level properties are built from. *)
Lemma ledgerKept_refl (m : gmap string Z) : ledgerKept m m.
Proof. intros k Hk. exact Hk. Qed.

Lemma ledgerKept_trans (a b c : gmap string Z) :
  ledgerKept a b -> ledgerKept b c -> ledgerKept a c.
Proof. intros Hab Hbc k Hk. apply Hbc, Hab, Hk. Qed.

Section UpdateFacts.

Variable GHOST_ITEM_KEY : JS.Key.
Variable getItemRelativeTop :
  Z -> Q -> gmap string Z -> Q -> Z -> (Z -> JS.Key) -> Q.
Variable getItemAbsoluteTop :
  Z -> Q -> gmap string Z -> Z -> Q -> Z -> (Z -> JS.Key) -> Q.
Variable getCompareItemRelativeTop :
  Q -> Z -> Z -> Z -> Z -> (Z -> JS.Key) -> gmap string Z -> Q.
Variable getIndexByStartLoc : Z -> Z -> option Z -> Z -> Z.

Local Abbreviation getIndexKey := (getIndexKey GHOST_ITEM_KEY).
Local Abbreviation scrollSearch :=
  (scrollSearch GHOST_ITEM_KEY getItemRelativeTop getCompareItemRelativeTop
     getIndexByStartLoc).
Local Abbreviation scrollTo :=
  (scrollTo GHOST_ITEM_KEY getItemRelativeTop getCompareItemRelativeTop
     getIndexByStartLoc).
Local Abbreviation collectItemHeights := (collectItemHeights GHOST_ITEM_KEY).
Local Abbreviation measureDone :=
  (measureDone GHOST_ITEM_KEY getItemAbsoluteTop).
Local Abbreviation measurePhase :=
  (measurePhase GHOST_ITEM_KEY getItemAbsoluteTop).
Local Abbreviation lengthPhase :=
  (lengthPhase GHOST_ITEM_KEY getItemRelativeTop getCompareItemRelativeTop
     getIndexByStartLoc).
Local Abbreviation componentDidUpdate :=
  (componentDidUpdate GHOST_ITEM_KEY getItemRelativeTop getItemAbsoluteTop
     getCompareItemRelativeTop getIndexByStartLoc).
Local Abbreviation step :=
  (step GHOST_ITEM_KEY getItemRelativeTop getItemAbsoluteTop
     getCompareItemRelativeTop getIndexByStartLoc).
Local Abbreviation run :=
  (run GHOST_ITEM_KEY getItemRelativeTop getItemAbsoluteTop
     getCompareItemRelativeTop getIndexByStartLoc).

(** *** The ledger along a run *)

Lemma scrollTo_ledger arg inst :
  itemElementHeights (after (scrollTo arg inst)) = itemElementHeights inst.
Proof.
  destruct (scrollTo_after GHOST_ITEM_KEY getItemRelativeTop getCompareItemRelativeTop
              getIndexByStartLoc arg inst)
    as [->|[(n & c & _ & ->)|(target & c & b & _ & _ & _ & ->)]]; reflexivity.
Qed.

Lemma onScroll_ledger inst :
  itemElementHeights (after (onScroll inst)) = itemElementHeights inst.
Proof.
  unfold onScroll. destruct (listRef inst); [|reflexivity]. now destruct (_ || _).
Qed.

Lemma step_ledger_kept inst e :
  ledgerKept (itemElementHeights inst) (itemElementHeights (step inst e)).
Proof.
  destruct (notFrame e) eqn:He.
  - apply (step_related GHOST_ITEM_KEY getItemRelativeTop getItemAbsoluteTop
             getCompareItemRelativeTop getIndexByStartLoc
             (fun a b => ledgerKept (itemElementHeights a) (itemElementHeights b)));
      try exact He; try (intros; apply ledgerKept_refl).
    + intros a b c. apply ledgerKept_trans.
    + intros i. apply (collectItemHeights_kept GHOST_ITEM_KEY i).
    + intros i c. apply (collectItemHeights_kept GHOST_ITEM_KEY i).
    + intros arg i. rewrite scrollTo_ledger. apply ledgerKept_refl.
    + intros i. rewrite onScroll_ledger. apply ledgerKept_refl.
  - destruct e; try discriminate.
    unfold Component.step. rewrite animationFrame_ledger. apply ledgerKept_refl.
Qed.

(** X4.  The height ledger never loses an entry: whatever scroll events,
    update passes, [scrollTo] calls and animation frames follow, every key
    that has a recorded height keeps one. *)
Theorem ledger_never_shrinks (events : list Event) :
  forall inst,
    ledgerKept (itemElementHeights inst) (itemElementHeights (run inst events)).
Proof.
  induction events as [|e events IH]; intros inst; [apply ledgerKept_refl|].
  change (run inst (e :: events)) with (run (step inst e) events).
  eapply ledgerKept_trans; [apply step_ledger_kept | apply IH].
Qed.

(** X5.  Only update passes write the ledger: a run made of scroll events,
    [scrollTo] calls and animation frames leaves it exactly as it was. *)
Theorem ledger_written_by_updates_only (events : list Event) :
  forall inst,
    forallb (fun e => negb (isUpdate e)) events = true ->
    itemElementHeights (run inst events) = itemElementHeights inst.
Proof.
  induction events as [|e events IH]; intros inst Hes; [reflexivity|].
  simpl in Hes. apply andb_true_iff in Hes as [He Hes].
  change (run inst (e :: events)) with (run (step inst e) events).
  rewrite (IH _ Hes).
  destruct e as [top|p elements sh ch|arg|]; unfold Component.step.
  - unfold scrolled. destruct (listRef inst); [|reflexivity].
    now rewrite onScroll_ledger.
  - discriminate.
  - apply scrollTo_ledger.
  - apply animationFrame_ledger.
Qed.

(** *** Scroll events *)

(** X6.  [onScroll] is idempotent: handling the same scroll notification
    a second time changes nothing, because the first pass records the
    container's offset. *)
Theorem onScroll_idempotent (inst : Instance) :
  onScroll (after (onScroll inst)) = onScroll inst.
Proof.
  unfold onScroll at 2 3.
  destruct (listRef inst) as [c|] eqn:Href.
  - destruct (_ || _) eqn:Hguard; cbn [after].
    + unfold onScroll. now rewrite Href, Hguard.
    + unfold onScroll. cbn [listRef set_state state scrollTop].
      rewrite Href, bool_decide_eq_true_2 by reflexivity. reflexivity.
  - cbn [after]. unfold onScroll. now rewrite Href.
Qed.

(** X7.  [scrollTo(n)] followed by the scroll notification it causes, on
    a list whose container is attached: the container reports [n] clamped
    to its scroll range; on an enabled, unlocked list whose recorded
    offset is not already that value, both calls return and the
    positioning state moves to [MEASURE_START] with the reported offset
    recorded ([n] itself when [n] lies in the scroll range); the pixel
    offset of the window ([startItemTop]) and everything outside the
    state keep the values [scrollTo(n)] left. *)
Theorem scrollTo_number_then_scroll (n : Z) (inst : Instance) (c : Container) :
  listRef inst = Some c ->
  scrollTop (state inst) <> Some (Z.max 0 (Z.min n (scrollRange c))) ->
  lockScroll inst = false ->
  disabled (props inst) = false ->
  exists r r' : Instance,
    scrollTo (ArgNumber n) inst = Returned r
    /\ onScroll r = Returned r'
    /\ option_map el_scrollTop (listRef r)
       = Some (Z.max 0 (Z.min n (scrollRange c)))
    /\ status (state r') = MEASURE_START
    /\ scrollTop (state r') = Some (Z.max 0 (Z.min n (scrollRange c)))
    /\ (0 <= n <= scrollRange c -> scrollTop (state r') = Some n)
    /\ startItemTop (state r') = startItemTop (state inst)
    /\ set_state (state inst) r' = r.
Proof.
  intros Href Hnew Hlock Hen.
  unfold Component.scrollTo. rewrite Href.
  eexists. exists (after (onScroll (set_listRef (Some (assignScrollTop n c)) inst))).
  split; [reflexivity|]. split; [now apply onScroll_attached with (assignScrollTop n c)|].
  split; [reflexivity|].
  unfold onScroll.
  cbn [props state listRef lockScroll set_listRef assignScrollTop scrolledTo
       el_scrollTop].
  rewrite Hlock, Hen, bool_decide_eq_false_2 by congruence.
  cbn [orb after state set_state status scrollTop startItemTop].
  repeat split. intros Hin. f_equal. lia.
Qed.

(** X8.  [componentDidMount] on a list whose container is attached
    returns with the container at offset 0.  On an enabled, unlocked list
    whose recorded offset is not 0 it starts a measurement at offset 0; on
    a disabled or locked list, or one that already recorded offset 0, the
    positioning state is left as it was. *)
Theorem componentDidMount_syncs (inst : Instance) (c : Container) :
  listRef inst = Some c ->
  exists r : Instance,
    componentDidMount inst = Returned r
    /\ listRef r = Some (scrolledTo 0 c)
    /\ (lockScroll inst = false ->
        disabled (props inst) = false ->
        scrollTop (state inst) <> Some 0 ->
        status (state r) = MEASURE_START
        /\ scrollTop (state r) = Some 0)
    /\ (lockScroll inst = true \/ disabled (props inst) = true
        \/ scrollTop (state inst) = Some 0 ->
        state r = state inst).
Proof.
  intros Href. unfold componentDidMount. rewrite Href, assignScrollTop_zero.
  exists (after (onScroll (set_listRef (Some (scrolledTo 0 c)) inst))).
  split; [now apply onScroll_attached with (scrolledTo 0 c)|].
  unfold onScroll.
  cbn [props state listRef lockScroll set_listRef scrolledTo el_scrollTop].
  split; [now destruct (_ || _)|]. split.
  - intros Hlock Hen Hnew.
    rewrite Hlock, Hen, bool_decide_eq_false_2 by congruence. now split.
  - intros [Hlock|[Hdis|Htop]].
    + now rewrite Hlock, orb_true_r.
    + now rewrite Hdis, orb_true_r.
    + now rewrite Htop, bool_decide_eq_true_2.
Qed.

(** *** Update passes *)

Lemma zsum_app (l1 l2 : list Z) :
  fold_right Z.add 0 (l1 ++ l2) = fold_right Z.add 0 l1 + fold_right Z.add 0 l2.
Proof. induction l1 as [|x l1 IH]; simpl; lia. Qed.

Lemma sum_down_up (h : Z -> Z) (n : nat) :
  forall from to,
    from = to + Z.of_nat n - 1 ->
    fold_right Z.add 0 (map h (map (fun k => from - Z.of_nat k) (seq 0 n)))
    = fold_right Z.add 0 (map h (map (fun k => to + Z.of_nat k) (seq 0 n))).
Proof.
  induction n as [|n IH]; intros from to Hft; [reflexivity|].
  rewrite seq_S at 2. rewrite !map_app, zsum_app.
  cbn [seq map fold_right]. rewrite <- seq_shift, !map_map.
  rewrite (map_ext (fun k => h (from - Z.of_nat (S k)))
                   (fun k => h (from - 1 - Z.of_nat k)))
    by (intros k; f_equal; lia).
  rewrite <- (map_map (fun k => from - 1 - Z.of_nat k) h).
  rewrite (IH (from - 1) to) by lia.
  replace (from - Z.of_nat 0) with (to + Z.of_nat n) by lia.
  rewrite !map_map. change (0 + n)%nat with n. simpl. lia.
Qed.

Lemma ledgerHeight_down_up heights keyOf (from to : Z) :
  ledgerHeight heights keyOf (indicesDown from to)
  = ledgerHeight heights keyOf (indicesUp to from).
Proof.
  unfold ledgerHeight, indicesDown, indicesUp.
  destruct (Z_lt_le_dec from to) as [Hlt|Hge].
  - replace (Z.to_nat (from - to + 1)) with 0%nat by lia. reflexivity.
  - apply (sum_down_up (fun index => heightOr0 heights (keyOf index))). lia.
Qed.

Lemma fold_subtract (h : Z -> Z) (l : list Z) :
  forall a : Q,
    (fold_left (fun acc index => acc - inject_Z (h index)) l a
     == a - inject_Z (fold_right Z.add 0%Z (map h l)))%Q.
Proof.
  induction l as [|x l IH]; intros a; simpl.
  - unfold inject_Z. ring.
  - rewrite IH, inject_Z_plus. ring.
Qed.

Lemma cached_current_length (inst : Instance) :
  cachedProps inst = Some (props inst) -> lengthChanged inst = false.
Proof.
  intros Hc. unfold lengthChanged, prevDataSourceOf.
  rewrite Hc, Nat.eqb_refl. reflexivity.
Qed.

(** An enabled pass without a length change: the only way to throw is the
    measuring branch on an unattached container; otherwise the pass
    returns with the measurement done and the props cached. *)
Lemma componentDidUpdate_unchanged_length (inst : Instance) :
  disabled (props inst) = false ->
  lengthChanged inst = false ->
  componentDidUpdate inst
  = match status (state inst), listRef inst with
    | MEASURE_START, None => Threw inst
    | MEASURE_START, Some c =>
        Returned (set_cachedProps (Some (props inst)) (measureDone inst c))
    | _, _ => Returned (set_cachedProps (Some (props inst)) inst)
    end.
Proof.
  intros Hen Hlen. unfold Component.componentDidUpdate, Component.measurePhase.
  rewrite Hen.
  destruct (status (state inst)); [| destruct (listRef inst) |];
    cbn [andThen]; try reflexivity;
    unfold Component.lengthPhase;
    replace (lengthChanged _) with false by (symmetry; exact Hlen);
    reflexivity.
Qed.

(** An enabled instance that is not waiting for a measurement and whose
    cached props are current is a fixed point of the update pass. *)
Lemma settled_is_fixed (r : Instance) :
  disabled (props r) = false ->
  status (state r) <> MEASURE_START ->
  cachedProps r = Some (props r) ->
  componentDidUpdate r = Returned r.
Proof.
  intros Hen Hstatus Hc.
  rewrite componentDidUpdate_unchanged_length
    by (try exact Hen; now apply cached_current_length).
  destruct (status (state r)); try contradiction;
    destruct r; simpl in *; now rewrite Hc.
Qed.

(** X9.  An enabled update pass in status [MEASURE_START] (collection
    length unchanged).  With the container attached it returns, having
    refreshed the ledger for the window, moved to [MEASURE_DONE] and set
    the window's pixel offset to the located item's absolute top less the
    ledger heights of the window items before the located item; the
    recorded offset and the located range stay.  Without a container it
    throws before anything is measured. *)
Theorem measure_pass_offsets (inst : Instance) :
  status (state inst) = MEASURE_START ->
  disabled (props inst) = false ->
  lengthChanged inst = false ->
  let keyOf := fun index => getIndexKey index (Some (props inst)) in
  let ledger := itemElementHeights (collectItemHeights inst) in
  (forall c : Container,
      listRef inst = Some c ->
      exists r : Instance,
        componentDidUpdate inst = Returned r
        /\ status (state r) = MEASURE_DONE
        /\ itemElementHeights r = ledger
        /\ (startItemTop (state r)
            == getItemAbsoluteTop (itemIndex (state inst)) (itemOffsetPtg (state inst))
                 ledger (el_scrollTop c) (getElementScrollPercentage c)
                 (el_clientHeight c) keyOf
               - inject_Z (ledgerHeight ledger keyOf
                             (indicesUp (startIndex (state inst))
                                        (itemIndex (state inst) - 1))))%Q
        /\ scrollTop (state r) = scrollTop (state inst)
        /\ itemIndex (state r) = itemIndex (state inst)
        /\ startIndex (state r) = startIndex (state inst)
        /\ endIndex (state r) = endIndex (state inst))
  /\ (listRef inst = None -> componentDidUpdate inst = Threw inst).
Proof.
  intros Hst Hen Hlen keyOf ledger.
  rewrite (componentDidUpdate_unchanged_length inst Hen Hlen), Hst.
  split.
  - intros c Href. rewrite Href. eexists. split; [reflexivity|].
    unfold Component.measureDone, set_cachedProps.
    cbn [state status itemElementHeights set_state startItemTop scrollTop itemIndex
         startIndex endIndex].
    repeat split.
    rewrite fold_subtract, <- ledgerHeight_down_up. reflexivity.
  - intros Href. now rewrite Href.
Qed.

(** How an enabled update pass can end: it returns with the props
    cached, or it throws on an unattached container with the cached
    props as they were. *)
Lemma componentDidUpdate_ends (inst : Instance) :
  disabled (props inst) = false ->
  (exists r, componentDidUpdate inst = Returned r
             /\ props r = props inst
             /\ cachedProps r = Some (props inst))
  \/ (exists r, componentDidUpdate inst = Threw r
                /\ listRef inst = None
                /\ cachedProps r = cachedProps inst).
Proof.
  intros Hen. unfold Component.componentDidUpdate. rewrite Hen.
  unfold Component.measurePhase.
  assert (Hlength : forall inst1,
    props inst1 = props inst -> cachedProps inst1 = cachedProps inst ->
    listRef inst1 = listRef inst ->
    (exists r, andThen (lengthPhase inst1)
                 (fun inst2 => Returned (set_cachedProps (Some (props inst)) inst2))
               = Returned r
               /\ props r = props inst /\ cachedProps r = Some (props inst))
    \/ (exists r, andThen (lengthPhase inst1)
                    (fun inst2 => Returned (set_cachedProps (Some (props inst)) inst2))
                  = Threw r
                  /\ listRef inst = None /\ cachedProps r = cachedProps inst)).
  { intros inst1 Hp Hc Hr. unfold Component.lengthPhase.
    destruct (lengthChanged inst1).
    - cbn [listRef Component.collectItemHeights set_itemElementHeights].
      rewrite Hr. destruct (listRef inst) as [c|] eqn:Href.
      + left.
        rewrite (scrollTo_attached GHOST_ITEM_KEY getItemRelativeTop
                   getCompareItemRelativeTop getIndexByStartLoc _
                   (collectItemHeights inst1) c)
          by (change (listRef inst1 = Some c); congruence).
        eexists. split; [reflexivity|]. split; [|reflexivity].
        cbn [props set_cachedProps]. rewrite scrollTo_props. exact Hp.
      + right. eexists. split; [reflexivity|]. split; [reflexivity | exact Hc].
    - left. eexists. split; [reflexivity|]. split; [exact Hp | reflexivity]. }
  destruct (status (state inst)); cbn [andThen]; try (now apply Hlength).
  destruct (listRef inst) as [c|] eqn:Href; cbn [andThen].
  - apply Hlength; try reflexivity. exact Href.
  - right. eexists. split; [reflexivity|]. now split.
Qed.

(** X10.  An enabled update pass that returns ends with the cached props
    equal to the current props, so the length-change branch cannot fire
    again until the props change; with the container attached the pass
    does return; and a pass that throws (as it can only on an unattached
    container) leaves the cached props as they were. *)
Theorem update_caches_props (inst : Instance) :
  disabled (props inst) = false ->
  (forall r, componentDidUpdate inst = Returned r ->
     cachedProps r = Some (props inst) /\ lengthChanged r = false)
  /\ (forall c, listRef inst = Some c ->
        exists r, componentDidUpdate inst = Returned r)
  /\ (forall r, componentDidUpdate inst = Threw r ->
        listRef inst = None /\ cachedProps r = cachedProps inst).
Proof.
  intros Hen.
  destruct (componentDidUpdate_ends inst Hen)
    as [(r & Hr & Hp & Hc)|(r & Hr & Href & Hc)]; rewrite Hr.
  - split; [|split].
    + intros r' [= <-]. split; [exact Hc|].
      apply cached_current_length. now rewrite Hp.
    + intros c _. now exists r.
    + discriminate.
  - split; [|split].
    + discriminate.
    + intros c Hc'. congruence.
    + intros r' [= <-]. now split.
Qed.

(** X11.  Update passes settle: once an enabled pass without a length
    change has run, running the pass again on the same props and the same
    mounted elements changes nothing. *)
Theorem update_pass_settles (inst : Instance) :
  disabled (props inst) = false ->
  lengthChanged inst = false ->
  componentDidUpdate (after (componentDidUpdate inst)) = componentDidUpdate inst.
Proof.
  intros Hen Hlen.
  rewrite (componentDidUpdate_unchanged_length inst Hen Hlen).
  destruct (status (state inst)) eqn:Hs; [| destruct (listRef inst) eqn:Href |];
    cbn [after];
    try (apply settled_is_fixed; cbn; rewrite ?Hs; congruence).
  rewrite (componentDidUpdate_unchanged_length inst Hen Hlen), Hs, Href.
  reflexivity.
Qed.

End UpdateFacts.

(** ** The relative branch of [scrollTo] *)

Section RelativeScrollFacts.

Variable GHOST_ITEM_KEY : JS.Key.
Variable getItemRelativeTop :
  Z -> Q -> gmap string Z -> Q -> Z -> (Z -> JS.Key) -> Q.
Variable getCompareItemRelativeTop :
  Q -> Z -> Z -> Z -> Z -> (Z -> JS.Key) -> gmap string Z -> Q.
Variable getIndexByStartLoc : Z -> Z -> option Z -> Z -> Z.

Local Abbreviation scrollSearch :=
  (scrollSearch GHOST_ITEM_KEY getItemRelativeTop getCompareItemRelativeTop
     getIndexByStartLoc).
Local Abbreviation scrollTo :=
  (scrollTo GHOST_ITEM_KEY getItemRelativeTop getCompareItemRelativeTop
     getIndexByStartLoc).
Local Abbreviation candidateSimilarity :=
  (candidateSimilarity GHOST_ITEM_KEY getItemRelativeTop getCompareItemRelativeTop).

(** X12.  A relative [scrollTo] on a list whose container is attached
    returns, and either leaves the instance as it was, or applies one of
    the candidate offsets it examined: the recorded offset is that
    candidate, the container was assigned it (and holds it clamped to its
    scroll range), the status is [MEASURE_START], the lock is set, one
    unlock callback is queued, the target item lies inside the new render
    window, and the ledger, the window's pixel offset, the props and the
    cached props are untouched.  The scroll notification the assignment
    causes is then a no-op. *)
Theorem scrollTo_relative_applies (inst : Instance) (c : Container)
    (target : RelativeScroll) :
  listRef inst = Some c ->
  scrollTo (ArgRelative target) inst = Returned inst
  \/ exists (r : Instance) (b : BestMatch),
       scrollTo (ArgRelative target) inst = Returned r
       /\ best (sr_acc (scrollSearch inst (el_clientHeight c) target)) = Some b
       /\ In (bestScrollTop b) (sr_visited (scrollSearch inst (el_clientHeight c) target))
       /\ scrollTop (state r) = Some (bestScrollTop b)
       /\ listRef r = Some (assignScrollTop (bestScrollTop b) c)
       /\ (0 <= bestScrollTop b <= scrollRange c ->
           option_map el_scrollTop (listRef r) = scrollTop (state r))
       /\ status (state r) = MEASURE_START
       /\ lockScroll r = true
       /\ frameQueue r = frameQueue inst ++ [UnlockAfterNextFrame]
       /\ startIndex (state r) <= rs_itemIndex target <= endIndex (state r)
       /\ startItemTop (state r) = startItemTop (state inst)
       /\ itemElementHeights r = itemElementHeights inst
       /\ props r = props inst
       /\ cachedProps r = cachedProps inst
       /\ onScroll r = Returned r.
Proof.
  intros Href.
  destruct (scrollSearch_sound GHOST_ITEM_KEY getItemRelativeTop
              getCompareItemRelativeTop getIndexByStartLoc inst (el_clientHeight c)
              target) as (Hbest & _ & _).
  unfold Component.scrollTo. rewrite Href.
  destruct (best (sr_acc (scrollSearch inst (el_clientHeight c) target)))
    as [b|] eqn:Hb; [right | now left].
  destruct (Hbest b eq_refl) as (Hseen & Hwin & _).
  exists (applyBest b c inst), b.
  split; [reflexivity|]. split; [reflexivity|]. split; [exact Hseen|].
  split; [reflexivity|]. split; [reflexivity|]. split.
  { intros Hin. cbn. f_equal. lia. }
  cbn. repeat split; try lia.
  rewrite orb_true_r. reflexivity.
Qed.

(** X13.  The match the search records is the best of what it examined:
    its similarity score is the score of the recorded candidate, and no
    examined candidate whose window contains the target scores lower. *)
Theorem scrollSearch_keeps_minimum (inst : Instance) (clientHeight : Z)
    (target : RelativeScroll) (s : Q) :
  bestSimilarity (sr_acc (scrollSearch inst clientHeight target)) = Some s ->
  (exists b, best (sr_acc (scrollSearch inst clientHeight target)) = Some b
             /\ In (bestScrollTop b) (sr_visited (scrollSearch inst clientHeight target))
             /\ s = candidateSimilarity inst clientHeight target (bestScrollTop b))
  /\ (forall c,
        In c (sr_visited (scrollSearch inst clientHeight target)) ->
        windowContains (candidateRange inst clientHeight c) (rs_itemIndex target) = true ->
        (s <= candidateSimilarity inst clientHeight target c)%Q).
Proof.
  intros Hs.
  destruct (scrollSearch_sound GHOST_ITEM_KEY getItemRelativeTop
              getCompareItemRelativeTop getIndexByStartLoc inst clientHeight target)
    as (Hbest & Hmin & _).
  destruct (Hmin s Hs) as [[b Hb] Hall]. split; [|exact Hall].
  exists b. destruct (Hbest b Hb) as (Hseen & _ & _ & Hsim).
  split; [exact Hb|]. split; [exact Hseen|]. congruence.
Qed.

(** X14.  If any examined candidate's window contains the target, the
    search records a match, and [scrollTo], called on a container of that
    [clientHeight], returns having applied it. *)
Theorem scrollSearch_finds_reachable (inst : Instance) (clientHeight : Z)
    (target : RelativeScroll) (c : Z) :
  In c (sr_visited (scrollSearch inst clientHeight target)) ->
  windowContains (candidateRange inst clientHeight c) (rs_itemIndex target) = true ->
  best (sr_acc (scrollSearch inst clientHeight target)) <> None
  /\ (forall container : Container,
        listRef inst = Some container ->
        el_clientHeight container = clientHeight ->
        exists r, scrollTo (ArgRelative target) inst = Returned r
                  /\ lockScroll r = true).
Proof.
  intros Hc Hwin.
  destruct (scrollSearch_sound GHOST_ITEM_KEY getItemRelativeTop
              getCompareItemRelativeTop getIndexByStartLoc inst clientHeight target)
    as (_ & Hmin & Hnone).
  assert (Hb : best (sr_acc (scrollSearch inst clientHeight target)) <> None).
  { destruct (bestSimilarity (sr_acc (scrollSearch inst clientHeight target)))
      as [s|] eqn:Hs.
    - destruct (Hmin s eq_refl) as [[b Hb] _]. congruence.
    - destruct (Hnone eq_refl) as [_ Hall].
      unfold showsTarget in Hall. rewrite (Hall c Hc) in Hwin. discriminate. }
  split; [exact Hb|].
  intros container Href <-. unfold Component.scrollTo. rewrite Href.
  destruct (best _) as [b|]; [|contradiction].
  now eexists.
Qed.

(** X15.  The candidates are examined in loop-counter order with none
    skipped: the [k]-th offset examined is
    [getIndexByStartLoc(0, maxScrollTop, state.scrollTop, k)]. *)
Theorem scrollSearch_order (inst : Instance) (clientHeight : Z)
    (target : RelativeScroll) (k : nat) (c : Z) :
  sr_visited (scrollSearch inst clientHeight target) !! k = Some c ->
  c = getIndexByStartLoc 0 (maxScrollTopOf inst clientHeight)
        (scrollTop (state inst)) (Z.of_nat k).
Proof.
  intros Hk. unfold Component.scrollSearch in Hk.
  apply searchLoop_order in Hk. exact Hk.
Qed.

(** X16.  When there is nothing to scroll ([dataSource.length * itemHeight]
    does not exceed the [clientHeight] of the attached container) a
    relative [scrollTo] examines no candidate, returns and changes
    nothing. *)
Theorem scrollTo_nothing_to_scroll (inst : Instance) (c : Container)
    (target : RelativeScroll) :
  listRef inst = Some c ->
  Z.of_nat (length (dataSource (props inst))) * itemHeight (props inst)
    <= el_clientHeight c ->
  sr_visited (scrollSearch inst (el_clientHeight c) target) = []
  /\ scrollTo (ArgRelative target) inst = Returned inst.
Proof.
  intros Href Hfit. unfold Component.scrollTo, Component.scrollSearch.
  rewrite Href.
  replace (Z.to_nat (maxScrollTopOf inst (el_clientHeight c))) with 0%nat
    by (unfold maxScrollTopOf; lia).
  now split.
Qed.

End RelativeScrollFacts.

(** ** Invariants of every run *)

Lemma no_unlock_all_waiting (queue : list FrameCallback) :
  existsb isUnlock queue = false ->
  List.filter (fun cb => negb (isUnlock cb)) queue = queue.
Proof.
  induction queue as [|cb queue IH]; intros H; [reflexivity|].
  simpl in H. apply orb_false_iff in H as [Hcb Hq].
  simpl. rewrite Hcb. simpl. now rewrite IH.
Qed.

Lemma lifecycleKept_refl (st : ListState) : lifecycleKept st st.
Proof. split; auto. Qed.

Lemma lifecycleKept_trans (a b c : ListState) :
  lifecycleKept a b -> lifecycleKept b c -> lifecycleKept a c.
Proof. intros [H1 H2] [H3 H4]. split; auto. Qed.

Lemma lifecycleKept_started (st st' : ListState) :
  status st' = MEASURE_START -> scrollTop st' <> None -> lifecycleKept st st'.
Proof.
  intros Hs Ht. split; [intros _; congruence|].
  intros _. unfold statusTracksScrollTop. rewrite Hs. split; [discriminate | contradiction].
Qed.

Section RunFacts.

Variable GHOST_ITEM_KEY : JS.Key.
Variable getItemRelativeTop :
  Z -> Q -> gmap string Z -> Q -> Z -> (Z -> JS.Key) -> Q.
Variable getItemAbsoluteTop :
  Z -> Q -> gmap string Z -> Z -> Q -> Z -> (Z -> JS.Key) -> Q.
Variable getCompareItemRelativeTop :
  Q -> Z -> Z -> Z -> Z -> (Z -> JS.Key) -> gmap string Z -> Q.
Variable getIndexByStartLoc : Z -> Z -> option Z -> Z -> Z.

Local Abbreviation scrollTo :=
  (scrollTo GHOST_ITEM_KEY getItemRelativeTop getCompareItemRelativeTop
     getIndexByStartLoc).
Local Abbreviation measureDone :=
  (measureDone GHOST_ITEM_KEY getItemAbsoluteTop).
Local Abbreviation componentDidUpdate :=
  (componentDidUpdate GHOST_ITEM_KEY getItemRelativeTop getItemAbsoluteTop
     getCompareItemRelativeTop getIndexByStartLoc).
Local Abbreviation step :=
  (step GHOST_ITEM_KEY getItemRelativeTop getItemAbsoluteTop
     getCompareItemRelativeTop getIndexByStartLoc).
Local Abbreviation run :=
  (run GHOST_ITEM_KEY getItemRelativeTop getItemAbsoluteTop
     getCompareItemRelativeTop getIndexByStartLoc).

(** *** The lock always has an unlock on its way *)

Lemma scrollTo_pending arg inst :
  unlockPending inst -> unlockPending (after (scrollTo arg inst)).
Proof.
  intros Hp.
  destruct (scrollTo_after GHOST_ITEM_KEY getItemRelativeTop getCompareItemRelativeTop
              getIndexByStartLoc arg inst)
    as [->|[(n & c & _ & ->)|(target & c & b & _ & _ & _ & ->)]];
    [exact Hp | exact Hp |].
  intros _. simpl. now destruct (frameQueue inst).
Qed.

Lemma onScroll_pending inst :
  unlockPending inst -> unlockPending (after (onScroll inst)).
Proof.
  intros Hp. unfold onScroll. destruct (listRef inst); [|exact Hp].
  now destruct (_ || _).
Qed.

Lemma animationFrame_pending inst :
  unlockPending inst -> unlockPending (animationFrame inst).
Proof.
  intros Hp. unfold unlockPending.
  rewrite animationFrame_lock, animationFrame_queue.
  destruct (existsb isUnlock (frameQueue inst)) eqn:Hq; [discriminate|].
  intros Hl. rewrite (no_unlock_all_waiting _ Hq).
  specialize (Hp Hl). now destruct (frameQueue inst).
Qed.

Lemma step_pending inst e : unlockPending inst -> unlockPending (step inst e).
Proof.
  destruct (notFrame e) eqn:He.
  - apply (step_related GHOST_ITEM_KEY getItemRelativeTop getItemAbsoluteTop
             getCompareItemRelativeTop getIndexByStartLoc
             (fun a b => unlockPending a -> unlockPending b));
      try exact He; auto using scrollTo_pending, onScroll_pending.
  - destruct e; try discriminate. apply animationFrame_pending.
Qed.

Lemma run_pending (events : list Event) :
  forall inst, unlockPending inst -> unlockPending (run inst events).
Proof.
  induction events as [|e events IH]; intros inst Hp; [exact Hp|].
  change (run inst (e :: events)) with (run (step inst e) events).
  apply IH. now apply step_pending.
Qed.

Lemma two_frames_release inst :
  unlockPending inst -> lockScroll (animationFrame (animationFrame inst)) = false.
Proof.
  intros Hp.
  rewrite (animationFrame_lock (animationFrame inst)), animationFrame_queue,
    animationFrame_lock.
  destruct (existsb isUnlock (frameQueue inst)) eqn:Hq.
  - destruct (existsb isUnlock (repeat Unlock _)); reflexivity.
  - rewrite (no_unlock_all_waiting _ Hq).
    destruct (frameQueue inst) as [|cb queue] eqn:Hqueue; [|reflexivity].
    simpl. destruct (lockScroll inst) eqn:Hl; [|reflexivity].
    specialize (Hp Hl). congruence.
Qed.

(** X17.  The lock cannot get stuck.  Along every run that starts
    unlocked, a set lock always has a frame callback queued that leads to
    its release, and two animation frames in a row clear the lock whatever
    happened before. *)
Theorem lock_never_stuck (inst : Instance) (events : list Event) :
  lockScroll inst = false ->
  unlockPending (run inst events)
  /\ lockScroll (animationFrame (animationFrame (run inst events))) = false.
Proof.
  intros Hl.
  assert (Hp : unlockPending (run inst events)).
  { apply run_pending. intros Htrue. congruence. }
  split; [exact Hp | now apply two_frames_release].
Qed.

(** *** The lifecycle of the status *)

Lemma onScroll_lifecycle inst :
  lifecycleKept (state inst) (state (after (onScroll inst))).
Proof.
  unfold onScroll. destruct (listRef inst); [|apply lifecycleKept_refl].
  destruct (_ || _); [apply lifecycleKept_refl|].
  now apply lifecycleKept_started.
Qed.

Lemma scrollTo_lifecycle arg inst :
  lifecycleKept (state inst) (state (after (scrollTo arg inst))).
Proof.
  destruct (scrollTo_after GHOST_ITEM_KEY getItemRelativeTop getCompareItemRelativeTop
              getIndexByStartLoc arg inst)
    as [->|[(n & c & _ & ->)|(target & c & b & _ & _ & _ & ->)]];
    try apply lifecycleKept_refl.
  now apply lifecycleKept_started.
Qed.

Lemma measureDone_lifecycle inst c :
  status (state inst) = MEASURE_START ->
  lifecycleKept (state inst) (state (measureDone inst c)).
Proof.
  intros Hs. split; [intros _; discriminate|].
  unfold statusTracksScrollTop. simpl. rewrite Hs.
  intros [H1 H2]. split; [discriminate|]. intros Hn. now apply H2 in Hn.
Qed.

Lemma componentDidUpdate_lifecycle inst :
  lifecycleKept (state inst) (state (after (componentDidUpdate inst))).
Proof.
  unfold Component.componentDidUpdate.
  destruct (disabled _); [apply lifecycleKept_refl|].
  assert (Hm : lifecycleKept (state inst)
                 (state (after (measurePhase GHOST_ITEM_KEY getItemAbsoluteTop inst)))).
  { unfold Component.measurePhase.
    destruct (status (state inst)) eqn:Hs; try apply lifecycleKept_refl.
    destruct (listRef inst); [now apply measureDone_lifecycle
                             | apply lifecycleKept_refl]. }
  destruct (measurePhase _ _ inst) as [inst1|inst1]; cbn [andThen after] in *;
    [|exact Hm].
  eapply lifecycleKept_trans; [exact Hm|].
  unfold Component.lengthPhase.
  destruct (lengthChanged inst1); [|apply lifecycleKept_refl].
  cbn [listRef Component.collectItemHeights set_itemElementHeights].
  destruct (listRef inst1); [|apply lifecycleKept_refl].
  match goal with
  | |- context [Component.scrollTo ?g ?r ?k ?l ?a ?i] =>
      pose proof (scrollTo_lifecycle a i) as Hs;
      destruct (Component.scrollTo g r k l a i); exact Hs
  end.
Qed.

Lemma step_lifecycle inst e : lifecycleKept (state inst) (state (step inst e)).
Proof.
  destruct e as [top|p elements sh ch|arg|]; unfold Component.step.
  - unfold scrolled. destruct (listRef inst); [|apply lifecycleKept_refl].
    apply (onScroll_lifecycle (set_listRef_scrollTop top inst)).
  - apply (componentDidUpdate_lifecycle (committed p elements sh ch inst)).
  - apply scrollTo_lifecycle.
  - rewrite animationFrame_state. apply lifecycleKept_refl.
Qed.

(** X18.  The status never returns to [NONE]: once a measurement has
    started, every later state of the run has status [MEASURE_START] or
    [MEASURE_DONE]; and from the initial state on, the recorded scroll
    offset is [null] exactly while the status is [NONE]. *)
Theorem status_never_returns_to_none (events : list Event) :
  forall inst,
    (status (state inst) <> NONE -> status (state (run inst events)) <> NONE)
    /\ (state inst = initialState -> statusTracksScrollTop (state (run inst events))).
Proof.
  assert (Hrun : forall inst, lifecycleKept (state inst) (state (run inst events))).
  { induction events as [|e events IH]; intros inst; [apply lifecycleKept_refl|].
    change (run inst (e :: events)) with (run (step inst e) events).
    eapply lifecycleKept_trans; [apply step_lifecycle | apply IH]. }
  intros inst. destruct (Hrun inst) as [Hnone Htracks].
  split; [exact Hnone|].
  intros Hinit. apply Htracks. rewrite Hinit. now split.
Qed.

(** *** The container follows the render *)



End RunFacts.
(** ** Rendering the window *)

Section RenderFacts.

Variable GHOST_ITEM_KEY : JS.Key.

Local Abbreviation getIndexKey := (getIndexKey GHOST_ITEM_KEY).
Local Abbreviation render := (render GHOST_ITEM_KEY).

(** X19.  The virtualised branch of [render] (a [height] that the
    collection overflows), on a positioning state with a well-formed
    window: the scroll handler and the ref are wired, the filler reserves
    [dataSource.length * itemHeight] pixels and is shifted by
    [startItemTop] only in status [MEASURE_DONE], and the children are
    exactly the items at indices [startIndex .. min(endIndex, n-1)], in
    order, each with its own index and key. *)
Theorem render_window_children (inst : Instance) (h : Z) :
  height (props inst) = Some h ->
  h < Z.of_nat (length (dataSource (props inst))) * itemHeight (props inst) ->
  stateWindowHolds (state inst) ->
  out_onScroll (render inst) = true
  /\ out_ref (render inst) = true
  /\ out_fillerHeight (render inst)
     = Some (Z.of_nat (length (dataSource (props inst))) * itemHeight (props inst))
  /\ out_fillerOffset (render inst)
     = Some match status (state inst) with
            | MEASURE_DONE => startItemTop (state inst)
            | _ => 0%Q
            end
  /\ length (out_children (render inst))
     = Z.to_nat (Z.min (endIndex (state inst) + 1)
                       (Z.of_nat (length (dataSource (props inst))))
                 - startIndex (state inst))
  /\ (forall (k : Z) (it : Item),
        startIndex (state inst) <= k <= endIndex (state inst) ->
        dataSource (props inst) !! Z.to_nat k = Some it ->
        out_children (render inst) !! Z.to_nat (k - startIndex (state inst))
        = Some (it, k, getIndexKey k (Some (props inst)))).
Proof.
  intros Hh Hover (Hstart & Hloc & Hend).
  unfold Component.render. rewrite Hh.
  destruct (Z.leb_spec
              (Z.of_nat (length (dataSource (props inst))) * itemHeight (props inst)) h)
    as [Hfit|_]; [lia|].
  cbn [out_onScroll out_ref out_fillerHeight out_fillerOffset out_children].
  unfold ITEM_SCALE_RATE. rewrite Z.mul_1_r.
  repeat (split; [reflexivity|]).
  unfold renderChildren, JS.slice.
  destruct (Z.ltb_spec (startIndex (state inst)) 0) as [Hneg|_]; [lia|].
  destruct (Z.ltb_spec (endIndex (state inst) + 1) 0) as [Hneg|_]; [lia|].
  split.
  - rewrite length_imap, length_take, length_drop. lia.
  - intros k it Hk Hit.
    assert (Hlt : (Z.to_nat k < length (dataSource (props inst)))%nat)
      by (apply lookup_lt_is_Some; eauto).
    rewrite list_lookup_imap, lookup_take_lt, lookup_drop by lia.
    replace (Z.to_nat (Z.min (startIndex (state inst))
                             (Z.of_nat (length (dataSource (props inst)))))
             + Z.to_nat (k - startIndex (state inst)))%nat
      with (Z.to_nat k) by lia.
    rewrite Hit. simpl. repeat f_equal; lia.
Qed.

(** X20.  A collection that fits its [height]
    ([dataSource.length * itemHeight <= height]) is rendered whole, like a
    list without a height: every item from index 0 with its own index and
    key, no offset, no scroll handler, no ref. *)
Theorem render_fitting_list (inst : Instance) (h : Z) :
  height (props inst) = Some h ->
  Z.of_nat (length (dataSource (props inst))) * itemHeight (props inst) <= h ->
  map (fun child => fst (fst child)) (out_children (render inst))
  = dataSource (props inst)
  /\ (forall (i : nat) (it : Item),
        dataSource (props inst) !! i = Some it ->
        out_children (render inst) !! i
        = Some (it, Z.of_nat i, getIndexKey (Z.of_nat i) (Some (props inst))))
  /\ out_fillerHeight (render inst) = Some h
  /\ out_fillerOffset (render inst) = None
  /\ out_onScroll (render inst) = false
  /\ out_ref (render inst) = false.
Proof.
  intros Hh Hfit. unfold Component.render. rewrite Hh.
  destruct (Z.leb_spec
              (Z.of_nat (length (dataSource (props inst))) * itemHeight (props inst)) h)
    as [_|Hover]; [|lia].
  cbn [out_onScroll out_ref out_fillerHeight out_fillerOffset out_children].
  split; [apply imap_items|]. split; [|repeat split].
  intros i it Hit. unfold renderChildren.
  rewrite list_lookup_imap, Hit. reflexivity.
Qed.

(** X22.  With [height] undefined, [render] hands every item of
    [dataSource] to the filler, numbered from index 0, passes no offset,
    wires neither the scroll handler nor the container ref, and its output
    depends neither on the positioning state nor on the height ledger. *)
Theorem render_unconstrained (inst : Instance) :
  height (props inst) = None ->
  out_children (render inst)
  = imap (fun index item =>
            (item, Z.of_nat index, getIndexKey (Z.of_nat index) (Some (props inst))))
         (dataSource (props inst))
  /\ map (fun child => fst (fst child)) (out_children (render inst))
     = dataSource (props inst)
  /\ out_fillerHeight (render inst) = None
  /\ out_fillerOffset (render inst) = None
  /\ out_onScroll (render inst) = false
  /\ out_ref (render inst) = false
  /\ (forall st ledger,
        render (set_itemElementHeights ledger (set_state st inst)) = render inst).
Proof.
  intros Hh. unfold Component.render. cbn [props set_itemElementHeights set_state].
  rewrite Hh. cbn [out_children out_fillerHeight out_fillerOffset out_onScroll out_ref].
  split; [reflexivity|]. split; [|repeat split].
  unfold renderChildren. apply imap_items.
Qed.


End RenderFacts.

(** ** A scroll event through the lifecycle *)

Section LifecycleFacts.

Variable GHOST_ITEM_KEY : JS.Key.
Variable getItemRelativeTop :
  Z -> Q -> gmap string Z -> Q -> Z -> (Z -> JS.Key) -> Q.
Variable getItemAbsoluteTop :
  Z -> Q -> gmap string Z -> Z -> Q -> Z -> (Z -> JS.Key) -> Q.
Variable getCompareItemRelativeTop :
  Q -> Z -> Z -> Z -> Z -> (Z -> JS.Key) -> gmap string Z -> Q.
Variable getIndexByStartLoc : Z -> Z -> option Z -> Z -> Z.

Local Abbreviation scrollTo :=
  (scrollTo GHOST_ITEM_KEY getItemRelativeTop getCompareItemRelativeTop
     getIndexByStartLoc).
Local Abbreviation collectItemHeights := (collectItemHeights GHOST_ITEM_KEY).
Local Abbreviation measureDone :=
  (measureDone GHOST_ITEM_KEY getItemAbsoluteTop).
Local Abbreviation componentDidUpdate :=
  (componentDidUpdate GHOST_ITEM_KEY getItemRelativeTop getItemAbsoluteTop
     getCompareItemRelativeTop getIndexByStartLoc).

(** X21.  A scroll event is fully processed by one update pass: on an
    enabled, unlocked list whose (attached) container moved to a new
    offset (and whose length did not change), [onScroll] followed by
    [componentDidUpdate] both return, the pass ends in [MEASURE_DONE]
    with the new offset recorded, and a further update pass changes
    nothing. *)
Theorem scroll_event_settles_in_one_pass (inst : Instance) (c : Container) :
  listRef inst = Some c ->
  Some (el_scrollTop c) <> scrollTop (state inst) ->
  lockScroll inst = false ->
  disabled (props inst) = false ->
  lengthChanged inst = false ->
  exists r r' : Instance,
    onScroll inst = Returned r
    /\ status (state r) = MEASURE_START
    /\ componentDidUpdate r = Returned r'
    /\ status (state r') = MEASURE_DONE
    /\ scrollTop (state r') = Some (el_scrollTop c)
    /\ componentDidUpdate r' = Returned r'.
Proof.
  intros Href Hnew Hlock Hen Hlen.
  assert (Hscroll :
    exists st, onScroll inst = Returned (set_state st inst)
               /\ status st = MEASURE_START
               /\ scrollTop st = Some (el_scrollTop c)).
  { unfold onScroll.
    rewrite Href, Hlock, Hen, bool_decide_eq_false_2 by exact Hnew.
    eexists. now repeat split. }
  destruct Hscroll as (st & Hr & Hs & Ht).
  exists (set_state st inst),
         (set_cachedProps (Some (props inst)) (measureDone (set_state st inst) c)).
  split; [exact Hr|]. split; [exact Hs|].
  assert (Hpass :
    componentDidUpdate (set_state st inst)
    = Returned (set_cachedProps (Some (props inst)) (measureDone (set_state st inst) c))).
  { rewrite componentDidUpdate_unchanged_length by assumption.
    cbn [state set_state listRef props]. now rewrite Hs, Href. }
  split; [exact Hpass|]. split; [reflexivity|]. split; [exact Ht|].
  now apply settled_is_fixed.
Qed.

(** *** Calls on a list without a container *)

(** X23.  Every method that touches the container throws when none is
    attached (the list was rendered through the plain branch): [onScroll]
    (even when disabled or locked), [scrollTo] with either kind of
    argument and [componentDidMount] throw and leave the instance as it
    was; an enabled update pass throws in status [MEASURE_START], before
    anything is measured, and on a length change, after the ledger was
    refreshed, in both cases without caching the props; only an enabled
    pass with neither returns, and all it does is cache the props. *)
Theorem unattached_container_throws (inst : Instance) :
  listRef inst = None ->
  onScroll inst = Threw inst
  /\ (forall arg, scrollTo arg inst = Threw inst)
  /\ componentDidMount inst = Threw inst
  /\ (disabled (props inst) = false ->
      status (state inst) = MEASURE_START ->
      componentDidUpdate inst = Threw inst)
  /\ (disabled (props inst) = false ->
      status (state inst) <> MEASURE_START ->
      lengthChanged inst = true ->
      componentDidUpdate inst = Threw (collectItemHeights inst)
      /\ cachedProps (collectItemHeights inst) = cachedProps inst)
  /\ (disabled (props inst) = false ->
      status (state inst) <> MEASURE_START ->
      lengthChanged inst = false ->
      componentDidUpdate inst = Returned (set_cachedProps (Some (props inst)) inst)).
Proof.
  intros Href.
  split; [unfold onScroll; now rewrite Href|].
  split; [intros [n|target]; unfold Component.scrollTo; now rewrite Href|].
  split; [unfold componentDidMount; now rewrite Href|].
  unfold Component.componentDidUpdate, Component.measurePhase, Component.lengthPhase.
  split; [|split].
  - intros -> ->. now rewrite Href.
  - intros -> Hs Hlen.
    destruct (status (state inst)); try contradiction; cbn [andThen];
      rewrite Hlen; cbn [listRef Component.collectItemHeights set_itemElementHeights];
      now rewrite Href.
  - intros -> Hs Hlen.
    destruct (status (state inst)); try contradiction; cbn [andThen];
      now rewrite Hlen.
Qed.

(** X24.  A list that stops overflowing its [height] cannot be updated:
    when an enabled list is re-rendered with a collection of another
    length that fits the height, the commit detaches the container, and
    the update pass throws, leaving the cached props at the old
    collection. *)
Theorem shrink_to_fit_throws (inst : Instance) (p : Props)
    (elements : gmap string Z) (scrollHeight clientHeight : Z) :
  disabled p = false ->
  windowed p = false ->
  lengthChanged (committed p elements scrollHeight clientHeight inst) = true ->
  listRef (committed p elements scrollHeight clientHeight inst) = None
  /\ exists r,
       componentDidUpdate (committed p elements scrollHeight clientHeight inst)
       = Threw r
       /\ cachedProps r = cachedProps inst
       /\ state r = state inst.
Proof.
  intros Hen Hplain Hlen.
  assert (Href : listRef (committed p elements scrollHeight clientHeight inst) = None).
  { cbn [listRef committed]. unfold attachedContainer. now rewrite Hplain. }
  split; [exact Href|].
  unfold Component.componentDidUpdate, Component.measurePhase, Component.lengthPhase.
  cbn [props committed]. rewrite Hen.
  change (state (committed p elements scrollHeight clientHeight inst)) with (state inst).
  destruct (status (state inst)); cbn [andThen]; rewrite ?Href, ?Hlen;
    cbn [listRef Component.collectItemHeights set_itemElementHeights];
    rewrite ?Href; eexists; (split; [reflexivity|]); now split.
Qed.

End LifecycleFacts.
(** * Worked instances of the further properties *)

(** Index 2 of [Sample.newItems] carries the key of the inserted item. *)
Lemma getIndexKey_cases_witness :
  0 <= 2
  /\ dataSource (props Sample.measuring) !! Z.to_nat 2 = Some (Sample.item "x")
  /\ getIndexKey SpecHelpers.GHOST_ITEM_KEY 2 (Some (props Sample.measuring))
     = JS.KString "x".
Proof.
  assert (H0 : 0 <= 2) by lia.
  assert (Hit : dataSource (props Sample.measuring) !! Z.to_nat 2
                = Some (Sample.item "x")) by reflexivity.
  split; [exact H0|]. split; [exact Hit|].
  exact (proj1 (proj2 (getIndexKey_cases SpecHelpers.GHOST_ITEM_KEY
                         (props Sample.measuring) 2))
               (Sample.item "x") H0 Hit).
Defined.

(** The second item of [Sample.measuring] is recorded at 25 pixels. *)
Lemma collectItemHeights_records_witness :
  startIndex (state Sample.measuring) <= 1 <= endIndex (state Sample.measuring)
  /\ itemElementHeights (collectItemHeights SpecHelpers.GHOST_ITEM_KEY Sample.measuring)
     !! ledgerSlot SpecHelpers.GHOST_ITEM_KEY Sample.measuring 1
     = Some (getNodeHeight
               (itemElements Sample.measuring
                !! ledgerSlot SpecHelpers.GHOST_ITEM_KEY Sample.measuring 1)).
Proof.
  assert (Hin : startIndex (state Sample.measuring) <= 1
                <= endIndex (state Sample.measuring))
    by (vm_compute; split; discriminate).
  split; [exact Hin|].
  exact (proj1 (collectItemHeights_records SpecHelpers.GHOST_ITEM_KEY Sample.measuring)
               1 Hin).
Defined.

(** Scrolling and a frame leave the ledger of [Sample.measuring] alone. *)
Lemma ledger_written_by_updates_only_witness :
  forallb (fun e => negb (isUpdate e)) [EvScroll 15; EvAnimationFrame] = true
  /\ itemElementHeights (SpecHelpers.run Sample.measuring [EvScroll 15; EvAnimationFrame])
     = itemElementHeights Sample.measuring.
Proof.
  assert (Hes : forallb (fun e => negb (isUpdate e)) [EvScroll 15; EvAnimationFrame]
                = true) by reflexivity.
  split; [exact Hes|]. unfold SpecHelpers.run.
  exact (ledger_written_by_updates_only SpecHelpers.GHOST_ITEM_KEY
           SpecHelpers.getItemRelativeTop SpecHelpers.getItemAbsoluteTop
           SpecHelpers.getCompareItemRelativeTop SpecHelpers.getIndexByStartLoc
           [EvScroll 15; EvAnimationFrame] Sample.measuring Hes).
Defined.

(** [scrollTo(600)] and its scroll event on [Sample.hundred]. *)
Lemma scrollTo_number_then_scroll_witness :
  listRef Sample.hundred = Some (Sample.box 1500 300)
  /\ scrollTop (state Sample.hundred)
     <> Some (Z.max 0 (Z.min 600 (scrollRange (Sample.box 1500 300))))
  /\ lockScroll Sample.hundred = false
  /\ disabled (props Sample.hundred) = false
  /\ 0 <= 600 <= scrollRange (Sample.box 1500 300)
  /\ exists r r',
       SpecHelpers.scrollTo (ArgNumber 600) Sample.hundred = Returned r
       /\ onScroll r = Returned r'
       /\ scrollTop (state r') = Some 600.
Proof.
  assert (Href : listRef Sample.hundred = Some (Sample.box 1500 300)) by reflexivity.
  assert (Hnew : scrollTop (state Sample.hundred)
                 <> Some (Z.max 0 (Z.min 600 (scrollRange (Sample.box 1500 300)))))
    by discriminate.
  assert (Hl : lockScroll Sample.hundred = false) by reflexivity.
  assert (Hen : disabled (props Sample.hundred) = false) by reflexivity.
  assert (Hin : 0 <= 600 <= scrollRange (Sample.box 1500 300))
    by (vm_compute; split; discriminate).
  split; [exact Href|]. split; [exact Hnew|]. split; [exact Hl|]. split; [exact Hen|].
  split; [exact Hin|].
  unfold SpecHelpers.scrollTo.
  destruct (scrollTo_number_then_scroll SpecHelpers.GHOST_ITEM_KEY
              SpecHelpers.getItemRelativeTop SpecHelpers.getCompareItemRelativeTop
              SpecHelpers.getIndexByStartLoc 600 Sample.hundred (Sample.box 1500 300)
              Href Hnew Hl Hen)
    as (r & r' & Hr & Hr' & _ & _ & _ & Hexact & _).
  exists r, r'. split; [exact Hr|]. split; [exact Hr' | exact (Hexact Hin)].
Defined.

(** Mounting [Sample.hundred] starts a measurement at offset 0. *)
Lemma componentDidMount_syncs_witness :
  listRef Sample.hundred = Some (Sample.box 1500 300)
  /\ lockScroll Sample.hundred = false
  /\ disabled (props Sample.hundred) = false
  /\ scrollTop (state Sample.hundred) <> Some 0
  /\ exists r,
       componentDidMount Sample.hundred = Returned r
       /\ status (state r) = MEASURE_START
       /\ scrollTop (state r) = Some 0.
Proof.
  assert (Href : listRef Sample.hundred = Some (Sample.box 1500 300)) by reflexivity.
  assert (Hl : lockScroll Sample.hundred = false) by reflexivity.
  assert (Hen : disabled (props Sample.hundred) = false) by reflexivity.
  assert (Hnew : scrollTop (state Sample.hundred) <> Some 0) by discriminate.
  split; [exact Href|]. split; [exact Hl|]. split; [exact Hen|]. split; [exact Hnew|].
  destruct (componentDidMount_syncs Sample.hundred (Sample.box 1500 300) Href)
    as (r & Hr & _ & Hstart & _).
  exists r. split; [exact Hr | exact (Hstart Hl Hen Hnew)].
Defined.

(** The measuring pass of [Sample.measuring]. *)
Lemma measure_pass_offsets_witness :
  status (state Sample.measuring) = MEASURE_START
  /\ disabled (props Sample.measuring) = false
  /\ lengthChanged Sample.measuring = false
  /\ listRef Sample.measuring = Some (Sample.box 60 30)
  /\ exists r,
       SpecHelpers.componentDidUpdate Sample.measuring = Returned r
       /\ status (state r) = MEASURE_DONE.
Proof.
  assert (Hs : status (state Sample.measuring) = MEASURE_START) by reflexivity.
  assert (Hen : disabled (props Sample.measuring) = false) by reflexivity.
  assert (Hlen : lengthChanged Sample.measuring = false) by reflexivity.
  assert (Href : listRef Sample.measuring = Some (Sample.box 60 30)) by reflexivity.
  split; [exact Hs|]. split; [exact Hen|]. split; [exact Hlen|]. split; [exact Href|].
  unfold SpecHelpers.componentDidUpdate.
  destruct (proj1 (measure_pass_offsets SpecHelpers.GHOST_ITEM_KEY
                     SpecHelpers.getItemRelativeTop SpecHelpers.getItemAbsoluteTop
                     SpecHelpers.getCompareItemRelativeTop
                     SpecHelpers.getIndexByStartLoc
                     Sample.measuring Hs Hen Hlen) (Sample.box 60 30) Href)
    as (r & Hr & Hdone & _).
  exists r. split; [exact Hr | exact Hdone].
Defined.

(** After an update pass [Sample.inserted] caches its new props. *)
Lemma update_caches_props_witness :
  disabled (props Sample.inserted) = false
  /\ listRef Sample.inserted = Some (Sample.box 60 30)
  /\ exists r,
       SpecHelpers.componentDidUpdate Sample.inserted = Returned r
       /\ cachedProps r = Some (props Sample.inserted).
Proof.
  assert (Hen : disabled (props Sample.inserted) = false) by reflexivity.
  assert (Href : listRef Sample.inserted = Some (Sample.box 60 30)) by reflexivity.
  split; [exact Hen|]. split; [exact Href|].
  unfold SpecHelpers.componentDidUpdate.
  destruct (update_caches_props SpecHelpers.GHOST_ITEM_KEY
              SpecHelpers.getItemRelativeTop SpecHelpers.getItemAbsoluteTop
              SpecHelpers.getCompareItemRelativeTop SpecHelpers.getIndexByStartLoc
              Sample.inserted Hen) as (Hcached & Hreturns & _).
  destruct (Hreturns (Sample.box 60 30) Href) as [r Hr].
  exists r. split; [exact Hr | exact (proj1 (Hcached r Hr))].
Defined.

(** A second update pass on [Sample.measuring] changes nothing. *)
Lemma update_pass_settles_witness :
  disabled (props Sample.measuring) = false
  /\ lengthChanged Sample.measuring = false
  /\ SpecHelpers.componentDidUpdate
       (after (SpecHelpers.componentDidUpdate Sample.measuring))
     = SpecHelpers.componentDidUpdate Sample.measuring.
Proof.
  assert (Hen : disabled (props Sample.measuring) = false) by reflexivity.
  assert (Hlen : lengthChanged Sample.measuring = false) by reflexivity.
  split; [exact Hen|]. split; [exact Hlen|]. unfold SpecHelpers.componentDidUpdate.
  exact (update_pass_settles SpecHelpers.GHOST_ITEM_KEY
           SpecHelpers.getItemRelativeTop SpecHelpers.getItemAbsoluteTop
           SpecHelpers.getCompareItemRelativeTop SpecHelpers.getIndexByStartLoc
           Sample.measuring Hen Hlen).
Defined.

(** A relative [scrollTo] on [Sample.hundred] returns. *)
Lemma scrollTo_relative_applies_witness :
  listRef Sample.hundred = Some (Sample.box 1500 300)
  /\ exists r, SpecHelpers.scrollTo (ArgRelative Sample.firstAtTop) Sample.hundred
               = Returned r.
Proof.
  assert (Href : listRef Sample.hundred = Some (Sample.box 1500 300)) by reflexivity.
  split; [exact Href|]. unfold SpecHelpers.scrollTo.
  destruct (scrollTo_relative_applies SpecHelpers.GHOST_ITEM_KEY
              SpecHelpers.getItemRelativeTop SpecHelpers.getCompareItemRelativeTop
              SpecHelpers.getIndexByStartLoc Sample.hundred (Sample.box 1500 300)
              Sample.firstAtTop Href) as [Hsame|(r & b & Hr & _)].
  - exists Sample.hundred. exact Hsame.
  - exists r. exact Hr.
Defined.

(** On [Sample.hundred] the recorded score 0 is at most that of offset 5. *)
Lemma scrollSearch_keeps_minimum_witness :
  bestSimilarity (sr_acc (SpecHelpers.scrollSearch Sample.hundred 300 Sample.firstAtTop))
  = Some 0%Q
  /\ In 5 (sr_visited (SpecHelpers.scrollSearch Sample.hundred 300 Sample.firstAtTop))
  /\ windowContains (candidateRange Sample.hundred 300 5) (rs_itemIndex Sample.firstAtTop)
     = true
  /\ (0 <= candidateSimilarity SpecHelpers.GHOST_ITEM_KEY SpecHelpers.getItemRelativeTop
             SpecHelpers.getCompareItemRelativeTop Sample.hundred 300
             Sample.firstAtTop 5)%Q.
Proof.
  unfold SpecHelpers.scrollSearch.
  assert (Hs : bestSimilarity
                 (sr_acc (scrollSearch SpecHelpers.GHOST_ITEM_KEY
                            SpecHelpers.getItemRelativeTop
                            SpecHelpers.getCompareItemRelativeTop
                            SpecHelpers.getIndexByStartLoc
                            Sample.hundred 300 Sample.firstAtTop)) = Some 0%Q)
    by (vm_compute; reflexivity).
  assert (Hc : In 5 (sr_visited (scrollSearch SpecHelpers.GHOST_ITEM_KEY
                                   SpecHelpers.getItemRelativeTop
                                   SpecHelpers.getCompareItemRelativeTop
                                   SpecHelpers.getIndexByStartLoc
                                   Sample.hundred 300 Sample.firstAtTop)))
    by (vm_compute; tauto).
  assert (Hw : windowContains (candidateRange Sample.hundred 300 5)
                 (rs_itemIndex Sample.firstAtTop) = true)
    by (vm_compute; reflexivity).
  split; [exact Hs|]. split; [exact Hc|]. split; [exact Hw|].
  exact (proj2 (scrollSearch_keeps_minimum SpecHelpers.GHOST_ITEM_KEY
                  SpecHelpers.getItemRelativeTop SpecHelpers.getCompareItemRelativeTop
                  SpecHelpers.getIndexByStartLoc Sample.hundred 300 Sample.firstAtTop
                  0%Q Hs) 5 Hc Hw).
Defined.

(** Offset 0 of [Sample.hundred] shows item 0, so the search finds a match
    and [scrollTo] sets the lock. *)
Lemma scrollSearch_finds_reachable_witness :
  In 0 (sr_visited (SpecHelpers.scrollSearch Sample.hundred 300 Sample.firstAtTop))
  /\ windowContains (candidateRange Sample.hundred 300 0) (rs_itemIndex Sample.firstAtTop)
     = true
  /\ listRef Sample.hundred = Some (Sample.box 1500 300)
  /\ exists r,
       SpecHelpers.scrollTo (ArgRelative Sample.firstAtTop) Sample.hundred = Returned r
       /\ lockScroll r = true.
Proof.
  unfold SpecHelpers.scrollSearch, SpecHelpers.scrollTo.
  assert (Hc : In 0 (sr_visited (scrollSearch SpecHelpers.GHOST_ITEM_KEY
                                   SpecHelpers.getItemRelativeTop
                                   SpecHelpers.getCompareItemRelativeTop
                                   SpecHelpers.getIndexByStartLoc
                                   Sample.hundred 300 Sample.firstAtTop)))
    by (vm_compute; tauto).
  assert (Hw : windowContains (candidateRange Sample.hundred 300 0)
                 (rs_itemIndex Sample.firstAtTop) = true)
    by (vm_compute; reflexivity).
  assert (Href : listRef Sample.hundred = Some (Sample.box 1500 300)) by reflexivity.
  split; [exact Hc|]. split; [exact Hw|]. split; [exact Href|].
  exact (proj2 (scrollSearch_finds_reachable SpecHelpers.GHOST_ITEM_KEY
                  SpecHelpers.getItemRelativeTop SpecHelpers.getCompareItemRelativeTop
                  SpecHelpers.getIndexByStartLoc Sample.hundred 300 Sample.firstAtTop
                  0 Hc Hw) (Sample.box 1500 300) Href eq_refl).
Defined.

(** The fourth offset examined on [Sample.hundred]. *)
Lemma scrollSearch_order_witness :
  sr_visited (SpecHelpers.scrollSearch Sample.hundred 300 Sample.firstAtTop) !! 3%nat
  = Some 3
  /\ 3 = SpecHelpers.getIndexByStartLoc 0 (maxScrollTopOf Sample.hundred 300)
           (scrollTop (state Sample.hundred)) (Z.of_nat 3).
Proof.
  unfold SpecHelpers.scrollSearch.
  assert (Hk : sr_visited (scrollSearch SpecHelpers.GHOST_ITEM_KEY
                             SpecHelpers.getItemRelativeTop
                             SpecHelpers.getCompareItemRelativeTop
                             SpecHelpers.getIndexByStartLoc
                             Sample.hundred 300 Sample.firstAtTop) !! 3%nat = Some 3)
    by (vm_compute; reflexivity).
  split; [exact Hk|].
  exact (scrollSearch_order SpecHelpers.GHOST_ITEM_KEY SpecHelpers.getItemRelativeTop
           SpecHelpers.getCompareItemRelativeTop SpecHelpers.getIndexByStartLoc
           Sample.hundred 300 Sample.firstAtTop 3%nat 3 Hk).
Defined.

(** A relative [scrollTo] on [Sample.padded], whose container is taller
    than its content. *)
Lemma scrollTo_nothing_to_scroll_witness :
  listRef Sample.padded = Some (Sample.box 60 70)
  /\ Z.of_nat (length (dataSource (props Sample.padded))) * itemHeight (props Sample.padded)
     <= el_clientHeight (Sample.box 60 70)
  /\ SpecHelpers.scrollTo (ArgRelative Sample.firstAtTop) Sample.padded
     = Returned Sample.padded.
Proof.
  assert (Href : listRef Sample.padded = Some (Sample.box 60 70)) by reflexivity.
  assert (Hfit : Z.of_nat (length (dataSource (props Sample.padded)))
                   * itemHeight (props Sample.padded)
                 <= el_clientHeight (Sample.box 60 70))
    by (vm_compute; discriminate).
  split; [exact Href|]. split; [exact Hfit|]. unfold SpecHelpers.scrollTo.
  exact (proj2 (scrollTo_nothing_to_scroll SpecHelpers.GHOST_ITEM_KEY
                  SpecHelpers.getItemRelativeTop SpecHelpers.getCompareItemRelativeTop
                  SpecHelpers.getIndexByStartLoc Sample.padded (Sample.box 60 70)
                  Sample.firstAtTop Href Hfit)).
Defined.

(** Two frames after a relative [scrollTo] and a scroll event. *)
Lemma lock_never_stuck_witness :
  lockScroll Sample.hundred = false
  /\ lockScroll
       (animationFrame
          (animationFrame
             (SpecHelpers.run Sample.hundred
                [EvScrollTo (ArgRelative Sample.firstAtTop); EvScroll 5]))) = false.
Proof.
  assert (Hl : lockScroll Sample.hundred = false) by reflexivity.
  split; [exact Hl|]. unfold SpecHelpers.run.
  exact (proj2 (lock_never_stuck SpecHelpers.GHOST_ITEM_KEY
                  SpecHelpers.getItemRelativeTop SpecHelpers.getItemAbsoluteTop
                  SpecHelpers.getCompareItemRelativeTop SpecHelpers.getIndexByStartLoc
                  Sample.hundred
                  [EvScrollTo (ArgRelative Sample.firstAtTop); EvScroll 5] Hl)).
Defined.

(** The status of [Sample.hundred] after a scroll event and a frame. *)
Lemma status_never_returns_to_none_witness :
  state Sample.hundred = initialState
  /\ statusTracksScrollTop
       (state (SpecHelpers.run Sample.hundred [EvScroll 600; EvAnimationFrame])).
Proof.
  assert (Hi : state Sample.hundred = initialState) by reflexivity.
  split; [exact Hi|]. unfold SpecHelpers.run.
  exact (proj2 (status_never_returns_to_none SpecHelpers.GHOST_ITEM_KEY
                  SpecHelpers.getItemRelativeTop SpecHelpers.getItemAbsoluteTop
                  SpecHelpers.getCompareItemRelativeTop SpecHelpers.getIndexByStartLoc
                  [EvScroll 600; EvAnimationFrame] Sample.hundred) Hi).
Defined.

(** The second child rendered for [Sample.measuring]. *)
Lemma render_window_children_witness :
  height (props Sample.measuring) = Some 30
  /\ 30 < Z.of_nat (length (dataSource (props Sample.measuring)))
          * itemHeight (props Sample.measuring)
  /\ stateWindowHolds (state Sample.measuring)
  /\ length (out_children (render SpecHelpers.GHOST_ITEM_KEY Sample.measuring))
     = Z.to_nat (Z.min (endIndex (state Sample.measuring) + 1)
                       (Z.of_nat (length (dataSource (props Sample.measuring))))
                 - startIndex (state Sample.measuring)).
Proof.
  assert (Hh : height (props Sample.measuring) = Some 30) by reflexivity.
  assert (Hover : 30 < Z.of_nat (length (dataSource (props Sample.measuring)))
                       * itemHeight (props Sample.measuring))
    by (vm_compute; reflexivity).
  assert (Hwin : stateWindowHolds (state Sample.measuring))
    by (vm_compute; repeat split; discriminate).
  split; [exact Hh|]. split; [exact Hover|]. split; [exact Hwin|].
  exact (proj1 (proj2 (proj2 (proj2 (proj2
           (render_window_children SpecHelpers.GHOST_ITEM_KEY Sample.measuring 30
              Hh Hover Hwin)))))).
Defined.

(** [Sample.fitting] is rendered whole. *)
Lemma render_fitting_list_witness :
  height (props Sample.fitting) = Some 300
  /\ Z.of_nat (length (dataSource (props Sample.fitting))) * itemHeight (props Sample.fitting)
     <= 300
  /\ map (fun child => fst (fst child))
         (out_children (render SpecHelpers.GHOST_ITEM_KEY Sample.fitting))
     = dataSource (props Sample.fitting).
Proof.
  assert (Hh : height (props Sample.fitting) = Some 300) by reflexivity.
  assert (Hfit : Z.of_nat (length (dataSource (props Sample.fitting)))
                   * itemHeight (props Sample.fitting) <= 300)
    by (vm_compute; discriminate).
  split; [exact Hh|]. split; [exact Hfit|].
  exact (proj1 (render_fitting_list SpecHelpers.GHOST_ITEM_KEY Sample.fitting 300
                  Hh Hfit)).
Defined.

(** A scroll of [Sample.measuring] to offset 15, then one update pass. *)
Lemma scroll_event_settles_in_one_pass_witness :
  listRef (set_listRef_scrollTop 15 Sample.measuring)
  = Some (scrolledTo 15 (Sample.box 60 30))
  /\ Some (el_scrollTop (scrolledTo 15 (Sample.box 60 30)))
     <> scrollTop (state (set_listRef_scrollTop 15 Sample.measuring))
  /\ lockScroll (set_listRef_scrollTop 15 Sample.measuring) = false
  /\ disabled (props (set_listRef_scrollTop 15 Sample.measuring)) = false
  /\ lengthChanged (set_listRef_scrollTop 15 Sample.measuring) = false
  /\ exists r r',
       onScroll (set_listRef_scrollTop 15 Sample.measuring) = Returned r
       /\ SpecHelpers.componentDidUpdate r = Returned r'
       /\ status (state r') = MEASURE_DONE.
Proof.
  assert (Href : listRef (set_listRef_scrollTop 15 Sample.measuring)
                 = Some (scrolledTo 15 (Sample.box 60 30))) by reflexivity.
  assert (Hnew : Some (el_scrollTop (scrolledTo 15 (Sample.box 60 30)))
                 <> scrollTop (state (set_listRef_scrollTop 15 Sample.measuring)))
    by (vm_compute; discriminate).
  assert (Hl : lockScroll (set_listRef_scrollTop 15 Sample.measuring) = false)
    by reflexivity.
  assert (Hen : disabled (props (set_listRef_scrollTop 15 Sample.measuring)) = false)
    by reflexivity.
  assert (Hlen : lengthChanged (set_listRef_scrollTop 15 Sample.measuring) = false)
    by reflexivity.
  split; [exact Href|]. split; [exact Hnew|]. split; [exact Hl|]. split; [exact Hen|].
  split; [exact Hlen|].
  unfold SpecHelpers.componentDidUpdate.
  destruct (scroll_event_settles_in_one_pass SpecHelpers.GHOST_ITEM_KEY
              SpecHelpers.getItemRelativeTop SpecHelpers.getItemAbsoluteTop
              SpecHelpers.getCompareItemRelativeTop SpecHelpers.getIndexByStartLoc
              (set_listRef_scrollTop 15 Sample.measuring)
              (scrolledTo 15 (Sample.box 60 30)) Href Hnew Hl Hen Hlen)
    as (r & r' & Hr & _ & Hr' & Hdone & _).
  exists r, r'. split; [exact Hr|]. split; [exact Hr' | exact Hdone].
Defined.

(** [Sample.unconstrained] renders all of its four items. *)
Lemma render_unconstrained_witness :
  height (props Sample.unconstrained) = None
  /\ map (fun child => fst (fst child))
         (out_children (render SpecHelpers.GHOST_ITEM_KEY Sample.unconstrained))
     = Sample.newItems
  /\ out_onScroll (render SpecHelpers.GHOST_ITEM_KEY Sample.unconstrained) = false.
Proof.
  assert (Hh : height (props Sample.unconstrained) = None) by reflexivity.
  split; [exact Hh|].
  destruct (render_unconstrained SpecHelpers.GHOST_ITEM_KEY Sample.unconstrained Hh)
    as (_ & Hall & _ & _ & Hscroll & _).
  split; [exact Hall | exact Hscroll].
Defined.

(** Every call on [Sample.fitting], which has no container, throws. *)
Lemma unattached_container_throws_witness :
  listRef Sample.fitting = None
  /\ onScroll Sample.fitting = Threw Sample.fitting
  /\ SpecHelpers.scrollTo (ArgNumber 10) Sample.fitting = Threw Sample.fitting
  /\ componentDidMount Sample.fitting = Threw Sample.fitting.
Proof.
  assert (Href : listRef Sample.fitting = None) by reflexivity.
  split; [exact Href|]. unfold SpecHelpers.scrollTo.
  destruct (unattached_container_throws SpecHelpers.GHOST_ITEM_KEY
              SpecHelpers.getItemRelativeTop SpecHelpers.getItemAbsoluteTop
              SpecHelpers.getCompareItemRelativeTop SpecHelpers.getIndexByStartLoc
              Sample.fitting Href) as (Hscroll & Hto & Hmount & _).
  split; [exact Hscroll|]. split; [exact (Hto (ArgNumber 10)) | exact Hmount].
Defined.

(** [Sample.hundred] re-rendered with three items that fit: the update
    pass throws and the cached props still hold the 100 items. *)
Lemma shrink_to_fit_throws_witness :
  disabled (Sample.propsOf Sample.oldItems (Some 300) false) = false
  /\ windowed (Sample.propsOf Sample.oldItems (Some 300) false) = false
  /\ lengthChanged Sample.shrunk = true
  /\ listRef Sample.shrunk = None
  /\ exists r,
       SpecHelpers.componentDidUpdate Sample.shrunk = Threw r
       /\ option_map (fun c => length (dataSource c)) (cachedProps r) = Some 100%nat.
Proof.
  assert (Hen : disabled (Sample.propsOf Sample.oldItems (Some 300) false) = false)
    by reflexivity.
  assert (Hplain : windowed (Sample.propsOf Sample.oldItems (Some 300) false) = false)
    by reflexivity.
  assert (Hlen : lengthChanged Sample.shrunk = true) by (vm_compute; reflexivity).
  split; [exact Hen|]. split; [exact Hplain|]. split; [exact Hlen|].
  unfold SpecHelpers.componentDidUpdate.
  destruct (shrink_to_fit_throws SpecHelpers.GHOST_ITEM_KEY
              SpecHelpers.getItemRelativeTop SpecHelpers.getItemAbsoluteTop
              SpecHelpers.getCompareItemRelativeTop SpecHelpers.getIndexByStartLoc
              (Sample.with_cachedProps (Sample.propsOf (Sample.items 100) (Some 300) false)
                 Sample.hundred)
              (Sample.propsOf Sample.oldItems (Some 300) false) ∅ 45 300
              Hen Hplain Hlen) as (Href & r & Hr & Hc & _).
  split; [exact Href|]. exists r. split; [exact Hr|].
  rewrite Hc. vm_compute. reflexivity.
Defined.


